(** * dynamicforms.models: a shallow embedding and its properties

    The development follows [src/dynamicforms/models.py].  The Django
    ORM is modelled as explicit state passing over a record of tables;
    Python exceptions are an error type; Python's dynamic dispatch is
    a class table with method resolution along the base-class chain.
    The module-level registry is followed twice: as the values the
    functions compute, and as lists and dicts with an identity in a
    store, where an [append] or an assignment could change them. *)

From Stdlib Require Import ZArith String Ascii List Decimal DecimalString DecimalZ.
From Stdlib Require Import Sorting.Sorted Sorting.Permutation Lia.
From stdpp Require Import base option gmap strings list fin_maps.

Local Open Scope string_scope.
Local Open Scope list_scope.
Local Open Scope Z_scope.

(** ** Python values, exceptions, results *)

(** The classes of the module, and the two framework models that
    foreign keys point to. *)
Inductive Model :=
  | InheritanceResolveModel
  | DynamicForm
  | DynamicFormQuestion
  | DynamicTextQuestion
  | DynamicMultipleChoiceAnswer
  | DynamicMultipleChoiceQuestion
  | DynamicYesNoQuestion
  | DynamicRatingQuestion
  | DynamicRatingAnswer
  | DynamicResponseSet
  | DynamicResponse
  | DynamicTextResponse
  | DynamicMultipleChoiceResponse
  | DynamicYesNoResponse
  | DynamicRatingResponse
  | User
  | ContentType.

#[global] Instance Model_eq_dec : EqDecision Model.
Proof. solve_decision. Defined.

(** Values a caller can hand to [save_response]. *)
#[warnings="-register-all"]
Inductive PyVal :=
  | PyNone
  | PyBool (b : bool)
  | PyInt (z : Z)
  | PyStr (s : string)
  | PyList (l : list PyVal).

Inductive Exn :=
  | AttributeError (msg : string)
  | DoesNotExist (m : Model)
  | IndexError
  | TypeError
  | ValueError
  | IntegrityError
  | NotImplementedError (msg : string)
  | QuestionTypeRegisterError
  | AlreadyRegistered (path : string)
  | NameError (name : string)
  | KeyError (key : string).

Inductive result (A : Type) :=
  | Ok (a : A)
  | Raise (e : Exn).
Arguments Ok {A} a.
Arguments Raise {A} e.

(** Python truth value ([if responses:], [not self.id]). *)
Definition truthy (v : PyVal) : bool :=
  match v with
  | PyNone => false
  | PyBool b => b
  | PyInt z => negb (z =? 0)
  | PyStr s => negb (String.eqb s "")
  | PyList l => match l with [] => false | _ => true end
  end.

(** [v == s] for a string literal [s]. *)
Definition py_eq_str (v : PyVal) (s : string) : bool :=
  match v with
  | PyStr t => String.eqb t s
  | _ => false
  end.

(** [for r in v]: lists yield their elements, strings their characters,
    anything else is not iterable. *)
Definition py_iter (v : PyVal) : result (list PyVal) :=
  match v with
  | PyList l => Ok l
  | PyStr s => Ok (map (fun c => PyStr (String c EmptyString)) (list_ascii_of_string s))
  | _ => Raise TypeError
  end.

(** ['%d' % n] and [int(s)]. *)
Definition fmt_d (n : Z) : string := NilZero.string_of_int (Z.to_int n).

Definition py_int (s : string) : option Z :=
  Z.of_int <$> NilZero.int_of_string s.

(** [str.lower], used by Django to derive [module_name]. *)
Definition lower_ascii (c : ascii) : ascii :=
  let n := nat_of_ascii c in
  if (Nat.leb 65 n && Nat.leb n 90)%bool then ascii_of_nat (n + 32) else c.

Fixpoint lower (s : string) : string :=
  match s with
  | EmptyString => EmptyString
  | String c s' => String (lower_ascii c) (lower s')
  end.

(** ** The class table *)

Definition class_name (m : Model) : string :=
  match m with
  | InheritanceResolveModel => "InheritanceResolveModel"
  | DynamicForm => "DynamicForm"
  | DynamicFormQuestion => "DynamicFormQuestion"
  | DynamicTextQuestion => "DynamicTextQuestion"
  | DynamicMultipleChoiceAnswer => "DynamicMultipleChoiceAnswer"
  | DynamicMultipleChoiceQuestion => "DynamicMultipleChoiceQuestion"
  | DynamicYesNoQuestion => "DynamicYesNoQuestion"
  | DynamicRatingQuestion => "DynamicRatingQuestion"
  | DynamicRatingAnswer => "DynamicRatingAnswer"
  | DynamicResponseSet => "DynamicResponseSet"
  | DynamicResponse => "DynamicResponse"
  | DynamicTextResponse => "DynamicTextResponse"
  | DynamicMultipleChoiceResponse => "DynamicMultipleChoiceResponse"
  | DynamicYesNoResponse => "DynamicYesNoResponse"
  | DynamicRatingResponse => "DynamicRatingResponse"
  | User => "User"
  | ContentType => "ContentType"
  end.

(** [cls._meta.module_name]: the lower-cased class name. *)
Definition module_name (m : Model) : string := lower (class_name m).

(** The class named in the parentheses of each [class] statement;
    [None] stands for [models.Model]. *)
Definition base (m : Model) : option Model :=
  match m with
  | DynamicFormQuestion => Some InheritanceResolveModel
  | DynamicTextQuestion => Some DynamicFormQuestion
  | DynamicMultipleChoiceQuestion => Some DynamicFormQuestion
  | DynamicYesNoQuestion => Some DynamicMultipleChoiceQuestion
  | DynamicRatingQuestion => Some DynamicMultipleChoiceQuestion
  | DynamicTextResponse => Some DynamicResponse
  | DynamicMultipleChoiceResponse => Some DynamicResponse
  | DynamicYesNoResponse => Some DynamicResponse
  | DynamicRatingResponse => Some DynamicResponse
  | _ => None
  end.

(** [class Meta: abstract = True]. *)
Definition abstract (m : Model) : bool :=
  match m with
  | InheritanceResolveModel | DynamicResponse => true
  | _ => false
  end.

(** Methods and class attributes written in the body of each class. *)
Definition own_attrs (m : Model) : list string :=
  match m with
  | InheritanceResolveModel => ["real_type"; "save"; "_get_real_type"; "resolve"]
  | DynamicForm => ["name"; "questions"; "admin_url"; "__unicode__"]
  | DynamicFormQuestion =>
      ["question_text"; "content_type"; "object_id"; "parent_object"; "order";
       "__unicode__"; "admin_url"; "pretty_name"; "display"; "save_response";
       "get_type"; "get_form_name"]
  | DynamicTextQuestion => ["pretty_name"; "display"; "save_response"]
  | DynamicMultipleChoiceAnswer => ["question"; "answer_text"]
  | DynamicMultipleChoiceQuestion =>
      ["choice_class"; "PATTERN"; "pretty_name"; "get_choices"; "display";
       "save_response"]
  | DynamicYesNoQuestion => ["pretty_name"; "display"; "save_response"]
  | DynamicRatingQuestion => ["pretty_name"; "get_choices"; "display"]
  | DynamicRatingAnswer => ["question"; "answer_text"; "__unicode__"]
  | DynamicResponseSet =>
      ["user"; "dynamic_form"; "added"; "interviewer"; "__unicode__"; "responses"]
  | DynamicResponse => ["user"; "submitted"; "dynamic_response_set"]
  | DynamicTextResponse => ["text_response"; "question"; "__unicode__"]
  | DynamicMultipleChoiceResponse => ["question"; "answer"; "__unicode__"]
  | DynamicYesNoResponse => ["question"; "response"; "__unicode__"]
  | DynamicRatingResponse => ["question"; "response"; "__unicode__"]
  | User | ContentType => []
  end.

(** The chain of classes searched by attribute lookup, nearest first.
    The deepest chain of the module has four links. *)
Fixpoint mro_from (fuel : nat) (m : Model) : list Model :=
  m :: match fuel with
       | O => []
       | S fuel' => match base m with
                    | Some b => mro_from fuel' b
                    | None => []
                    end
       end.

Definition mro (m : Model) : list Model := mro_from 4 m.

Definition issubclass (m parent : Model) : bool :=
  bool_decide (parent ∈ mro m).

(** The class whose body supplies attribute [name] of class [m]. *)
Definition resolve_attr (m : Model) (name : string) : option Model :=
  List.find (fun c => bool_decide (name ∈ own_attrs c)) (mro m).

(** Foreign keys declared in each class body: field name and target. *)
Definition own_foreign_keys (m : Model) : list (string * Model) :=
  match m with
  | InheritanceResolveModel => [("real_type", ContentType)]
  | DynamicFormQuestion => [("content_type", ContentType)]
  | DynamicMultipleChoiceAnswer => [("question", DynamicMultipleChoiceQuestion)]
  | DynamicRatingAnswer => [("question", DynamicRatingQuestion)]
  | DynamicResponseSet =>
      [("user", User); ("dynamic_form", DynamicForm); ("interviewer", User)]
  | DynamicResponse => [("user", User); ("dynamic_response_set", DynamicResponseSet)]
  | DynamicTextResponse => [("question", DynamicTextQuestion)]
  | DynamicMultipleChoiceResponse =>
      [("question", DynamicMultipleChoiceQuestion);
       ("answer", DynamicMultipleChoiceAnswer)]
  | DynamicYesNoResponse => [("question", DynamicYesNoQuestion)]
  | DynamicRatingResponse =>
      [("question", DynamicRatingQuestion); ("response", DynamicRatingAnswer)]
  | _ => []
  end.

(** Foreign keys of a model, own and inherited. *)
Definition foreign_keys (m : Model) : list (string * Model) :=
  concat (map own_foreign_keys (mro m)).

Definition foreign_key (m : Model) (field : string) : option Model :=
  snd <$> List.find (fun p => String.eqb (fst p) field) (foreign_keys m).

(** ** The regular expression of [DynamicMultipleChoiceQuestion]

    [PATTERN = compile(r'^([a-z-]+)-([0-9]+)$')], run the way a
    backtracking matcher runs it: each [+] takes as many characters as
    it can and gives them back one at a time while the rest fails. *)

Definition in_lower_dash (c : ascii) : bool :=
  let n := nat_of_ascii c in
  ((Nat.leb 97 n && Nat.leb n 122) || Nat.eqb n 45)%bool.

Definition in_digit (c : ascii) : bool :=
  let n := nat_of_ascii c in
  (Nat.leb 48 n && Nat.leb n 57)%bool.

(** [C+] followed by the continuation [k], which receives the characters
    taken and the rest of the input. *)
Fixpoint greedy_plus {R} (C : ascii -> bool) (k : list ascii -> list ascii -> option R)
    (taken s : list ascii) : option R :=
  match s with
  | [] => None
  | c :: s' =>
      if C c then
        match greedy_plus C k (taken ++ [c]) s' with
        | Some r => Some r
        | None => k (taken ++ [c]) s'
        end
      else None
  end.

(** [$]: the end of the string, or just before a final newline. *)
Definition at_dollar (s : list ascii) : bool :=
  match s with
  | [] => true
  | [c] => Nat.eqb (nat_of_ascii c) 10
  | _ => false
  end.

Definition PATTERN_match (s : list ascii) : option (string * string) :=
  greedy_plus in_lower_dash
    (fun g1 rest =>
       match rest with
       | c :: rest' =>
           if Nat.eqb (nat_of_ascii c) 45 then
             greedy_plus in_digit
               (fun g2 tl =>
                  if at_dollar tl
                  then Some (string_of_list_ascii g1, string_of_list_ascii g2)
                  else None)
               [] rest'
           else None
       | [] => None
       end)
    [] s.

(** [PATTERN.findall(r)]: the pattern is anchored at the start, so there
    is at most one match; each match is the pair of its two groups. *)
Definition PATTERN_findall (r : PyVal) : result (list (string * string)) :=
  match r with
  | PyStr s =>
      Ok (match PATTERN_match (list_ascii_of_string s) with
          | Some m => [m]
          | None => []
          end)
  | _ => Raise TypeError
  end.

(** [l[0]]. *)
Definition index0 {A} (l : list A) : result A :=
  match l with
  | x :: _ => Ok x
  | [] => Raise IndexError
  end.

(** ** Rows, instances and the database *)

(** Columns of the [DynamicFormQuestion] table other than the key. *)
Record QuestionFields := {
  real_type : option Model;
  question_text : string;
  content_type : Model;
  object_id : Z;
  order : Z
}.

(** A Python instance of [DynamicFormQuestion] or of one of its
    subclasses: its class, its key ([None] before the first save) and
    its field values. *)
Record Question := {
  cls : Model;
  obj_id : option Z;
  fields : QuestionFields
}.

Record Answer := {
  a_question : Z;
  answer_text : string
}.

(** Columns inherited from the abstract [DynamicResponse]. *)
Record DynamicResponseFields := {
  user : Z;
  submitted : Z;
  dynamic_response_set : Z
}.

Record TextResponseRow := {
  tr_base : DynamicResponseFields;
  text_response : string;
  tr_question : Z
}.

Record MultipleChoiceResponseRow := {
  mcr_base : DynamicResponseFields;
  mcr_question : Z;
  answer : Z
}.

Record YesNoResponseRow := {
  ynr_base : DynamicResponseFields;
  ynr_question : Z;
  response : bool
}.

Record RatingResponseRow := {
  rr_base : DynamicResponseFields;
  rr_question : Z;
  rr_response : Z
}.

(** One table per concrete model.  With multi-table inheritance the
    columns of a question live in the table of [DynamicFormQuestion];
    every concrete subclass has a table of parent links. *)
Record DB := {
  t_dynamicformquestion : gmap Z QuestionFields;
  t_dynamictextquestion : gset Z;
  t_dynamicmultiplechoicequestion : gset Z;
  t_dynamicyesnoquestion : gset Z;
  t_dynamicratingquestion : gset Z;
  t_dynamicmultiplechoiceanswer : gmap Z Answer;
  t_dynamicratinganswer : gmap Z Answer;
  t_dynamictextresponse : gmap Z TextResponseRow;
  t_dynamicmultiplechoiceresponse : gmap Z MultipleChoiceResponseRow;
  t_dynamicyesnoresponse : gmap Z YesNoResponseRow;
  t_dynamicratingresponse : gmap Z RatingResponseRow
}.

Definition empty_db : DB :=
  {| t_dynamicformquestion := ∅; t_dynamictextquestion := ∅;
     t_dynamicmultiplechoicequestion := ∅; t_dynamicyesnoquestion := ∅;
     t_dynamicratingquestion := ∅; t_dynamicmultiplechoiceanswer := ∅;
     t_dynamicratinganswer := ∅; t_dynamictextresponse := ∅;
     t_dynamicmultiplechoiceresponse := ∅; t_dynamicyesnoresponse := ∅;
     t_dynamicratingresponse := ∅ |}.

Definition with_dynamicformquestion (f : gmap Z QuestionFields -> gmap Z QuestionFields)
    (db : DB) : DB :=
  {| t_dynamicformquestion := f (t_dynamicformquestion db);
     t_dynamictextquestion := t_dynamictextquestion db;
     t_dynamicmultiplechoicequestion := t_dynamicmultiplechoicequestion db;
     t_dynamicyesnoquestion := t_dynamicyesnoquestion db;
     t_dynamicratingquestion := t_dynamicratingquestion db;
     t_dynamicmultiplechoiceanswer := t_dynamicmultiplechoiceanswer db;
     t_dynamicratinganswer := t_dynamicratinganswer db;
     t_dynamictextresponse := t_dynamictextresponse db;
     t_dynamicmultiplechoiceresponse := t_dynamicmultiplechoiceresponse db;
     t_dynamicyesnoresponse := t_dynamicyesnoresponse db;
     t_dynamicratingresponse := t_dynamicratingresponse db |}.

(** Adds a parent link [k] to the table of the concrete question class [m]. *)
Definition with_parent_link (m : Model) (k : Z) (db : DB) : DB :=
  let add (m' : Model) (t : gset Z) : gset Z :=
    if decide (m = m') then {[k]} ∪ t else t in
  {| t_dynamicformquestion := t_dynamicformquestion db;
     t_dynamictextquestion := add DynamicTextQuestion (t_dynamictextquestion db);
     t_dynamicmultiplechoicequestion :=
       add DynamicMultipleChoiceQuestion (t_dynamicmultiplechoicequestion db);
     t_dynamicyesnoquestion := add DynamicYesNoQuestion (t_dynamicyesnoquestion db);
     t_dynamicratingquestion := add DynamicRatingQuestion (t_dynamicratingquestion db);
     t_dynamicmultiplechoiceanswer := t_dynamicmultiplechoiceanswer db;
     t_dynamicratinganswer := t_dynamicratinganswer db;
     t_dynamictextresponse := t_dynamictextresponse db;
     t_dynamicmultiplechoiceresponse := t_dynamicmultiplechoiceresponse db;
     t_dynamicyesnoresponse := t_dynamicyesnoresponse db;
     t_dynamicratingresponse := t_dynamicratingresponse db |}.

Definition with_dynamictextresponse
    (f : gmap Z TextResponseRow -> gmap Z TextResponseRow) (db : DB) : DB :=
  {| t_dynamicformquestion := t_dynamicformquestion db;
     t_dynamictextquestion := t_dynamictextquestion db;
     t_dynamicmultiplechoicequestion := t_dynamicmultiplechoicequestion db;
     t_dynamicyesnoquestion := t_dynamicyesnoquestion db;
     t_dynamicratingquestion := t_dynamicratingquestion db;
     t_dynamicmultiplechoiceanswer := t_dynamicmultiplechoiceanswer db;
     t_dynamicratinganswer := t_dynamicratinganswer db;
     t_dynamictextresponse := f (t_dynamictextresponse db);
     t_dynamicmultiplechoiceresponse := t_dynamicmultiplechoiceresponse db;
     t_dynamicyesnoresponse := t_dynamicyesnoresponse db;
     t_dynamicratingresponse := t_dynamicratingresponse db |}.

Definition with_dynamicmultiplechoiceresponse
    (f : gmap Z MultipleChoiceResponseRow -> gmap Z MultipleChoiceResponseRow)
    (db : DB) : DB :=
  {| t_dynamicformquestion := t_dynamicformquestion db;
     t_dynamictextquestion := t_dynamictextquestion db;
     t_dynamicmultiplechoicequestion := t_dynamicmultiplechoicequestion db;
     t_dynamicyesnoquestion := t_dynamicyesnoquestion db;
     t_dynamicratingquestion := t_dynamicratingquestion db;
     t_dynamicmultiplechoiceanswer := t_dynamicmultiplechoiceanswer db;
     t_dynamicratinganswer := t_dynamicratinganswer db;
     t_dynamictextresponse := t_dynamictextresponse db;
     t_dynamicmultiplechoiceresponse := f (t_dynamicmultiplechoiceresponse db);
     t_dynamicyesnoresponse := t_dynamicyesnoresponse db;
     t_dynamicratingresponse := t_dynamicratingresponse db |}.

Definition with_dynamicyesnoresponse
    (f : gmap Z YesNoResponseRow -> gmap Z YesNoResponseRow) (db : DB) : DB :=
  {| t_dynamicformquestion := t_dynamicformquestion db;
     t_dynamictextquestion := t_dynamictextquestion db;
     t_dynamicmultiplechoicequestion := t_dynamicmultiplechoicequestion db;
     t_dynamicyesnoquestion := t_dynamicyesnoquestion db;
     t_dynamicratingquestion := t_dynamicratingquestion db;
     t_dynamicmultiplechoiceanswer := t_dynamicmultiplechoiceanswer db;
     t_dynamicratinganswer := t_dynamicratinganswer db;
     t_dynamictextresponse := t_dynamictextresponse db;
     t_dynamicmultiplechoiceresponse := t_dynamicmultiplechoiceresponse db;
     t_dynamicyesnoresponse := f (t_dynamicyesnoresponse db);
     t_dynamicratingresponse := t_dynamicratingresponse db |}.

(** ** State and exceptions *)

(** A database operation: it returns a value or raises, and leaves a
    database behind either way. *)
Definition M (A : Type) : Type := DB -> result A * DB.

#[global] Instance M_ret : MRet M := fun A a db => (Ok a, db).

#[global] Instance M_bind : MBind M := fun A B f m db =>
  match m db with
  | (Ok a, db') => f a db'
  | (Raise e, db') => (Raise e, db')
  end.

Definition raise {A} (e : Exn) : M A := fun db => (Raise e, db).

Definition lift {A} (r : result A) : M A := fun db => (r, db).

Definition query {A} (f : DB -> A) : M A := fun db => (Ok (f db), db).

Definition update (f : DB -> DB) : M unit := fun db => (Ok tt, f db).

(** [for x in l: body]. *)
Fixpoint for_each {A} (l : list A) (body : A -> M unit) : M unit :=
  match l with
  | [] => mret tt
  | x :: l' => body x;; for_each l' body
  end.

(** ** The object-relational layer *)

(** The key an insert without explicit key receives.  The database
    chooses it; what the development relies on is that it is not in use
    in the table. *)
Definition next_pk {A} (t : gmap Z A) : Z :=
  1 + foldr Z.max 0 (map_to_list t).*1.

(** [Manager.create] on a table keyed by an auto field. *)
Definition create {A} (row : A) (t : gmap Z A) : gmap Z A :=
  <[next_pk t := row]> t.

(** The concrete question tables a row of class [m] spans, besides the
    table of [DynamicFormQuestion] itself. *)
Definition link_tables (m : Model) : list Model :=
  filter (fun c => c ∈ [DynamicTextQuestion; DynamicMultipleChoiceQuestion;
                        DynamicYesNoQuestion; DynamicRatingQuestion]) (mro m).

Definition has_link (k : Z) (db : DB) (m : Model) : bool :=
  match m with
  | DynamicTextQuestion => bool_decide (k ∈ t_dynamictextquestion db)
  | DynamicMultipleChoiceQuestion => bool_decide (k ∈ t_dynamicmultiplechoicequestion db)
  | DynamicYesNoQuestion => bool_decide (k ∈ t_dynamicyesnoquestion db)
  | DynamicRatingQuestion => bool_decide (k ∈ t_dynamicratingquestion db)
  | _ => false
  end.

(** [m.objects.get(pk=k)] for a question class [m]: the join of the
    table of [m] with the tables of its concrete ancestors. *)
Definition objects_get (m : Model) (k : Z) : M Question := fun db =>
  if issubclass m DynamicFormQuestion && forallb (has_link k db) (link_tables m) then
    match t_dynamicformquestion db !! k with
    | Some f => (Ok {| cls := m; obj_id := Some k; fields := f |}, db)
    | None => (Raise (DoesNotExist m), db)
    end
  else (Raise (DoesNotExist m), db).

(** [models.Model.save] for a question instance: the row of the parent
    table is written at the instance's key, or at a new key when it has
    none, and every concrete class of the chain gets its parent link. *)
Definition Model_save (self : Question) : M Question := fun db =>
  let k := match obj_id self with
           | Some k => k
           | None => next_pk (t_dynamicformquestion db)
           end in
  let db1 := with_dynamicformquestion (insert k (fields self)) db in
  let db2 := foldr (fun m => with_parent_link m k) db1 (link_tables (cls self)) in
  (Ok {| cls := cls self; obj_id := Some k; fields := fields self |}, db2).

(** [ContentType.objects.get_for_model(c)]: content types are
    identified with the model class they describe. *)
Definition get_for_model (c : Model) : Model := c.

(** [ct.get_object_for_this_type(pk=k)]. *)
Definition get_object_for_this_type (ct : Model) (k : option Z) : M Question :=
  match k with
  | Some k => objects_get ct k
  | None => raise (DoesNotExist ct)
  end.

(** ** InheritanceResolveModel *)

(** [not self.id]: a missing key and the key 0 are both false. *)
Definition id_truthy (k : option Z) : bool :=
  match k with
  | Some k => negb (Z.eqb k 0)
  | None => false
  end.

Definition set_real_type (rt : option Model) (self : Question) : Question :=
  {| cls := cls self;
     obj_id := obj_id self;
     fields := {| real_type := rt;
                  question_text := question_text (fields self);
                  content_type := content_type (fields self);
                  object_id := object_id (fields self);
                  order := order (fields self) |} |}.

Definition _get_real_type (self : Question) : Model :=
  get_for_model (cls self).

Definition save (self : Question) : M Question :=
  let self :=
    if negb (id_truthy (obj_id self))
    then set_real_type (Some (_get_real_type self)) self
    else self in
  Model_save self.

(** [DynamicFormQuestion.__unicode__]: ["%s..." % self.question_text[:20]]. *)
Definition unicode_Question (self : Question) : string :=
  substring 0 20 (question_text (fields self)) +:+ "...".

(** The verbose name the framework derives from a class name: a space
    goes before every capital that follows a small letter or is
    followed by something other than a capital, then all is put in
    lower case and stripped. *)
Definition is_upper (c : ascii) : bool :=
  let n := nat_of_ascii c in (Nat.leb 65 n && Nat.leb n 90)%bool.

Definition is_lower (c : ascii) : bool :=
  let n := nat_of_ascii c in (Nat.leb 97 n && Nat.leb n 122)%bool.

Fixpoint spaced (prev : option ascii) (s : list ascii) : list ascii :=
  match s with
  | [] => []
  | c :: s' =>
      let after_small := match prev with Some p => is_lower p | None => false end in
      let before_other := match s' with n :: _ => negb (is_upper n) | [] => false end in
      (if (is_upper c && (after_small || before_other))%bool then [" "%char] else [])
      ++ c :: spaced (Some c) s'
  end.

Fixpoint lstrip (s : list ascii) : list ascii :=
  match s with
  | c :: s' => if Ascii.eqb c " " then lstrip s' else s
  | [] => []
  end.

Definition get_verbose_name (class_name : string) : string :=
  let chars := spaced None (list_ascii_of_string class_name) in
  lower (string_of_list_ascii (rev (lstrip (rev (lstrip chars))))).

(** ['%s' % self.real_type]: a content type prints as the verbose name
    of its model. *)
Definition str_real_type (rt : option Model) : string :=
  match rt with
  | None => "None"
  | Some ct => get_verbose_name (class_name ct)
  end.

(** [try: body except AttributeError: handler]. *)
Definition try_except_AttributeError {A} (body handler : M A) : M A := fun db =>
  match body db with
  | (Raise (AttributeError _), db') => handler db'
  | r => r
  end.

Definition resolve (self : Question) : M Question :=
  try_except_AttributeError
    (match real_type (fields self) with
     | Some ct => get_object_for_this_type ct (obj_id self)
     | None =>
         raise (AttributeError
                  "'NoneType' object has no attribute 'get_object_for_this_type'")
     end)
    (raise (AttributeError
              ("Failed to access real type for " +:+ unicode_Question self +:+
               " with self.real_type=" +:+ str_real_type (real_type (fields self))))).

(** ** DynamicForm and the ordering of its questions *)

(** The integer columns a question can be ordered by. *)
Inductive OrderColumn := col_order | col_id | col_object_id.

Definition column (c : OrderColumn) (row : Z * QuestionFields) : Z :=
  match c with
  | col_order => order row.2
  | col_id => row.1
  | col_object_id => object_id row.2
  end.

(** [DynamicFormQuestion.Meta.ordering = ['order', 'id']] and the
    default of the [order] field. *)
Definition Meta_ordering : list OrderColumn := [col_order; col_id].

Definition default_order : Z := 1000.

(** [ORDER BY c1, c2, ...], ascending: rows compared column by column. *)
Fixpoint ordering_leb (cols : list OrderColumn) (a b : Z * QuestionFields) : bool :=
  match cols with
  | [] => true
  | c :: cols' =>
      if Z.ltb (column c a) (column c b) then true
      else if Z.eqb (column c a) (column c b) then ordering_leb cols' a b
      else false
  end.

Fixpoint insert_ordered (cols : list OrderColumn) (x : Z * QuestionFields)
    (l : list (Z * QuestionFields)) : list (Z * QuestionFields) :=
  match l with
  | [] => [x]
  | y :: l' =>
      if ordering_leb cols x y then x :: y :: l'
      else y :: insert_ordered cols x l'
  end.

Definition order_by (cols : list OrderColumn) (l : list (Z * QuestionFields))
    : list (Z * QuestionFields) :=
  foldr (insert_ordered cols) [] l.

(** The rows selected by the generic relation [DynamicForm.questions]
    of the form with key [form_id]. *)
Definition is_question_of (form_id : Z) (row : Z * QuestionFields) : bool :=
  bool_decide (content_type row.2 = DynamicForm) && Z.eqb (object_id row.2) form_id.

(** [form.questions.all()]. *)
Definition questions (form_id : Z) (db : DB) : list (Z * QuestionFields) :=
  order_by Meta_ordering
    (List.filter (is_question_of form_id) (map_to_list (t_dynamicformquestion db))).

(** ** DynamicResponseSet.responses *)

Inductive Response :=
  | MultipleChoiceResponse (k : Z) (row : MultipleChoiceResponseRow)
  | TextResponse (k : Z) (row : TextResponseRow)
  | RatingResponse (k : Z) (row : RatingResponseRow)
  | YesNoResponse (k : Z) (row : YesNoResponseRow).

(** [self.<model>_set.all()] for each of the four reverse relations. *)
Definition dynamicmultiplechoiceresponse_set (rs : Z) (db : DB) :=
  List.filter (fun r => Z.eqb (dynamic_response_set (mcr_base r.2)) rs)
    (map_to_list (t_dynamicmultiplechoiceresponse db)).

Definition dynamictextresponse_set (rs : Z) (db : DB) :=
  List.filter (fun r => Z.eqb (dynamic_response_set (tr_base r.2)) rs)
    (map_to_list (t_dynamictextresponse db)).

Definition dynamicratingresponse_set (rs : Z) (db : DB) :=
  List.filter (fun r => Z.eqb (dynamic_response_set (rr_base r.2)) rs)
    (map_to_list (t_dynamicratingresponse db)).

Definition dynamicyesnoresponse_set (rs : Z) (db : DB) :=
  List.filter (fun r => Z.eqb (dynamic_response_set (ynr_base r.2)) rs)
    (map_to_list (t_dynamicyesnoresponse db)).

Definition responses (rs : Z) (db : DB) : list Response :=
  map (fun r => MultipleChoiceResponse r.1 r.2) (dynamicmultiplechoiceresponse_set rs db) ++
  map (fun r => TextResponse r.1 r.2) (dynamictextresponse_set rs db) ++
  map (fun r => RatingResponse r.1 r.2) (dynamicratingresponse_set rs db) ++
  map (fun r => YesNoResponse r.1 r.2) (dynamicyesnoresponse_set rs db).

(** The concrete response models, and for each its response set and
    its question as stored in a row. *)
Definition concrete_response_models : list Model :=
  [DynamicTextResponse; DynamicMultipleChoiceResponse; DynamicYesNoResponse;
   DynamicRatingResponse].

Definition question_types : list Model :=
  [DynamicTextQuestion; DynamicYesNoQuestion; DynamicMultipleChoiceQuestion;
   DynamicRatingQuestion].

Definition response_model (r : Response) : Model :=
  match r with
  | MultipleChoiceResponse _ _ => DynamicMultipleChoiceResponse
  | TextResponse _ _ => DynamicTextResponse
  | RatingResponse _ _ => DynamicRatingResponse
  | YesNoResponse _ _ => DynamicYesNoResponse
  end.

Definition response_set_of (r : Response) : Z :=
  match r with
  | MultipleChoiceResponse _ row => dynamic_response_set (mcr_base row)
  | TextResponse _ row => dynamic_response_set (tr_base row)
  | RatingResponse _ row => dynamic_response_set (rr_base row)
  | YesNoResponse _ row => dynamic_response_set (ynr_base row)
  end.

Definition question_of (r : Response) : Z :=
  match r with
  | MultipleChoiceResponse _ row => mcr_question row
  | TextResponse _ row => tr_question row
  | RatingResponse _ row => rr_question row
  | YesNoResponse _ row => ynr_question row
  end.

(** ** Question classes: names, form fields, choices *)

Definition pretty_name (c : Model) : result string :=
  match resolve_attr c "pretty_name" with
  | Some DynamicFormQuestion =>
      Raise (NotImplementedError "You should resolve me first before you ask me my name")
  | Some DynamicTextQuestion => Ok "Text question"
  | Some DynamicMultipleChoiceQuestion => Ok "Multiple choice question"
  | Some DynamicYesNoQuestion => Ok "Yes/No question"
  | Some DynamicRatingQuestion => Ok "Rating question"
  | _ => Raise (AttributeError "pretty_name")
  end.

(** ['%s-%d' % (self._meta.module_name, self.id)]. *)
Definition get_form_name (self : Question) : result string :=
  match obj_id self with
  | Some k => Ok (module_name (cls self) +:+ "-" +:+ fmt_d k)
  | None => Raise TypeError
  end.

(** ['/admin/dynamicforms/%s/%d/' % (self.real_type.model, self.id)];
    the [model] column of a content type is the lower-cased class name. *)
Definition admin_url (self : Question) : result string :=
  match real_type (fields self) with
  | None => Raise (AttributeError "'NoneType' object has no attribute 'model'")
  | Some ct =>
      match obj_id self with
      | Some k => Ok ("/admin/dynamicforms/" +:+ module_name ct +:+ "/" +:+ fmt_d k +:+ "/")
      | None => Raise TypeError
      end
  end.

(** [str(self._get_real_type())]. *)
Definition get_type (self : Question) : string :=
  str_real_type (Some (_get_real_type self)).

(** The rows of an answer table that point to [self]. *)
Definition answer_set (t : gmap Z Answer) (self : Question) : list (Z * Answer) :=
  match obj_id self with
  | Some k => List.filter (fun a => Z.eqb (a_question a.2) k) (map_to_list t)
  | None => []
  end.

Definition DynamicMultipleChoiceQuestion_get_choices (self : Question) (db : DB)
    : list (string * string) :=
  let answers := answer_set (t_dynamicmultiplechoiceanswer db) self in
  let name := fun k => "dynamic-multiple-choice-answer-" +:+ fmt_d k in
  map (fun a => (name a.1, answer_text a.2)) answers.

Definition DynamicRatingQuestion_get_choices (self : Question) (db : DB)
    : list (string * string) :=
  let answers := answer_set (t_dynamicratinganswer db) self in
  let name := fun k => "dynamic-rating-answer-" +:+ fmt_d k in
  map (fun a => (name a.1, answer_text a.2)) answers.

Definition get_choices (self : Question) : M (list (string * string)) :=
  match resolve_attr (cls self) "get_choices" with
  | Some DynamicMultipleChoiceQuestion =>
      query (DynamicMultipleChoiceQuestion_get_choices self)
  | Some DynamicRatingQuestion => query (DynamicRatingQuestion_get_choices self)
  | _ => raise (AttributeError "get_choices")
  end.

Inductive Widget := Textarea | CheckboxSelectMultiple | RadioSelect.

Inductive FormField :=
  | CharField (label : string) (widget : Widget)
  | MultipleChoiceField (label : string) (widget : Widget)
      (choices : list (string * string))
  | ChoiceField (label : string) (widget : Widget) (choices : list (string * string)).

Definition display (self : Question) (user : Z) : M (FormField * string) :=
  let label := question_text (fields self) in
  match resolve_attr (cls self) "display" with
  | Some DynamicFormQuestion =>
      raise (NotImplementedError "I don't know how to display myself.")
  | Some DynamicTextQuestion =>
      name ← lift (get_form_name self);
      mret (CharField label Textarea, name)
  | Some DynamicMultipleChoiceQuestion =>
      choices ← get_choices self;
      name ← lift (get_form_name self);
      mret (MultipleChoiceField label CheckboxSelectMultiple choices, name)
  | Some DynamicYesNoQuestion =>
      let choices := [("yes", "Yes"); ("no", "No")] in
      name ← lift (get_form_name self);
      mret (ChoiceField label RadioSelect choices, name)
  | Some DynamicRatingQuestion =>
      choices ← get_choices self;
      name ← lift (get_form_name self);
      mret (ChoiceField label RadioSelect choices, name)
  | _ => raise (AttributeError "display")
  end.

(** ** Names bound at module level

    In this file [models] is [django.db.models]: it holds [Model] and
    the field classes, and none of the model classes of the
    application, which are globals of the file itself. *)
Definition django_db_models : list (string * Model) := [].

(** [models.<name>]. *)
Definition models_getattr (name : string) : result Model :=
  match List.find (fun p => String.eqb p.1 name) django_db_models with
  | Some p => Ok p.2
  | None => Raise (AttributeError ("'module' object has no attribute '" +:+ name +:+ "'"))
  end.

(** The key stored for a foreign key to [q]; an instance without key
    cannot be referenced. *)
Definition fk (q : Question) : result Z :=
  match obj_id q with
  | Some k => Ok k
  | None => Raise IntegrityError
  end.

(** [DynamicMultipleChoiceAnswer.objects.get(id=s)] for a string [s]. *)
Definition answer_get (s : string) : M (Z * Answer) := fun db =>
  match py_int s with
  | None => (Raise ValueError, db)
  | Some k =>
      match t_dynamicmultiplechoiceanswer db !! k with
      | Some a => (Ok (k, a), db)
      | None => (Raise (DoesNotExist DynamicMultipleChoiceAnswer), db)
      end
  end.

(** ** Class objects as the registry sees them *)

(** What the registration code reads from a class: the outcome of its
    [pretty_name()], [_meta.module_name], [_meta.app_label] and its
    [choice_class] attribute when it has one. *)
Record ClassObj := {
  class_path : string;
  class_pretty_name : result string;
  class_module_name : string;
  class_app_label : string;
  class_choice_class : option string
}.

Definition class_of_model (m : Model) : ClassObj :=
  {| class_path := "dynamicforms.models." +:+ class_name m;
     class_pretty_name := pretty_name m;
     class_module_name := module_name m;
     class_app_label := "dynamicforms";
     class_choice_class :=
       match resolve_attr m "choice_class" with
       | Some _ => Some (class_name DynamicMultipleChoiceAnswer)
       | None => None
       end |}.

(** The dicts of the registry, keys [pretty_name], [slug] and [class]. *)
Record QuestionType := {
  qt_pretty_name : string;
  slug : string;
  class_ : ClassObj
}.

Definition DEFAULT_QUESTION_TYPES : list string :=
  ["dynamicforms.models.DynamicTextQuestion";
   "dynamicforms.models.DynamicYesNoQuestion";
   "dynamicforms.models.DynamicMultipleChoiceQuestion";
   "dynamicforms.models.DynamicRatingQuestion"].

(** An importer that knows the classes of this module and nothing else. *)
Definition get_class_builtin (path : string) : result ClassObj :=
  match List.find (fun m => String.eqb (class_path (class_of_model m)) path)
          [DynamicFormQuestion; DynamicTextQuestion; DynamicMultipleChoiceQuestion;
           DynamicYesNoQuestion; DynamicRatingQuestion] with
  | Some m => Ok (class_of_model m)
  | None => Raise QuestionTypeRegisterError
  end.

(** The admin site: the registered classes, and the [model] attribute
    of the one [admin.StackedInline] class that every registration
    shares. *)
Record AdminClass := {
  admin_model : string;
  inlines : list string
}.

Record AdminSite := {
  site_registry : list (string * AdminClass);
  StackedInline_model : option string
}.

Definition empty_site : AdminSite :=
  {| site_registry := []; StackedInline_model := None |}.

(** ** What depends on the environment of the import

    [utcnow_at_import] is the value of [datetime.utcnow()] when the
    class body of [DynamicResponse] ran; [smart_unicode] is the
    framework's conversion of a value that is not a string to text, by
    which a text column prepares what it is given; [get_class] is the importer of
    [utils]; [DYNAMICFORMS_CUSTOM_TYPES] is the setting of that name,
    empty when the setting is absent. *)
Section Module_level.

Variable utcnow_at_import : Z.
Variable smart_unicode : PyVal -> string.
Variable get_class : string -> result ClassObj.
Variable DYNAMICFORMS_CUSTOM_TYPES : list string.

Definition response_base (user response_set : Z) : DynamicResponseFields :=
  {| user := user; submitted := utcnow_at_import;
     dynamic_response_set := response_set |}.

(** *** save_response, class by class *)

(** What the column [text_response] receives: a string goes in as it
    is, any other value in its text form, and [None] is refused, the
    column not being nullable. *)
Definition text_column (response : PyVal) : result string :=
  match response with
  | PyNone => Raise IntegrityError
  | PyStr s => Ok s
  | v => Ok (smart_unicode v)
  end.

Definition DynamicTextQuestion_save_response (cls : Model) (user question_id : Z)
    (response : PyVal) (response_set : Z) : M unit :=
  q ← objects_get cls question_id;
  k ← lift (fk q);
  text ← lift (text_column response);
  update (with_dynamictextresponse
            (create {| tr_base := response_base user response_set;
                       text_response := text;
                       tr_question := k |})).

Definition DynamicMultipleChoiceQuestion_save_response (cls : Model)
    (user question_id : Z) (responses : PyVal) (response_set : Z) : M unit :=
  q ← objects_get cls question_id;
  if truthy responses then
    rs ← lift (py_iter responses);
    for_each rs (fun r =>
      found ← lift (PATTERN_findall r);
      meta ← lift (index0 found);
      answer ← answer_get meta.2;
      _ ← lift (models_getattr "DynamicMultipleChoiceResponse");
      k ← lift (fk q);
      update (with_dynamicmultiplechoiceresponse
                (create {| mcr_base := response_base user response_set;
                           mcr_question := k;
                           answer := answer.1 |})))
  else mret tt.

Definition DynamicYesNoQuestion_save_response (cls : Model) (user question_id : Z)
    (response : PyVal) (response_set : Z) : M unit :=
  q ← objects_get cls question_id;
  k ← lift (fk q);
  update (with_dynamicyesnoresponse
            (create {| ynr_base := response_base user response_set;
                       ynr_question := k;
                       response := if py_eq_str response "yes" then true else false |})).

(** [cls.save_response(user, question_id, response, response_set)]:
    the body run is the one of the nearest class that defines it. *)
Definition save_response (cls : Model) (user question_id : Z) (response : PyVal)
    (response_set : Z) : M unit :=
  match resolve_attr cls "save_response" with
  | Some DynamicFormQuestion =>
      raise (NotImplementedError
               ("My name is " +:+ class_name cls +:+
                " and I don't know how to save a response."))
  | Some DynamicTextQuestion =>
      DynamicTextQuestion_save_response cls user question_id response response_set
  | Some DynamicMultipleChoiceQuestion =>
      DynamicMultipleChoiceQuestion_save_response cls user question_id response
        response_set
  | Some DynamicYesNoQuestion =>
      DynamicYesNoQuestion_save_response cls user question_id response response_set
  | _ => raise (AttributeError "save_response")
  end.

(** *** The registry *)

(** The loop of [register_questions_types], with the list built so far
    and the lines printed so far. *)
Fixpoint register_loop (types : list string) (question_types : list QuestionType)
    (out : list string) : result (list QuestionType) * list string :=
  match types with
  | [] => (Ok question_types, out)
  | t :: types' =>
      match get_class t with
      | Raise QuestionTypeRegisterError =>
          register_loop types' question_types (out ++ ["Failed to register " +:+ t])
      | Raise e => (Raise e, out)
      | Ok c =>
          match class_pretty_name c with
          | Raise e => (Raise e, out)
          | Ok name =>
              register_loop types'
                (question_types ++
                 [{| qt_pretty_name := name; slug := class_module_name c; class_ := c |}])
                out
          end
      end
  end.

(** The result and the lines printed. *)
Definition register_questions_types (tuples : list (list string))
    : result (list QuestionType) * list string :=
  let types := concat tuples in
  register_loop types [] [].

Definition _get_creation_choices (QUESTION_TYPES : list QuestionType)
    : list (string * string) :=
  ("", "------") ::
  map (fun question_type =>
         let app_label := class_app_label (class_ question_type) in
         ("/admin/" +:+ app_label +:+ "/" +:+ slug question_type +:+ "/add/",
          qt_pretty_name question_type))
    QUESTION_TYPES.

(** [admin.site.register(class_, admin_class)]. *)
Definition site_register (c : ClassObj) (a : AdminClass) (site : AdminSite)
    : result unit * AdminSite :=
  if existsb (fun p => String.eqb p.1 (class_path c)) (site_registry site)
  then (Raise (AlreadyRegistered (class_path c)), site)
  else (Ok tt, {| site_registry := site_registry site ++ [(class_path c, a)];
                  StackedInline_model := StackedInline_model site |}).

Fixpoint register_admin (QUESTION_TYPES : list QuestionType) (site : AdminSite)
    : result unit * AdminSite :=
  match QUESTION_TYPES with
  | [] => (Ok tt, site)
  | t :: rest =>
      let class_ := class_ t in
      let admin_class := {| admin_model := class_path class_; inlines := [] |} in
      let '(admin_class, site) :=
        match class_choice_class class_ with
        | Some choice_class =>
            ({| admin_model := class_path class_; inlines := ["StackedInline"] |},
             {| site_registry := site_registry site;
                StackedInline_model := Some choice_class |})
        | None => (admin_class, site)
        end in
      match site_register class_ admin_class site with
      | (Ok _, site') => register_admin rest site'
      | (Raise e, site') => (Raise e, site')
      end
  end.

(** *** Module globals and the import of the module *)

Record Globals := {
  QUESTION_TYPES : list QuestionType;
  CHOICES : list (string * string)
}.

Record World := {
  globals : Globals;
  admin_site : AdminSite;
  stdout : list string;
  db : DB
}.

(** The module-level statements from [QUESTION_TYPES = ...] to
    [register_admin()], in order.  An exception aborts the import. *)
Definition import_module (site : AdminSite) (d : DB) : result World :=
  match register_questions_types [DEFAULT_QUESTION_TYPES; DYNAMICFORMS_CUSTOM_TYPES] with
  | (Raise e, _) => Raise e
  | (Ok question_types, out) =>
      let choices := _get_creation_choices question_types in
      match register_admin question_types site with
      | (Raise e, _) => Raise e
      | (Ok _, site') =>
          Ok {| globals := {| QUESTION_TYPES := question_types; CHOICES := choices |};
                admin_site := site';
                stdout := out;
                db := d |}
      end
  end.

(** The functions and methods of the module a caller can invoke once
    it is imported. *)
Inductive Operation :=
  | call_save (self : Question)
  | call_resolve (self : Question)
  | call_questions (form_id : Z)
  | call_pretty_name (cls : Model)
  | call_get_form_name (self : Question)
  | call_admin_url (self : Question)
  | call_get_type (self : Question)
  | call_get_choices (self : Question)
  | call_display (self : Question) (user : Z)
  | call_save_response (cls : Model) (user question_id : Z) (response : PyVal)
      (response_set : Z)
  | call_responses (response_set : Z)
  | call_register_questions_types (tuples : list (list string))
  | call__get_creation_choices
  | call_register_admin.

Definition with_db (w : World) (d : DB) : World :=
  {| globals := globals w; admin_site := admin_site w; stdout := stdout w; db := d |}.

(** The world after a call; the value returned or raised is dropped. *)
Definition run (op : Operation) (w : World) : World :=
  match op with
  | call_save self => with_db w (save self (db w)).2
  | call_resolve self => with_db w (resolve self (db w)).2
  | call_questions _ | call_pretty_name _ | call_get_form_name _ | call_admin_url _
  | call_get_type _ | call_responses _ | call__get_creation_choices => w
  | call_get_choices self => with_db w (get_choices self (db w)).2
  | call_display self user => with_db w (display self user (db w)).2
  | call_save_response cls user question_id response response_set =>
      with_db w (save_response cls user question_id response response_set (db w)).2
  | call_register_questions_types tuples =>
      {| globals := globals w; admin_site := admin_site w;
         stdout := stdout w ++ (register_questions_types tuples).2; db := db w |}
  | call_register_admin =>
      {| globals := globals w;
         admin_site := (register_admin (QUESTION_TYPES (globals w)) (admin_site w)).2;
         stdout := stdout w; db := db w |}
  end.

End Module_level.

(** ** The module-level names and the objects they hold *)

(** A list or a dict is an object with an identity: two names can hold
    the same list, and an [append] through one is seen through the
    other.  Strings, classes and tuples cannot be changed and are
    values. *)
Definition loc := nat.

#[warnings="-register-all"]
Inductive Value :=
  | VStr (s : string)
  | VClass (c : ClassObj)
  | VTuple (items : list Value)
  | VRef (l : loc).

Inductive Object :=
  | OList (items : list Value)
  | ODict (entries : list (string * Value)).

(** The objects alive, the names bound at module level, the admin
    site, the lines printed and the tables. *)
Record Store := {
  heap : gmap loc Object;
  module_globals : gmap string Value;
  site : AdminSite;
  printed : list string;
  tables : DB
}.

Definition with_heap (h : gmap loc Object) (s : Store) : Store :=
  {| heap := h; module_globals := module_globals s; site := site s;
     printed := printed s; tables := tables s |}.

Definition with_site (a : AdminSite) (s : Store) : Store :=
  {| heap := heap s; module_globals := module_globals s; site := a;
     printed := printed s; tables := tables s |}.

Definition with_tables (d : DB) (s : Store) : Store :=
  {| heap := heap s; module_globals := module_globals s; site := site s;
     printed := printed s; tables := d |}.

(** A piece of module-level code: it returns or raises and leaves a
    store behind, or it leaves what is modelled here ([None]): a loop
    that outgrows the list it runs over, a loop over a dict, the text
    form of a value that is not a string, a registration of something
    that is not a class. *)
Definition Prog (A : Type) : Type := Store -> option (result A * Store).

#[global] Instance Prog_ret : MRet Prog := fun A a s => Some (Ok a, s).

#[global] Instance Prog_bind : MBind Prog := fun A B f m s =>
  match m s with
  | Some (Ok a, s') => f a s'
  | Some (Raise e, s') => Some (Raise e, s')
  | None => None
  end.

Definition raise_in {A} (e : Exn) : Prog A := fun s => Some (Raise e, s).

Definition lift_in {A} (r : result A) : Prog A := fun s => Some (r, s).

Definition not_modelled {A} : Prog A := fun _ => None.

(** A list or dict display: a new object, under an identity not in
    use. *)
Definition alloc (o : Object) : Prog loc := fun s =>
  let l := fresh (dom (heap s)) in
  Some (Ok l, with_heap (<[l := o]> (heap s)) s).

(** Reading and binding a module-level name. *)
Definition get_global (name : string) : Prog Value := fun s =>
  match module_globals s !! name with
  | Some v => Some (Ok v, s)
  | None => Some (Raise (NameError name), s)
  end.

Definition set_global (name : string) (v : Value) : Prog unit := fun s =>
  Some (Ok tt,
        {| heap := heap s; module_globals := <[name := v]> (module_globals s);
           site := site s; printed := printed s; tables := tables s |}).

(** [l.append(v)] on the list [l]. *)
Definition list_append (l : loc) (v : Value) : Prog unit := fun s =>
  match heap s !! l with
  | Some (OList items) => Some (Ok tt, with_heap (<[l := OList (items ++ [v])]> (heap s)) s)
  | _ => None
  end.

Fixpoint assoc (key : string) (entries : list (string * Value)) : option Value :=
  match entries with
  | [] => None
  | (k, v) :: entries' => if String.eqb k key then Some v else assoc key entries'
  end.

(** [v[key]] for a string [key]. *)
Definition getitem (v : Value) (key : string) : Prog Value := fun s =>
  match v with
  | VRef l =>
      match heap s !! l with
      | Some (ODict entries) =>
          match assoc key entries with
          | Some x => Some (Ok x, s)
          | None => Some (Raise (KeyError key), s)
          end
      | Some (OList _) => Some (Raise TypeError, s)
      | None => None
      end
  | _ => Some (Raise TypeError, s)
  end.

(** [v._meta]: what a class carries; any other value has no [_meta]. *)
Definition _meta (v : Value) : Prog ClassObj := fun s =>
  let no_attribute (type_name : string) :=
    Some (Raise (AttributeError
                   ("'" +:+ type_name +:+ "' object has no attribute '_meta'")), s) in
  match v with
  | VClass c => Some (Ok c, s)
  | VStr _ => no_attribute "str"
  | VTuple _ => no_attribute "tuple"
  | VRef l =>
      match heap s !! l with
      | Some (OList _) => no_attribute "list"
      | Some (ODict _) => no_attribute "dict"
      | None => None
      end
  end.

(** What [%s] puts for [v]. *)
Definition percent_s (v : Value) : Prog string :=
  match v with
  | VStr s => mret s
  | _ => not_modelled
  end.

(** [print line]. *)
Definition print (line : string) : Prog unit := fun s =>
  Some (Ok tt,
        {| heap := heap s; module_globals := module_globals s; site := site s;
           printed := printed s ++ [line]; tables := tables s |}).

(** The list iterator: it holds the list and an index, and reads the
    list again at every step.  [budget] is the number of steps the loop
    may still take; a loop starts with as many as its list has items. *)
Fixpoint iterate (budget : nat) (l : loc) (i : nat) (body : Value -> Prog unit)
    : Prog unit := fun s =>
  match heap s !! l with
  | Some (OList items) =>
      match items !! i with
      | None => Some (Ok tt, s)
      | Some v =>
          match budget with
          | O => None
          | S budget' => (body v;; iterate budget' l (S i) body) s
          end
      end
  | _ => None
  end.

Fixpoint for_items (items : list Value) (body : Value -> Prog unit) : Prog unit :=
  match items with
  | [] => mret tt
  | v :: items' => body v;; for_items items' body
  end.

(** [for x in v: body]. *)
Definition for_in (v : Value) (body : Value -> Prog unit) : Prog unit := fun s =>
  match v with
  | VRef l =>
      match heap s !! l with
      | Some (OList items) => iterate (length items) l 0 body s
      | _ => None
      end
  | VTuple items => for_items items body s
  | VStr str =>
      for_items ((fun c => VStr (String c "")) <$> list_ascii_of_string str) body s
  | VClass _ => Some (Raise TypeError, s)
  end.

Section Module_store.

Variable utcnow_at_import : Z.
Variable smart_unicode : PyVal -> string.
Variable get_class : string -> result ClassObj.
Variable DYNAMICFORMS_CUSTOM_TYPES : list string.

(** [register_questions_types], lines 310-332. *)
Definition register_questions_types_s (tuples : list (list string)) : Prog Value :=
  types ← alloc (OList (VStr <$> concat tuples));
  question_types ← alloc (OList []);
  for_in (VRef types) (fun t =>
    match t with
    | VStr t =>
        match get_class t with
        | Raise QuestionTypeRegisterError => print ("Failed to register " +:+ t)
        | Raise e => raise_in e
        | Ok class_ =>
            pretty_name ← lift_in (class_pretty_name class_);
            entry ← alloc (ODict [("pretty_name", VStr pretty_name);
                                  ("slug", VStr (class_module_name class_));
                                  ("class", VClass class_)]);
            list_append question_types (VRef entry)
        end
    | _ => not_modelled
    end);;
  mret (VRef question_types).

(** [_get_creation_choices()], lines 339-350. *)
Definition _get_creation_choices_s : Prog Value :=
  choices ← alloc (OList [VTuple [VStr ""; VStr "------"]]);
  QUESTION_TYPES ← get_global "QUESTION_TYPES";
  for_in QUESTION_TYPES (fun question_type =>
    class_ ← getitem question_type "class";
    meta ← _meta class_;
    let app_label := class_app_label meta in
    slug ← getitem question_type "slug";
    slug ← percent_s slug;
    pretty_name ← getitem question_type "pretty_name";
    let c := VTuple [VStr ("/admin/" +:+ app_label +:+ "/" +:+ slug +:+ "/add/");
                     pretty_name] in
    list_append choices c);;
  mret (VRef choices).

(** [admin.site.register(class_, admin_class)] on the site of the
    store. *)
Definition site_register_s (class_ : ClassObj) (admin_class : AdminClass)
    : Prog unit := fun s =>
  let '(r, a) := site_register class_ admin_class (site s) in
  Some (r, with_site a s).

(** [admin.StackedInline.model = choice_class]. *)
Definition set_StackedInline_model (choice_class : string) : Prog unit := fun s =>
  Some (Ok tt,
        with_site {| site_registry := site_registry (site s);
                     StackedInline_model := Some choice_class |} s).

(** [register_admin()], lines 357-371. *)
Definition register_admin_s : Prog unit :=
  QUESTION_TYPES ← get_global "QUESTION_TYPES";
  for_in QUESTION_TYPES (fun t =>
    class_ ← getitem t "class";
    match class_ with
    | VClass class_ =>
        let admin_class := {| admin_model := class_path class_; inlines := [] |} in
        admin_class ←
          match class_choice_class class_ with
          | Some choice_class =>
              set_StackedInline_model choice_class;;
              mret {| admin_model := class_path class_; inlines := ["StackedInline"] |}
          | None => mret admin_class
          end;
        site_register_s class_ admin_class
    | _ => not_modelled
    end).

(** The module-level statements from [QUESTION_TYPES = ...] to
    [register_admin()], in order. *)
Definition import_module_s : Prog unit :=
  v ← register_questions_types_s [DEFAULT_QUESTION_TYPES; DYNAMICFORMS_CUSTOM_TYPES];
  set_global "QUESTION_TYPES" v;;
  v ← _get_creation_choices_s;
  set_global "CHOICES" v;;
  register_admin_s.

(** The store after a call; the value returned or raised is dropped.
    The three module-level functions run in the store.  The methods of
    the model classes name no module-level object: they run on the
    tables, and the rest of the store is as before. *)
Definition run_s (op : Operation) (s : Store) : option Store :=
  let after {A} (p : Prog A) := snd <$> p s in
  let on_tables {A} (m : M A) := Some (with_tables (m (tables s)).2 s) in
  match op with
  | call_save self => on_tables (save self)
  | call_resolve self => on_tables (resolve self)
  | call_questions form_id => on_tables (query (questions form_id))
  | call_pretty_name cls => on_tables (lift (pretty_name cls))
  | call_get_form_name self => on_tables (lift (get_form_name self))
  | call_admin_url self => on_tables (lift (admin_url self))
  | call_get_type self => on_tables (query (fun _ => get_type self))
  | call_get_choices self => on_tables (get_choices self)
  | call_display self user => on_tables (display self user)
  | call_save_response cls user question_id response response_set =>
      on_tables (save_response utcnow_at_import smart_unicode cls user question_id
                   response response_set)
  | call_responses response_set => on_tables (query (responses response_set))
  | call_register_questions_types tuples => after (register_questions_types_s tuples)
  | call__get_creation_choices => after _get_creation_choices_s
  | call_register_admin => after register_admin_s
  end.

Fixpoint run_all (ops : list Operation) (s : Store) : option Store :=
  match ops with
  | [] => Some s
  | op :: ops' =>
      match run_s op s with
      | Some s' => run_all ops' s'
      | None => None
      end
  end.

End Module_store.

(** ** Vocabulary for the registry as an object *)

(** The dict appended for [qt]. *)
Definition dict_of (qt : QuestionType) : list (string * Value) :=
  [("pretty_name", VStr (qt_pretty_name qt)); ("slug", VStr (slug qt));
   ("class", VClass (class_ qt))].

(** In the heap [h] the object [l] is a list of dicts, one for each
    entry of [qts], in order. *)
Definition registry_at (h : gmap loc Object) (l : loc) (qts : list QuestionType)
    : Prop :=
  ∃ dicts : list loc,
    h !! l = Some (OList (VRef <$> dicts)) ∧
    Forall2 (fun d qt => h !! d = Some (ODict (dict_of qt))) dicts qts.

Definition choice_tuple (c : string * string) : Value :=
  VTuple [VStr c.1; VStr c.2].

(** A store right after start-up: no object, no name, nothing
    registered, no rows. *)
Definition empty_store : Store :=
  {| heap := ∅; module_globals := ∅; site := empty_site; printed := [];
     tables := empty_db |}.

(** ** Vocabulary of the statements *)

(** The order [(order, id)], weak and strict. *)
Definition order_id_le (a b : Z * QuestionFields) : Prop :=
  order a.2 < order b.2 ∨ (order a.2 = order b.2 ∧ a.1 <= b.1).

Definition order_id_lt (a b : Z * QuestionFields) : Prop :=
  order a.2 < order b.2 ∨ (order a.2 = order b.2 ∧ a.1 < b.1).

(** The dict appended for a type that imports and names itself. *)
Definition registered (get_class : string → result ClassObj) (t : string)
    : option QuestionType :=
  match get_class t with
  | Ok c =>
      match class_pretty_name c with
      | Ok name =>
          Some {| qt_pretty_name := name; slug := class_module_name c; class_ := c |}
      | Raise _ => None
      end
  | Raise _ => None
  end.

Definition import_fails (get_class : string → result ClassObj) (t : string) : bool :=
  match get_class t with
  | Raise QuestionTypeRegisterError => true
  | _ => false
  end.

(** A configured string names a question type, or its import raises
    [QuestionTypeRegisterError]. *)
Definition question_type_or_failure (get_class : string → result ClassObj)
    (t : string) : Prop :=
  get_class t = Raise QuestionTypeRegisterError ∨
  ∃ c name, get_class t = Ok c ∧ class_pretty_name c = Ok name.

Definition all_models : list Model :=
  [InheritanceResolveModel; DynamicForm; DynamicFormQuestion; DynamicTextQuestion;
   DynamicMultipleChoiceAnswer; DynamicMultipleChoiceQuestion; DynamicYesNoQuestion;
   DynamicRatingQuestion; DynamicRatingAnswer; DynamicResponseSet; DynamicResponse;
   DynamicTextResponse; DynamicMultipleChoiceResponse; DynamicYesNoResponse;
   DynamicRatingResponse; User; ContentType].

(** The concrete response models whose [question] points to [q]. *)
Definition response_models_for (q : Model) : list Model :=
  List.filter (fun m => bool_decide (foreign_key m "question" = Some q))
    (List.filter (fun m => issubclass m DynamicResponse && negb (abstract m)) all_models).

(** The row of [r] is in the table of its model. *)
Definition stored (d : DB) (r : Response) : Prop :=
  match r with
  | MultipleChoiceResponse k row => t_dynamicmultiplechoiceresponse d !! k = Some row
  | TextResponse k row => t_dynamictextresponse d !! k = Some row
  | RatingResponse k row => t_dynamicratingresponse d !! k = Some row
  | YesNoResponse k row => t_dynamicyesnoresponse d !! k = Some row
  end.

(** ** Responses as text *)

(** [DynamicYesNoResponse.__unicode__]. *)
Definition DynamicYesNoResponse_unicode (row : YesNoResponseRow) : string :=
  if response row then "Yes" else "No".

(** [DynamicTextResponse.__unicode__]: the stored response itself. *)
Definition DynamicTextResponse_unicode (row : TextResponseRow) : string :=
  text_response row.

(** ** Integrity of the tables *)

(** The parent links stored for the concrete question class [m]. *)
Definition link_table (m : Model) (d : DB) : gset Z :=
  match m with
  | DynamicTextQuestion => t_dynamictextquestion d
  | DynamicMultipleChoiceQuestion => t_dynamicmultiplechoicequestion d
  | DynamicYesNoQuestion => t_dynamicyesnoquestion d
  | DynamicRatingQuestion => t_dynamicratingquestion d
  | _ => ∅
  end.

(** The classes that have a table of parent links. *)
Definition is_link_class (m : Model) : Prop :=
  m ∈ [DynamicTextQuestion; DynamicMultipleChoiceQuestion;
       DynamicYesNoQuestion; DynamicRatingQuestion].

(** Every parent link points to a row of the question table, the links
    of the two subclasses of the multiple-choice question are links of
    the multiple-choice table, and the question of every response row
    is a question of the class its model declares. *)
Record wf_db (d : DB) : Prop := {
  wf_text : ∀ k, k ∈ t_dynamictextquestion d → is_Some (t_dynamicformquestion d !! k);
  wf_multiplechoice :
    ∀ k, k ∈ t_dynamicmultiplechoicequestion d → is_Some (t_dynamicformquestion d !! k);
  wf_yesno : t_dynamicyesnoquestion d ⊆ t_dynamicmultiplechoicequestion d;
  wf_rating : t_dynamicratingquestion d ⊆ t_dynamicmultiplechoicequestion d;
  wf_textresponse :
    ∀ k r, t_dynamictextresponse d !! k = Some r → tr_question r ∈ t_dynamictextquestion d;
  wf_multiplechoiceresponse :
    ∀ k r, t_dynamicmultiplechoiceresponse d !! k = Some r →
           mcr_question r ∈ t_dynamicmultiplechoicequestion d;
  wf_yesnoresponse :
    ∀ k r, t_dynamicyesnoresponse d !! k = Some r →
           ynr_question r ∈ t_dynamicyesnoquestion d;
  wf_ratingresponse :
    ∀ k r, t_dynamicratingresponse d !! k = Some r →
           rr_question r ∈ t_dynamicratingquestion d
}.

(** ** Vocabulary for the admin site and form names *)

(** The class paths of a list of registry entries. *)
Definition class_paths (qts : list QuestionType) : list string :=
  map (fun t => class_path (class_ t)) qts.

(** The admin class that [register_admin] builds for an entry. *)
Definition admin_class_for (t : QuestionType) : AdminClass :=
  {| admin_model := class_path (class_ t);
     inlines := match class_choice_class (class_ t) with
                | Some _ => ["StackedInline"]
                | None => []
                end |}.

(** The choice class of the last entry that has one, [init] if none has. *)
Definition last_choice_class (init : option string) (qts : list QuestionType)
    : option string :=
  foldl (fun acc t => match class_choice_class (class_ t) with
                      | Some c => Some c
                      | None => acc
                      end) init qts.

Definition no_dash (s : string) : bool :=
  forallb (fun c => negb (Ascii.eqb c "-")) (list_ascii_of_string s).

(** ** Sample data *)

Definition sample_question : Question :=
  {| cls := DynamicYesNoQuestion;
     obj_id := None;
     fields := {| real_type := None;
                  question_text := "Do you agree with this statement?";
                  content_type := DynamicForm; object_id := 1;
                  order := default_order |} |}.

(** The database after [sample_question.save()]. *)
Definition sample_db : DB := (save sample_question empty_db).2.

Definition preset_id_question : Question :=
  {| cls := DynamicTextQuestion;
     obj_id := Some 7;
     fields := {| real_type := None; question_text := "Your name?";
                  content_type := DynamicForm; object_id := 1;
                  order := default_order |} |}.

(** A database with a rating question (key 1) and one rating answer
    (key 5) for it. *)
Definition rating_db : DB :=
  {| t_dynamicformquestion :=
       {[ 1 := {| real_type := Some DynamicRatingQuestion;
                  question_text := "How was it?"; content_type := DynamicForm;
                  object_id := 1; order := default_order |} ]};
     t_dynamictextquestion := ∅;
     t_dynamicmultiplechoicequestion := {[ 1 ]};
     t_dynamicyesnoquestion := ∅;
     t_dynamicratingquestion := {[ 1 ]};
     t_dynamicmultiplechoiceanswer := ∅;
     t_dynamicratinganswer := {[ 5 := {| a_question := 1; answer_text := "Good" |} ]};
     t_dynamictextresponse := ∅;
     t_dynamicmultiplechoiceresponse := ∅;
     t_dynamicyesnoresponse := ∅;
     t_dynamicratingresponse := ∅ |}.




Definition sample_tuples : list (list string) :=
  [DEFAULT_QUESTION_TYPES; ["foo.Bar"]].

Definition sample_text_question : Question :=
  {| cls := DynamicTextQuestion;
     obj_id := None;
     fields := {| real_type := None; question_text := "Anything to add?";
                  content_type := DynamicForm; object_id := 1;
                  order := default_order |} |}.

(** The database after [sample_text_question.save()]. *)
Definition text_db : DB := (save sample_text_question empty_db).2.

(** A text conversion to instantiate the environment with: numbers in
    decimal, booleans by name. *)
Definition sample_unicode (v : PyVal) : string :=
  match v with
  | PyNone => "None"
  | PyBool true => "True"
  | PyBool false => "False"
  | PyInt z => fmt_d z
  | PyStr s => s
  | PyList _ => "[...]"
  end.

(** A world right after start-up: nothing registered, no rows. *)
Definition empty_world : World :=
  {| globals := {| QUESTION_TYPES := []; CHOICES := [] |};
     admin_site := empty_site; stdout := []; db := empty_db |}.

(** * Properties *)

(** ** Question ordering *)

Lemma ordering_leb_Meta a b :
  ordering_leb Meta_ordering a b = true ↔ order_id_le a b.
Proof.
  unfold Meta_ordering, order_id_le; cbn [ordering_leb column].
  destruct (Z.ltb_spec (order a.2) (order b.2)) as [Hlt|Hge].
  - split; [left; exact Hlt | reflexivity].
  - destruct (Z.eqb_spec (order a.2) (order b.2)) as [Heq|Hne].
    + destruct (Z.ltb_spec a.1 b.1), (Z.eqb_spec a.1 b.1); split; intros Hyp;
        try reflexivity; try discriminate; lia.
    + split; [discriminate | lia].
Qed.

Lemma order_id_le_total a b :
  ordering_leb Meta_ordering a b = false → order_id_le b a.
Proof.
  intros H.
  destruct (ordering_leb Meta_ordering a b) eqn:E; [discriminate|].
  assert (¬ order_id_le a b) as Hn by (rewrite <- ordering_leb_Meta, E; discriminate).
  unfold order_id_le in *; lia.
Qed.

Lemma order_id_le_trans a b c :
  order_id_le a b → order_id_le b c → order_id_le a c.
Proof. unfold order_id_le; lia. Qed.

Lemma insert_ordered_perm x l :
  Permutation (insert_ordered Meta_ordering x l) (x :: l).
Proof.
  induction l as [|y l IH]; cbn [insert_ordered]; [reflexivity|].
  destruct (ordering_leb Meta_ordering x y); [reflexivity|].
  rewrite IH; apply perm_swap.
Qed.

Lemma insert_ordered_sorted x l :
  Sorted order_id_le l → Sorted order_id_le (insert_ordered Meta_ordering x l).
Proof.
  induction 1 as [|y l Hs IH Hhd]; cbn [insert_ordered].
  - repeat constructor.
  - destruct (ordering_leb Meta_ordering x y) eqn:E.
    + constructor; [constructor; assumption|].
      constructor; apply ordering_leb_Meta, E.
    + constructor; [exact IH|].
      apply order_id_le_total in E.
      destruct Hhd as [|z l Hyz]; cbn [insert_ordered].
      * constructor; exact E.
      * destruct (ordering_leb Meta_ordering x z); constructor; assumption.
Qed.

Lemma order_by_perm l : Permutation (order_by Meta_ordering l) l.
Proof.
  induction l as [|x l IH]; cbn; [reflexivity|].
  rewrite insert_ordered_perm; constructor; exact IH.
Qed.

Lemma order_by_sorted l : Sorted order_id_le (order_by Meta_ordering l).
Proof.
  induction l as [|x l IH]; cbn; [constructor|].
  apply insert_ordered_sorted, IH.
Qed.

Lemma NoDup_fst_filter {A} (p : Z * A → bool) (l : list (Z * A)) :
  NoDup l.*1 → NoDup (List.filter p l).*1.
Proof.
  induction l as [|x l IH]; cbn; [trivial|].
  rewrite !NoDup_cons; intros [Hx Hl].
  destruct (p x); cbn; [|auto].
  rewrite NoDup_cons; split; [|auto].
  intros Hin; apply Hx.
  apply list_elem_of_fmap in Hin as (y & -> & Hy).
  apply list_elem_of_fmap; exists y; split; [reflexivity|].
  apply list_elem_of_In, filter_In in Hy as [Hy _].
  apply list_elem_of_In, Hy.
Qed.

Lemma strictly_sorted_of_NoDup (l : list (Z * QuestionFields)) :
  NoDup l.*1 → StronglySorted order_id_le l → StronglySorted order_id_lt l.
Proof.
  induction 2 as [|x l Hs IH Hall]; [constructor|].
  cbn in H; apply NoDup_cons in H as [Hx Hl].
  constructor; [auto|].
  rewrite List.Forall_forall in Hall |- *.
  intros y Hy; specialize (Hall y Hy).
  assert (x.1 ≠ y.1) as Hne.
  { intros Heq; apply Hx; rewrite Heq.
    apply list_elem_of_fmap; exists y; split; [reflexivity|].
    apply list_elem_of_In, Hy. }
  unfold order_id_le, order_id_lt in *; lia.
Qed.

Lemma is_question_of_spec form_id k f :
  is_question_of form_id (k, f) = true ↔
  content_type f = DynamicForm ∧ object_id f = form_id.
Proof.
  unfold is_question_of; cbn.
  rewrite andb_true_iff, bool_decide_eq_true, Z.eqb_eq; reflexivity.
Qed.

(** C5: for every form and every database, [form.questions.all()]
    lists exactly the questions attached to the form, each once, in
    ascending [order] and, among equal [order] values, in ascending
    [id]. *)
Theorem questions_ordered_by_order_then_id (form_id : Z) (d : DB) :
  StronglySorted order_id_lt (questions form_id d) ∧
  NoDup (questions form_id d) ∧
  ∀ k f, (k, f) ∈ questions form_id d ↔
         t_dynamicformquestion d !! k = Some f ∧
         content_type f = DynamicForm ∧ object_id f = form_id.
Proof.
  unfold questions.
  set (rows := List.filter _ _).
  assert (NoDup rows.*1) as Hnd
    by apply NoDup_fst_filter, NoDup_fst_map_to_list.
  pose proof (order_by_perm rows) as Hperm.
  split; [|split].
  - apply strictly_sorted_of_NoDup.
    + rewrite Hperm; exact Hnd.
    + apply Sorted_StronglySorted; [|apply order_by_sorted].
      intros a b c; apply order_id_le_trans.
  - rewrite Hperm; apply (NoDup_fmap_1 fst), Hnd.
  - intros k f. rewrite Hperm. subst rows.
    rewrite list_elem_of_In, filter_In, <- list_elem_of_In.
    rewrite elem_of_map_to_list, is_question_of_spec; tauto.
Qed.

(** ** Saving and resolving *)

Lemma link_tables_four m :
  Forall (fun c => c ∈ [DynamicTextQuestion; DynamicMultipleChoiceQuestion;
                        DynamicYesNoQuestion; DynamicRatingQuestion])
    (link_tables m).
Proof. destruct m; vm_compute; repeat constructor. Qed.

Lemma parent_links_keep_questions k l d :
  t_dynamicformquestion (foldr (fun m => with_parent_link m k) d l) =
  t_dynamicformquestion d.
Proof. induction l as [|m l IH]; cbn; [reflexivity | exact IH]. Qed.

Lemma has_link_with_parent_link k m m' d :
  has_link k (with_parent_link m' k d) m =
  if decide (m' = m) then has_link k (with_parent_link m k d) m else has_link k d m.
Proof.
  destruct (decide (m' = m)) as [->|Hne]; [reflexivity|].
  destruct m; try reflexivity; cbn;
    (destruct (decide (m' = _)) as [Heq|_]; [congruence | reflexivity]).
Qed.

Lemma has_link_after_insert k m d :
  m ∈ [DynamicTextQuestion; DynamicMultipleChoiceQuestion;
       DynamicYesNoQuestion; DynamicRatingQuestion] →
  has_link k (with_parent_link m k d) m = true.
Proof.
  rewrite !elem_of_cons, elem_of_nil.
  intros [->|[->|[->|[->|[]]]]]; cbn;
    (destruct (decide (_ = _)) as [_|Hne]; [|congruence]);
    apply bool_decide_eq_true, elem_of_union_l, elem_of_singleton; reflexivity.
Qed.

Lemma has_link_after_inserts k l d m :
  m ∈ l →
  m ∈ [DynamicTextQuestion; DynamicMultipleChoiceQuestion;
       DynamicYesNoQuestion; DynamicRatingQuestion] →
  has_link k (foldr (fun m => with_parent_link m k) d l) m = true.
Proof.
  intros Hin Hfour.
  induction l as [|m' l IH]; [inversion Hin|]; cbn [foldr].
  rewrite has_link_with_parent_link.
  destruct (decide (m' = m)) as [->|Hne].
  - apply has_link_after_insert, Hfour.
  - apply IH. apply elem_of_cons in Hin as [->|Hin]; [congruence | exact Hin].
Qed.

Lemma objects_get_after_Model_save (c : Model) (k : Z) (f : QuestionFields)
    (l : list Model) (d : DB) :
  issubclass c DynamicFormQuestion = true →
  link_tables c ⊆ l →
  let d' := foldr (fun m => with_parent_link m k)
              (with_dynamicformquestion (insert k f) d) l in
  objects_get c k d' = (Ok {| cls := c; obj_id := Some k; fields := f |}, d').
Proof.
  intros Hsub Hincl d'.
  unfold objects_get. rewrite Hsub; cbn [andb].
  assert (forallb (has_link k d') (link_tables c) = true) as ->.
  { apply forallb_forall; intros m Hm.
    apply has_link_after_inserts.
    - apply Hincl, list_elem_of_In, Hm.
    - pose proof (link_tables_four c) as Hfour.
      rewrite List.Forall_forall in Hfour; apply Hfour, Hm. }
  subst d'. rewrite parent_links_keep_questions; cbn.
  rewrite lookup_insert_eq; reflexivity.
Qed.

Lemma link_tables_base_incl c :
  link_tables DynamicFormQuestion ⊆ link_tables c.
Proof. vm_compute; intros x Hx; inversion Hx. Qed.

Lemma save_without_id_tags (self : Question) (d : DB) :
  issubclass (cls self) DynamicFormQuestion = true →
  id_truthy (obj_id self) = false →
  ∃ k d',
    let tagged := fields (set_real_type (Some (cls self)) self) in
    let saved := {| cls := cls self; obj_id := Some k; fields := tagged |} in
    let parent := {| cls := DynamicFormQuestion; obj_id := Some k; fields := tagged |} in
    save self d = (Ok saved, d') ∧
    real_type <$> t_dynamicformquestion d' !! k = Some (Some (cls self)) ∧
    objects_get DynamicFormQuestion k d' = (Ok parent, d') ∧
    resolve parent d' = (Ok saved, d').
Proof.
  intros Hsub Hid.
  unfold save, Model_save; rewrite Hid; cbn [negb].
  set (self' := set_real_type _ self).
  change (cls self') with (cls self); change (obj_id self') with (obj_id self).
  set (k := match obj_id self with Some k => k | None => _ end).
  eexists k, _; cbn zeta.
  split; [reflexivity|].
  split; [|split].
  - rewrite parent_links_keep_questions; cbn.
    rewrite lookup_insert_eq; reflexivity.
  - apply (objects_get_after_Model_save DynamicFormQuestion); [reflexivity|].
    apply link_tables_base_incl.
  - unfold resolve, try_except_AttributeError; cbn.
    unfold _get_real_type, get_for_model.
    rewrite (objects_get_after_Model_save (cls self)); [reflexivity|exact Hsub|done].
Qed.

Lemma save_with_id_keeps_fields (self : Question) (d : DB) :
  id_truthy (obj_id self) = true →
  ∃ k d',
    obj_id self = Some k ∧
    save self d = (Ok self, d') ∧
    t_dynamicformquestion d' !! k = Some (fields self) ∧
    objects_get DynamicFormQuestion k d' =
      (Ok {| cls := DynamicFormQuestion; obj_id := Some k; fields := fields self |}, d').
Proof.
  intros Hid. unfold save; rewrite Hid; cbn [negb].
  destruct self as [c [k|] f]; [|discriminate].
  unfold Model_save; cbn [cls obj_id fields].
  eexists k, _. split; [reflexivity|]. split; [reflexivity|]. split.
  - rewrite parent_links_keep_questions; cbn. apply lookup_insert_eq.
  - apply (objects_get_after_Model_save DynamicFormQuestion); [reflexivity|].
    apply link_tables_base_incl.
Qed.

(** C1 (as amended): a question of any class of the question family
    that is saved while it has no id gets the class it was created
    with as stored [real_type], and [resolve()] on the row read back as
    a plain [DynamicFormQuestion] returns the instance of that class
    with the same key and fields.  An instance saved with its id set
    comes back as it was and its row holds the fields it had, its
    [real_type] among them, whatever that was.  And the response
    models derive from the abstract [DynamicResponse], not from
    [InheritanceResolveModel]: they have no [real_type] and no
    [resolve]. *)
Theorem type_tag_follows_the_id_guard (self : Question) (d : DB) :
  issubclass (cls self) DynamicFormQuestion = true →
  (id_truthy (obj_id self) = false →
   ∃ k d',
     let tagged := fields (set_real_type (Some (cls self)) self) in
     let saved := {| cls := cls self; obj_id := Some k; fields := tagged |} in
     let parent := {| cls := DynamicFormQuestion; obj_id := Some k; fields := tagged |} in
     save self d = (Ok saved, d') ∧
     real_type <$> t_dynamicformquestion d' !! k = Some (Some (cls self)) ∧
     objects_get DynamicFormQuestion k d' = (Ok parent, d') ∧
     resolve parent d' = (Ok saved, d')) ∧
  (id_truthy (obj_id self) = true →
   ∃ k d',
     obj_id self = Some k ∧
     save self d = (Ok self, d') ∧
     t_dynamicformquestion d' !! k = Some (fields self) ∧
     real_type <$> t_dynamicformquestion d' !! k = Some (real_type (fields self)) ∧
     objects_get DynamicFormQuestion k d' =
       (Ok {| cls := DynamicFormQuestion; obj_id := Some k; fields := fields self |},
        d')) ∧
  Forall (fun m => base m = Some DynamicResponse ∧
                   abstract DynamicResponse = true ∧
                   issubclass m InheritanceResolveModel = false ∧
                   resolve_attr m "real_type" = None ∧
                   resolve_attr m "resolve" = None)
    concrete_response_models.
Proof.
  intros Hsub. split; [|split].
  - intros Hid. apply save_without_id_tags; assumption.
  - intros Hid.
    destruct (save_with_id_keeps_fields self d Hid) as (k & d' & Hk & Hsave & Hrow & Hget).
    exists k, d'. rewrite Hrow. repeat split; assumption.
  - repeat constructor.
Qed.

(** C4: [resolve()] on an instance whose [real_type] is [None] raises
    an [AttributeError] whose message names the instance; with a
    [real_type] it never raises that error, and when the row of that
    type exists it returns it. *)
Theorem resolve_needs_type_tag (self : Question) (d : DB) :
  (real_type (fields self) = None →
   resolve self d =
     (Raise (AttributeError
               ("Failed to access real type for " +:+ unicode_Question self +:+
                " with self.real_type=None")), d)) ∧
  (∀ ct, real_type (fields self) = Some ct →
     (∀ msg, (resolve self d).1 ≠ Raise (AttributeError msg)) ∧
     (∀ k f, obj_id self = Some k →
             issubclass ct DynamicFormQuestion = true →
             forallb (has_link k d) (link_tables ct) = true →
             t_dynamicformquestion d !! k = Some f →
             resolve self d = (Ok {| cls := ct; obj_id := Some k; fields := f |}, d))).
Proof.
  split.
  - intros Hnone. unfold resolve, try_except_AttributeError.
    rewrite Hnone; reflexivity.
  - intros ct Hct. unfold resolve, try_except_AttributeError; rewrite Hct.
    split.
    + intros msg.
      unfold get_object_for_this_type, objects_get, raise.
      destruct (obj_id self) as [k|]; [|discriminate].
      destruct (_ && _); [|discriminate].
      destruct (_ !! k); discriminate.
    + intros k f Hk Hsub Hlinks Hrow.
      rewrite Hk; unfold get_object_for_this_type, objects_get.
      rewrite Hsub, Hlinks, Hrow; reflexivity.
Qed.

(** ** Choice names and the pattern *)


Lemma greedy_plus_sound {R} (C : ascii → bool)
    (k : list ascii → list ascii → option R) (s taken : list ascii) (r : R) :
  greedy_plus C k taken s = Some r →
  ∃ ds tl, s = ds ++ tl ∧ ds ≠ [] ∧ Forall (fun c => C c = true) ds ∧
           k (taken ++ ds) tl = Some r.
Proof.
  revert taken.
  induction s as [|c s IH]; intros taken; cbn [greedy_plus]; [discriminate|].
  destruct (C c) eqn:Hc; [|discriminate].
  destruct (greedy_plus C k (taken ++ [c]) s) as [r'|] eqn:E.
  - intros [= ->].
    destruct (IH _ E) as (ds & tl & -> & _ & Hall & Hk).
    exists (c :: ds), tl. rewrite <- app_assoc in Hk.
    split; [reflexivity|]. split; [discriminate|]. split; [|exact Hk].
    constructor; assumption.
  - intros Hk. exists [c], s.
    split; [reflexivity|]. split; [discriminate|]. split; [|exact Hk].
    repeat constructor; assumption.
Qed.

(** What a match of [PATTERN] says about the string: letters and
    dashes, a dash, digits, and nothing more than a final newline. *)
Lemma PATTERN_match_sound (s : list ascii) (g1 g2 : string) :
  PATTERN_match s = Some (g1, g2) →
  ∃ p ds tl,
    s = p ++ "-"%char :: ds ++ tl ∧
    p ≠ [] ∧ Forall (fun c => in_lower_dash c = true) p ∧
    ds ≠ [] ∧ Forall (fun c => in_digit c = true) ds ∧
    at_dollar tl = true ∧
    g1 = string_of_list_ascii p ∧ g2 = string_of_list_ascii ds.
Proof.
  unfold PATTERN_match; intros H.
  apply greedy_plus_sound in H as (p & rest & -> & Hp & Hpall & H).
  destruct rest as [|c rest]; [discriminate|].
  destruct (Nat.eqb (nat_of_ascii c) 45) eqn:Hc; [|discriminate].
  apply Nat.eqb_eq in Hc.
  assert (c = "-"%char) as ->
    by (rewrite <- (ascii_nat_embedding c), Hc; reflexivity).
  apply greedy_plus_sound in H as (ds & tl & -> & Hd & Hdall & H).
  destruct (at_dollar tl) eqn:Htl; [|discriminate].
  injection H as <- <-.
  exists p, ds, tl; cbn [app]; auto 10.
Qed.






Lemma py_int_fmt_d (n : Z) : py_int (fmt_d n) = Some n.
Proof.
  unfold py_int, fmt_d.
  rewrite NilZero.isi.
  - cbn. rewrite DecimalZ.of_to; reflexivity.
  - destruct n; cbn; try discriminate.
    intros [= H]; exact (DecimalPos.Unsigned.to_uint_nonnil _ H).
  - destruct n; cbn; try discriminate.
    intros [= H]; exact (DecimalPos.Unsigned.to_uint_nonnil _ H).
Qed.



(** ** Saving responses *)

Lemma le_foldr_max (l : list Z) (k : Z) : k ∈ l → k <= foldr Z.max 0 l.
Proof.
  induction l as [|x l IH]; [inversion 1|].
  rewrite elem_of_cons; cbn [foldr]; intros [->|Hin]; [lia|].
  specialize (IH Hin); lia.
Qed.

Lemma next_pk_fresh {A} (t : gmap Z A) : t !! next_pk t = None.
Proof.
  destruct (t !! next_pk t) as [x|] eqn:E; [exfalso|reflexivity].
  apply elem_of_map_to_list in E.
  assert (next_pk t ∈ (map_to_list t).*1) as Hin
    by (apply list_elem_of_fmap; exists (next_pk t, x); auto).
  apply le_foldr_max in Hin. unfold next_pk in Hin at 1. lia.
Qed.

Lemma objects_get_state m k d : (objects_get m k d).2 = d.
Proof.
  unfold objects_get.
  destruct (_ && _); [|reflexivity].
  destruct (_ !! k); reflexivity.
Qed.

Lemma objects_get_ok m k d q :
  (objects_get m k d).1 = Ok q →
  objects_get m k d = (Ok q, d) ∧ obj_id q = Some k ∧ cls q = m.
Proof.
  unfold objects_get.
  destruct (_ && _); [|discriminate].
  destruct (_ !! k); [|discriminate].
  cbn; intros [= <-]; auto.
Qed.

Lemma for_each_state {A} (body : A → M unit) (l : list A) (d : DB) :
  (∀ x d, (body x d).2 = d) → (for_each l body d).2 = d.
Proof.
  intros Hbody; revert d.
  induction l as [|x l IH]; intros d; [reflexivity|].
  cbn [for_each]; unfold mbind, M_bind.
  pose proof (Hbody x d) as Hx.
  destruct (body x d) as [[[]|e] d']; cbn in Hx; subst d'; [apply IH | reflexivity].
Qed.

Lemma multiple_choice_save_response_state now c usr qid resps rs d :
  (DynamicMultipleChoiceQuestion_save_response now c usr qid resps rs d).2 = d.
Proof.
  unfold DynamicMultipleChoiceQuestion_save_response, mbind, M_bind.
  pose proof (objects_get_state c qid d) as Hq.
  destruct (objects_get c qid d) as [[q|e] d']; cbn in Hq; subst d'; [|reflexivity].
  destruct (truthy resps); [|reflexivity].
  unfold lift at 1.
  destruct (py_iter resps) as [l|e]; [|reflexivity].
  apply for_each_state; clear d; intros r d.
  unfold lift, answer_get.
  destruct (PATTERN_findall r) as [found|e]; [|reflexivity].
  destruct (index0 found) as [meta|e]; [|reflexivity].
  destruct (py_int meta.2) as [k|]; [|reflexivity].
  destruct (_ !! k); reflexivity.
Qed.

(** C2: the rating variant has no response persistence of its own: the
    body run for [DynamicRatingQuestion.save_response] is the one of
    [DynamicMultipleChoiceQuestion], and on every input neither the
    rating nor the multiple-choice variant leaves a new row in any
    table. *)
Theorem rating_save_response_is_inherited_and_stores_nothing
    (now : Z) (su : PyVal → string) (usr qid : Z) (resp : PyVal) (rs : Z) (d : DB) :
  resolve_attr DynamicRatingQuestion "save_response" =
    Some DynamicMultipleChoiceQuestion ∧
  (save_response now su DynamicRatingQuestion usr qid resp rs d).2 = d ∧
  (save_response now su DynamicMultipleChoiceQuestion usr qid resp rs d).2 = d.
Proof.
  split; [reflexivity|].
  split; apply multiple_choice_save_response_state.
Qed.

(** The text variant does persist, in its own table. *)
Lemma text_save_response_stores (now : Z) (su : PyVal → string) (usr qid : Z)
    (resp : PyVal) (rs : Z) (d : DB) (q : Question) (text : string) :
  (objects_get DynamicTextQuestion qid d).1 = Ok q →
  text_column su resp = Ok text →
  save_response now su DynamicTextQuestion usr qid resp rs d =
    (Ok tt,
     with_dynamictextresponse
       (insert (next_pk (t_dynamictextresponse d))
          {| tr_base := response_base now usr rs; text_response := text;
             tr_question := qid |}) d).
Proof.
  intros Hq Htext.
  apply objects_get_ok in Hq as (Hget & Hk & _).
  change (save_response now su DynamicTextQuestion usr qid resp rs d)
    with (DynamicTextQuestion_save_response now su DynamicTextQuestion usr qid resp rs d).
  unfold DynamicTextQuestion_save_response, mbind, M_bind.
  rewrite Hget. unfold lift, fk. rewrite Hk, Htext. reflexivity.
Qed.

(** C8: when the question exists, [DynamicYesNoQuestion.save_response]
    always stores one new row, whatever the response is, and the
    boolean of that row is [True] exactly when the response is the
    string ['yes']. *)
Theorem yes_no_stores_true_only_for_yes
    (now : Z) (su : PyVal → string) (usr qid : Z) (resp : PyVal) (rs : Z) (d : DB) (q : Question) :
  (objects_get DynamicYesNoQuestion qid d).1 = Ok q →
  ∃ row,
    save_response now su DynamicYesNoQuestion usr qid resp rs d =
      (Ok tt,
       with_dynamicyesnoresponse (insert (next_pk (t_dynamicyesnoresponse d)) row) d) ∧
    t_dynamicyesnoresponse d !! next_pk (t_dynamicyesnoresponse d) = None ∧
    ynr_question row = qid ∧
    ynr_base row = response_base now usr rs ∧
    (response row = true ↔ resp = PyStr "yes").
Proof.
  intros Hq.
  apply objects_get_ok in Hq as (Hget & Hk & _).
  eexists; split; [|split; [apply next_pk_fresh|]].
  - change (save_response now su DynamicYesNoQuestion usr qid resp rs d)
      with (DynamicYesNoQuestion_save_response now DynamicYesNoQuestion usr qid resp rs d).
    unfold DynamicYesNoQuestion_save_response, mbind, M_bind.
    rewrite Hget. unfold lift, fk. rewrite Hk. reflexivity.
  - cbn. split; [reflexivity|]. split; [reflexivity|].
    unfold py_eq_str.
    destruct resp as [|b|z|s|l]; try (split; discriminate).
    destruct (String.eqb_spec s "yes") as [->|Hne]; split; intros H;
      try reflexivity; try discriminate; congruence.
Qed.

(** C10: with a response collection that is empty or otherwise false,
    [DynamicMultipleChoiceQuestion.save_response] leaves every table as
    it was, so the responses of every response set are the same as
    before; it returns when the question exists and raises
    [DoesNotExist] when it does not. *)
Theorem falsy_responses_create_nothing
    (now : Z) (su : PyVal → string) (c : Model) (usr qid : Z) (resps : PyVal) (rs : Z) (d : DB) :
  truthy resps = false →
  let out := DynamicMultipleChoiceQuestion_save_response now c usr qid resps rs d in
  out.2 = d ∧
  (∀ s, responses s out.2 = responses s d) ∧
  (out.1 = Ok tt ∨ out.1 = Raise (DoesNotExist c)) ∧
  save_response now su DynamicMultipleChoiceQuestion usr qid resps rs d =
    DynamicMultipleChoiceQuestion_save_response now DynamicMultipleChoiceQuestion
      usr qid resps rs d.
Proof.
  intros Hfalsy out.
  assert (out.2 = d) as Hst by apply multiple_choice_save_response_state.
  split; [exact Hst|].
  split; [intros s; rewrite Hst; reflexivity|].
  split; [|reflexivity].
  subst out.
  unfold DynamicMultipleChoiceQuestion_save_response, mbind, M_bind.
  rewrite Hfalsy.
  unfold objects_get.
  destruct (_ && _); [|right; reflexivity].
  destruct (_ !! qid); [left|right]; reflexivity.
Qed.

(** ** The registry of question types *)

Lemma register_loop_spec get_class types acc out :
  Forall (question_type_or_failure get_class) types →
  register_loop get_class types acc out =
    (Ok (acc ++ omap (registered get_class) types),
     out ++ map (fun t => "Failed to register " +:+ t)
              (List.filter (import_fails get_class) types)).
Proof.
  intros Hall; revert acc out.
  induction Hall as [|t types Ht _ IH]; intros acc out.
  - cbn. rewrite !app_nil_r; reflexivity.
  - cbn [register_loop omap list_omap List.filter].
    destruct Ht as [Hfail|(c & name & Hc & Hname)].
    + assert (registered get_class t = None) as ->
        by (unfold registered; rewrite Hfail; reflexivity).
      assert (import_fails get_class t = true) as ->
        by (unfold import_fails; rewrite Hfail; reflexivity).
      rewrite Hfail, IH. cbn [map]. rewrite <- app_assoc; reflexivity.
    + assert (registered get_class t =
              Some {| qt_pretty_name := name; slug := class_module_name c;
                      class_ := c |}) as ->
        by (unfold registered; rewrite Hc, Hname; reflexivity).
      assert (import_fails get_class t = false) as ->
        by (unfold import_fails; rewrite Hc; reflexivity).
      rewrite Hc, Hname, IH. rewrite <- app_assoc; reflexivity.
Qed.

Lemma register_loop_acc get_class types acc out :
  register_loop get_class types acc out =
    (match (register_loop get_class types [] []).1 with
     | Ok l => Ok (acc ++ l)
     | Raise e => Raise e
     end,
     out ++ (register_loop get_class types [] []).2).
Proof.
  revert acc out.
  induction types as [|t types IH]; intros acc out; cbn [register_loop].
  - cbn. rewrite !app_nil_r; reflexivity.
  - destruct (get_class t) as [c|e].
    + destruct (class_pretty_name c) as [name|e]; [|cbn; rewrite app_nil_r; reflexivity].
      rewrite (IH (acc ++ _) out), (IH ([] ++ _) []). cbn [fst snd app].
      destruct (register_loop get_class types [] []).1; [|reflexivity].
      rewrite <- app_assoc; reflexivity.
    + destruct e; try (cbn; rewrite app_nil_r; reflexivity).
      rewrite (IH acc (out ++ _)), (IH [] ([] ++ _)). cbn [fst snd app].
      destruct (register_loop get_class types [] []).1;
        rewrite <- app_assoc; reflexivity.
Qed.

Lemma register_loop_app get_class t1 t2 acc out :
  register_loop get_class (t1 ++ t2) acc out =
    match register_loop get_class t1 acc out with
    | (Ok l, o) => register_loop get_class t2 l o
    | (Raise e, o) => (Raise e, o)
    end.
Proof.
  revert acc out.
  induction t1 as [|t t1 IH]; intros acc out; cbn [app register_loop]; [reflexivity|].
  destruct (get_class t) as [c|e].
  - destruct (class_pretty_name c); [apply IH | reflexivity].
  - destruct e; try reflexivity. apply IH.
Qed.

(** C3 (as amended): when every configured string either names a
    question type or fails to import with [QuestionTypeRegisterError],
    [register_questions_types] returns, in input order, one entry
    (pretty name, slug, class) for each string that imports, leaves out
    exactly the strings whose import raised, and prints one line for
    each of those; a failing import never stops the registration of the
    strings after it.  The first string whose import raises another
    exception, or whose class raises in [pretty_name()], stops the
    registration with that exception: no registry is returned, and only
    the failures before it have been printed. *)
Theorem register_questions_types_skips_failures
    (get_class : string → result ClassObj) (tuples : list (list string)) :
  (Forall (question_type_or_failure get_class) (concat tuples) →
   register_questions_types get_class tuples =
     (Ok (omap (registered get_class) (concat tuples)),
      map (fun t => "Failed to register " +:+ t)
        (List.filter (import_fails get_class) (concat tuples))) ∧
   (∀ t, t ∈ concat tuples →
         registered get_class t = None ↔ get_class t = Raise QuestionTypeRegisterError)) ∧
  (∀ before t after e,
     concat tuples = before ++ t :: after →
     Forall (question_type_or_failure get_class) before →
     (get_class t = Raise e ∧ e ≠ QuestionTypeRegisterError) ∨
     (∃ c, get_class t = Ok c ∧ class_pretty_name c = Raise e) →
     register_questions_types get_class tuples =
       (Raise e,
        map (fun t => "Failed to register " +:+ t)
          (List.filter (import_fails get_class) before))).
Proof.
  split.
  - intros Hall. split.
    + unfold register_questions_types. rewrite register_loop_spec by exact Hall.
      reflexivity.
    + intros t Ht.
      rewrite List.Forall_forall in Hall.
      apply list_elem_of_In, Hall in Ht.
      unfold registered.
      destruct Ht as [Hfail|(c & name & Hc & Hname)].
      * rewrite Hfail; tauto.
      * rewrite Hc, Hname; split; discriminate.
  - intros before t after e Hsplit Hbefore Ht.
    unfold register_questions_types. rewrite Hsplit.
    rewrite register_loop_app, register_loop_spec by exact Hbefore.
    cbn [app register_loop].
    destruct Ht as [[Hget Hne]|(c & Hget & Hname)].
    + rewrite Hget. destruct e; try reflexivity. congruence.
    + rewrite Hget, Hname. reflexivity.
Qed.

(** C3 (as stated) fails: the two strings below both import, the base
    class and the text question, yet no registry is returned, not even
    the entry of the text question: [pretty_name()] of the base class
    raises outside the [try], and the call ends with that exception. *)
Lemma register_questions_types_stops_at_unnamed_class :
  let base_class := "dynamicforms.models.DynamicFormQuestion" in
  let text_class := "dynamicforms.models.DynamicTextQuestion" in
  get_class_builtin base_class = Ok (class_of_model DynamicFormQuestion) ∧
  get_class_builtin text_class = Ok (class_of_model DynamicTextQuestion) ∧
  registered get_class_builtin text_class ≠ None ∧
  register_questions_types get_class_builtin [[base_class; text_class]] =
    (Raise (NotImplementedError "You should resolve me first before you ask me my name"),
     []).
Proof.
  cbv zeta. split; [reflexivity|]. split; [reflexivity|].
  split; [discriminate | reflexivity].
Qed.

(** ** Response tables *)

Lemma elem_of_filter_rows {A} (p : A → Z) (rs : Z) (t : gmap Z A) (x : Z * A) :
  x ∈ List.filter (fun r => Z.eqb (p r.2) rs) (map_to_list t) ↔
  t !! x.1 = Some x.2 ∧ p x.2 = rs.
Proof.
  rewrite list_elem_of_In, filter_In, <- list_elem_of_In, Z.eqb_eq.
  destruct x as [k row]; rewrite elem_of_map_to_list; reflexivity.
Qed.

(** C6: each of the four question types has exactly one concrete
    response model; every concrete response model has a foreign key to
    [DynamicResponseSet] and one to its question type; and the
    [responses] of a response set are exactly the rows of the four
    response tables that point to it. *)
Theorem one_response_table_per_question_type :
  Forall (fun q => ∃ m, response_models_for q = [m]) question_types ∧
  Forall (fun m =>
            abstract m = false ∧
            foreign_key m "dynamic_response_set" = Some DynamicResponseSet ∧
            ∃ q, q ∈ question_types ∧ foreign_key m "question" = Some q)
    concrete_response_models ∧
  ∀ (rs : Z) (d : DB) (r : Response),
    r ∈ responses rs d ↔ stored d r ∧ response_set_of r = rs.
Proof.
  split; [|split].
  - repeat constructor; eexists; vm_compute; reflexivity.
  - repeat constructor; eexists; (split; [|vm_compute; reflexivity]);
      unfold question_types; rewrite !elem_of_cons; auto.
  - intros rs d r. unfold responses.
    rewrite !elem_of_app, !list_elem_of_fmap.
    pose proof (fun x => elem_of_filter_rows
      (fun row => dynamic_response_set (mcr_base row)) rs
      (t_dynamicmultiplechoiceresponse d) x) as Hmc.
    pose proof (fun x => elem_of_filter_rows
      (fun row => dynamic_response_set (tr_base row)) rs
      (t_dynamictextresponse d) x) as Htext.
    pose proof (fun x => elem_of_filter_rows
      (fun row => dynamic_response_set (rr_base row)) rs
      (t_dynamicratingresponse d) x) as Hrating.
    pose proof (fun x => elem_of_filter_rows
      (fun row => dynamic_response_set (ynr_base row)) rs
      (t_dynamicyesnoresponse d) x) as Hyesno.
    fold (dynamicmultiplechoiceresponse_set rs d) in Hmc.
    fold (dynamictextresponse_set rs d) in Htext.
    fold (dynamicratingresponse_set rs d) in Hrating.
    fold (dynamicyesnoresponse_set rs d) in Hyesno.
    setoid_rewrite Hmc; setoid_rewrite Htext;
      setoid_rewrite Hrating; setoid_rewrite Hyesno.
    destruct r as [k row|k row|k row|k row]; cbn [stored response_set_of]; split.
    all: try (intros [(x & Hx & H)|[(x & Hx & H)|[(x & Hx & H)|(x & Hx & H)]]];
              try discriminate; injection Hx as -> ->; exact H).
    + intros H; left; exists (k, row); auto.
    + intros H; right; left; exists (k, row); auto.
    + intros H; right; right; left; exists (k, row); auto.
    + intros H; right; right; right; exists (k, row); auto.
Qed.


(** ** The registry as an object *)

Lemma registry_at_mono (h h' : gmap loc Object) (l : loc) (qts : list QuestionType) :
  h ⊆ h' → registry_at h l qts → registry_at h' l qts.
Proof.
  intros Hsub (dicts & Hl & Hd). exists dicts. split.
  - exact (lookup_weaken _ _ _ _ Hl Hsub).
  - eapply Forall2_impl; [exact Hd|].
    intros d qt H. exact (lookup_weaken _ _ _ _ H Hsub).
Qed.

Lemma fresh_heap (h : gmap loc Object) : h !! fresh (dom h) = None.
Proof. apply not_elem_of_dom, is_fresh. Qed.

Lemma iterate_eq (budget : nat) (l : loc) (i : nat) (body : Value → Prog unit)
    (s : Store) :
  iterate budget l i body s =
    match heap s !! l with
    | Some (OList items) =>
        match items !! i with
        | None => Some (Ok tt, s)
        | Some v =>
            match budget with
            | O => None
            | S budget' => (body v;; iterate budget' l (S i) body) s
            end
        end
    | _ => None
    end.
Proof. destruct budget; reflexivity. Qed.

(** A loop whose body leaves the list it runs over as it is takes one
    step for each item, and an invariant of the steps holds at its
    end. *)
Lemma iterate_rule (Inv : nat → Store → Prop) (Post : result unit → Store → Prop)
    (l : loc) (items : list Value) (body : Value → Prog unit) :
  (∀ i s, Inv i s → heap s !! l = Some (OList items)) →
  (∀ i v s, items !! i = Some v → Inv i s →
     ∃ r s', body v s = Some (r, s') ∧
       match r with Ok _ => Inv (S i) s' | Raise e => Post (Raise e) s' end) →
  (∀ s, Inv (length items) s → Post (Ok tt) s) →
  ∀ budget i s,
    (i ≤ length items)%nat → (length items ≤ i + budget)%nat → Inv i s →
    ∃ r s', iterate budget l i body s = Some (r, s') ∧ Post r s'.
Proof.
  intros Hlist Hbody Hend budget.
  induction budget as [|budget IH]; intros i s Hi Hbudget Hinv;
    rewrite iterate_eq, (Hlist i s Hinv).
  - assert (i = length items) as -> by lia.
    rewrite (proj2 (lookup_ge_None items (length items))) by lia.
    eexists _, _; split; [reflexivity | apply Hend, Hinv].
  - destruct (items !! i) as [v|] eqn:Hv.
    + unfold mbind, Prog_bind.
      destruct (Hbody i v s Hv Hinv) as (r & s' & -> & Hr).
      destruct r as [[]|e].
      * apply lookup_lt_Some in Hv.
        apply IH; [lia | lia | exact Hr].
      * eexists _, _; split; [reflexivity | exact Hr].
    + apply lookup_ge_None in Hv.
      assert (i = length items) as -> by lia.
      eexists _, _; split; [reflexivity | apply Hend, Hinv].
Qed.

Lemma for_in_list_rule (Inv : nat → Store → Prop) (Post : result unit → Store → Prop)
    (l : loc) (items : list Value) (body : Value → Prog unit) (s : Store) :
  (∀ i s, Inv i s → heap s !! l = Some (OList items)) →
  (∀ i v s, items !! i = Some v → Inv i s →
     ∃ r s', body v s = Some (r, s') ∧
       match r with Ok _ => Inv (S i) s' | Raise e => Post (Raise e) s' end) →
  (∀ s, Inv (length items) s → Post (Ok tt) s) →
  Inv 0%nat s →
  ∃ r s', for_in (VRef l) body s = Some (r, s') ∧ Post r s'.
Proof.
  intros Hlist Hbody Hend Hinv.
  unfold for_in. rewrite (Hlist _ _ Hinv).
  apply (iterate_rule Inv Post l items body Hlist Hbody Hend); [lia | lia | exact Hinv].
Qed.

Lemma register_questions_types_s_spec (get_class : string → result ClassObj)
    (tuples : list (list string)) (s : Store) :
  ∃ r s',
    register_questions_types_s get_class tuples s = Some (r, s') ∧
    heap s ⊆ heap s' ∧
    module_globals s' = module_globals s ∧ site s' = site s ∧ tables s' = tables s ∧
    printed s' = printed s ++ (register_questions_types get_class tuples).2 ∧
    match r with
    | Ok v =>
        ∃ l qts, v = VRef l ∧ heap s !! l = None ∧
                 (register_questions_types get_class tuples).1 = Ok qts ∧
                 registry_at (heap s') l qts
    | Raise e => (register_questions_types get_class tuples).1 = Raise e
    end.
Proof.
  unfold register_questions_types, register_questions_types_s.
  set (all := concat tuples).
  unfold mbind at 1 2 3, Prog_bind at 1 2 3, alloc at 1 2.
  cbv beta iota zeta.
  set (lt := fresh (dom (heap s))).
  set (s1 := with_heap (<[lt := OList (VStr <$> all)]> (heap s)) s).
  set (lq := fresh (dom (heap s1))).
  set (s2 := with_heap (<[lq := OList []]> (heap s1)) s1).
  assert (heap s !! lt = None) as Hlt by apply fresh_heap.
  assert (heap s1 !! lq = None) as Hlq1 by apply fresh_heap.
  assert (lt ≠ lq ∧ heap s !! lq = None) as [Hne Hlq].
  { cbn [s1 heap with_heap] in Hlq1.
    apply lookup_insert_None in Hlq1 as [? ?]; split; assumption. }
  set (pure := register_loop get_class all [] []).
  set (Frame := fun s' : Store =>
         heap s ⊆ heap s' ∧ module_globals s' = module_globals s ∧
         site s' = site s ∧ tables s' = tables s).
  set (Inv := fun (i : nat) (s' : Store) =>
         Frame s' ∧ heap s' !! lt = Some (OList (VStr <$> all)) ∧
         ∃ dicts acc out,
           heap s' !! lq = Some (OList (VRef <$> dicts)) ∧
           Forall2 (fun d qt => heap s' !! d = Some (ODict (dict_of qt))) dicts acc ∧
           printed s' = printed s ++ out ∧
           pure = register_loop get_class (drop i all) acc out).
  set (Post := fun (r : result unit) (s' : Store) =>
         Frame s' ∧ printed s' = printed s ++ pure.2 ∧
         match r with
         | Ok _ => ∃ qts, pure.1 = Ok qts ∧ registry_at (heap s') lq qts
         | Raise e => pure.1 = Raise e
         end).
  match goal with
  | |- context [for_in (VRef lt) ?b s2] =>
      destruct (for_in_list_rule Inv Post lt (VStr <$> all) b s2)
        as (r & s' & -> & (HF & Hout & Hr))
  end.
  - intros i s' (_ & H & _); exact H.
  - intros i v s' Hv (HF & Hlist & dicts & acc & out & Hq & Hdicts & Hout & Hpure).
    rewrite list_lookup_fmap in Hv.
    destruct (all !! i) as [t|] eqn:Ht; [|discriminate].
    injection Hv as <-.
    rewrite (drop_S _ _ _ Ht) in Hpure. cbn [register_loop] in Hpure.
    destruct HF as (Hsub & Hg & Hsite & Htab).
    destruct (get_class t) as [c|e] eqn:Hc.
    + unfold mbind, Prog_bind, lift_in.
      destruct (class_pretty_name c) as [name|e] eqn:Hname.
      * unfold alloc, list_append. cbv beta iota zeta.
        set (le := fresh (dom (heap s'))).
        assert (heap s' !! le = None) as Hle by apply fresh_heap.
        assert (le ≠ lq) as Hleq by (intros ->; congruence).
        assert (le ≠ lt) as Hlet by (intros ->; congruence).
        cbn [heap with_heap]. rewrite lookup_insert_ne, Hq by congruence.
        eexists _, _; split; [reflexivity|].
        cbn [heap with_heap module_globals site tables printed].
        assert (heap s !! le = None) as Hles
          by exact (lookup_weaken_None _ _ _ Hle Hsub).
        split; [|split].
        -- split; [|auto].
           apply insert_subseteq_r; [exact Hlq|].
           apply insert_subseteq_r; [exact Hles | exact Hsub].
        -- cbn [heap with_heap]. rewrite !lookup_insert_ne by congruence. exact Hlist.
        -- exists (dicts ++ [le]), (acc ++ [{| qt_pretty_name := name;
                                               slug := class_module_name c;
                                               class_ := c |}]), out.
           cbn [heap with_heap printed].
           split; [rewrite lookup_insert_eq, fmap_app; reflexivity|].
           split; [|split; [exact Hout | exact Hpure]].
           apply Forall2_app.
           ++ eapply Forall2_impl; [exact Hdicts|].
              intros d qt Hd. cbn beta in Hd.
              rewrite !lookup_insert_ne by congruence. exact Hd.
           ++ constructor; [|constructor].
              rewrite lookup_insert_ne, lookup_insert_eq by congruence. reflexivity.
      * eexists _, _; split; [reflexivity|].
        split; [repeat split; assumption|].
        rewrite Hpure. split; [exact Hout | reflexivity].
    + assert (∀ P : Prop, (e = QuestionTypeRegisterError → P) →
                          (e ≠ QuestionTypeRegisterError → P) → P) as Hcase.
      { intros P H1 H2. destruct e; (apply H1; reflexivity) || (apply H2; discriminate). }
      apply Hcase; [intros -> | intros Hqt].
      * unfold print. eexists _, _; split; [reflexivity|].
        cbn [heap module_globals site tables printed].
        split; [repeat split; assumption|]. split; [exact Hlist|].
        exists dicts, acc, (out ++ ["Failed to register " +:+ t]).
        split; [exact Hq|]. split; [exact Hdicts|].
        split; [rewrite Hout, app_assoc; reflexivity | exact Hpure].
      * assert (pure = (Raise e, out)) as Hp by (destruct e; congruence).
        exists (Raise e), s'. split; [destruct e; congruence || reflexivity|].
        split; [repeat split; assumption|].
        rewrite Hp. split; [exact Hout | reflexivity].
  - intros s' (HF & Hlist & dicts & acc & out & Hq & Hdicts & Hout & Hpure).
    rewrite length_fmap, drop_all in Hpure. cbn [register_loop] in Hpure.
    split; [exact HF|]. rewrite Hpure. split; [exact Hout|].
    exists acc. split; [reflexivity|]. exists dicts. split; assumption.
  - split; [|split].
    + cbn [s2 s1 heap with_heap module_globals site tables].
      split; [|auto].
      apply insert_subseteq_r; [exact Hlq|]. apply insert_subseteq, Hlt.
    + cbn [s2 s1 heap with_heap]. rewrite lookup_insert_ne, lookup_insert_eq by congruence.
      reflexivity.
    + exists [], [], []. cbn [s2 s1 heap with_heap printed].
      rewrite lookup_insert_eq, app_nil_r. repeat split. constructor.
  - destruct HF as (Hsub & Hg & Hsite & Htab).
    destruct r as [[]|e].
    + destruct Hr as (qts & Hqts & Hreg).
      eexists _, _; split; [reflexivity|].
      repeat (split; [assumption|]).
      exists lq, qts. repeat split; assumption.
    + eexists _, _; split; [reflexivity|].
      repeat (split; [assumption|]). exact Hr.
Qed.

Lemma registry_at_lookup (h : gmap loc Object) (l : loc) (qts : list QuestionType)
    (dicts : list loc) (i : nat) (d : loc) :
  Forall2 (fun d qt => h !! d = Some (ODict (dict_of qt))) dicts qts →
  dicts !! i = Some d →
  ∃ qt, qts !! i = Some qt ∧ h !! d = Some (ODict (dict_of qt)).
Proof. intros Hd Hi. exact (Forall2_lookup_l _ _ _ _ _ Hd Hi). Qed.

Lemma with_heap_with_heap (h h' : gmap loc Object) (s : Store) :
  with_heap h (with_heap h' s) = with_heap h s.
Proof. reflexivity. Qed.

Lemma _get_creation_choices_s_spec (s : Store) (l : loc) (qts : list QuestionType) :
  module_globals s !! "QUESTION_TYPES" = Some (VRef l) →
  registry_at (heap s) l qts →
  ∃ c, heap s !! c = None ∧
       _get_creation_choices_s s =
         Some (Ok (VRef c),
               with_heap (<[c := OList (choice_tuple <$> _get_creation_choices qts)]>
                            (heap s)) s).
Proof.
  intros Hname (dicts & Hl & Hdicts).
  unfold _get_creation_choices_s.
  unfold mbind at 1 2 3, Prog_bind at 1 2 3, alloc at 1, get_global at 1.
  cbv beta iota zeta.
  set (c := fresh (dom (heap s))).
  assert (heap s !! c = None) as Hc by apply fresh_heap.
  assert (c ≠ l) as Hcl by (intros ->; congruence).
  exists c. split; [exact Hc|].
  cbn [module_globals with_heap]. rewrite Hname.
  set (entry := fun qt : QuestionType =>
         ("/admin/" +:+ class_app_label (class_ qt) +:+ "/" +:+ slug qt +:+ "/add/",
          qt_pretty_name qt)).
  set (Inv := fun (i : nat) (s' : Store) =>
         s' = with_heap (<[c := OList (choice_tuple <$>
                                         (("", "------") :: map entry (take i qts)))]>
                           (heap s)) s).
  set (Post := fun (r : result unit) (s' : Store) =>
         r = Ok tt ∧
         s' = with_heap (<[c := OList (choice_tuple <$> _get_creation_choices qts)]>
                           (heap s)) s).
  match goal with
  | |- context [for_in (VRef l) ?b ?s1] =>
      destruct (for_in_list_rule Inv Post l (VRef <$> dicts) b s1)
        as (r & s' & -> & (-> & ->))
  end.
  - intros i s' ->. cbn [heap with_heap].
    rewrite lookup_insert_ne by congruence. exact Hl.
  - intros i v s' Hv ->.
    rewrite list_lookup_fmap in Hv.
    destruct (dicts !! i) as [d|] eqn:Hd; [|discriminate].
    injection Hv as <-.
    destruct (registry_at_lookup _ l _ _ _ _ Hdicts Hd) as (qt & Hqt & Hdict).
    assert (d ≠ c) as Hdc by (intros ->; congruence).
    unfold mbind, Prog_bind, getitem, _meta, percent_s, list_append, mret, Prog_ret.
    repeat first
      [ rewrite lookup_insert_ne by congruence
      | rewrite Hdict
      | progress change (assoc "class" (dict_of qt)) with (Some (VClass (class_ qt)))
      | progress change (assoc "slug" (dict_of qt)) with (Some (VStr (slug qt)))
      | progress change (assoc "pretty_name" (dict_of qt))
          with (Some (VStr (qt_pretty_name qt)))
      | progress cbv beta iota
      | progress cbn [heap with_heap] ].
    rewrite lookup_insert_eq.
    eexists _, _; split; [reflexivity|].
    unfold Inv. rewrite with_heap_with_heap, insert_insert_eq.
    rewrite (take_S_r _ _ _ Hqt), map_app, app_comm_cons, fmap_app.
    reflexivity.
  - intros s' ->. split; [reflexivity|].
    rewrite length_fmap, (Forall2_length _ _ _ Hdicts), firstn_all.
    reflexivity.
  - unfold Inv. reflexivity.
  - reflexivity.
Qed.

Lemma with_site_site (s : Store) : with_site (site s) s = s.
Proof. destruct s; reflexivity. Qed.

Lemma register_admin_s_spec (s : Store) (l : loc) (qts : list QuestionType) :
  module_globals s !! "QUESTION_TYPES" = Some (VRef l) →
  registry_at (heap s) l qts →
  register_admin_s s =
    Some ((register_admin qts (site s)).1, with_site (register_admin qts (site s)).2 s).
Proof.
  intros Hname (dicts & Hl & Hdicts).
  unfold register_admin_s.
  unfold mbind at 1, Prog_bind at 1, get_global at 1. rewrite Hname.
  set (Inv := fun (i : nat) (s' : Store) =>
         ∃ a, s' = with_site a s ∧
              register_admin qts (site s) = register_admin (drop i qts) a).
  set (Post := fun (r : result unit) (s' : Store) =>
         r = (register_admin qts (site s)).1 ∧
         s' = with_site (register_admin qts (site s)).2 s).
  match goal with
  | |- context [for_in (VRef l) ?b ?s1] =>
      destruct (for_in_list_rule Inv Post l (VRef <$> dicts) b s1)
        as (r & s' & -> & (-> & ->))
  end.
  - intros i s' (a & -> & _). exact Hl.
  - intros i v s' Hv (a & -> & Hpure).
    rewrite list_lookup_fmap in Hv.
    destruct (dicts !! i) as [d|] eqn:Hd; [|discriminate].
    injection Hv as <-.
    destruct (registry_at_lookup _ l _ _ _ _ Hdicts Hd) as (qt & Hqt & Hdict).
    rewrite (drop_S _ _ _ Hqt) in Hpure. cbn [register_admin] in Hpure.
    unfold mbind at 1, Prog_bind at 1, getitem. cbn [heap with_site].
    rewrite Hdict.
    change (assoc "class" (dict_of qt)) with (Some (VClass (class_ qt))).
    cbv beta iota.
    destruct (class_choice_class (class_ qt)) as [cc|];
      unfold mbind, Prog_bind, set_StackedInline_model, site_register_s, mret, Prog_ret;
      cbn [site with_site];
      (destruct (site_register (class_ qt) _ _) as [[[]|e] a'] eqn:Hreg;
       [ eexists _, _; split; [reflexivity|];
         exists a'; split; [reflexivity | exact Hpure]
       | eexists _, _; split; [reflexivity|];
         unfold Post; rewrite Hpure; split; reflexivity ]).
  - intros s' (a & -> & Hpure).
    rewrite length_fmap, (Forall2_length _ _ _ Hdicts), drop_all in Hpure.
    cbn [register_admin] in Hpure. unfold Post. rewrite Hpure. split; reflexivity.
  - exists (site s). split; [symmetry; apply with_site_site | reflexivity].
  - reflexivity.
Qed.

(** A call into the loaded module leaves the name [QUESTION_TYPES] and
    every object of the heap as they are; what it adds are objects of
    its own. *)
Lemma run_s_keeps (now : Z) (su : PyVal → string) (get_class : string → result ClassObj)
    (op : Operation) (s : Store) (l : loc) (qts : list QuestionType) :
  module_globals s !! "QUESTION_TYPES" = Some (VRef l) →
  registry_at (heap s) l qts →
  ∃ s', run_s now su get_class op s = Some s' ∧
        heap s ⊆ heap s' ∧ module_globals s' = module_globals s.
Proof.
  intros Hname Hreg.
  destruct op; cbn [run_s];
    try (eexists; split; [reflexivity|]; split; reflexivity).
  - destruct (register_questions_types_s_spec get_class tuples s)
      as (r & s' & -> & Hsub & Hg & _).
    exists s'. split; [reflexivity|]. split; assumption.
  - destruct (_get_creation_choices_s_spec s l qts Hname Hreg) as (c & Hc & ->).
    eexists; split; [reflexivity|]. cbn [heap with_heap module_globals].
    split; [apply insert_subseteq, Hc | reflexivity].
  - rewrite (register_admin_s_spec s l qts Hname Hreg).
    eexists; split; [reflexivity|]. split; reflexivity.
Qed.

Lemma run_all_keeps (now : Z) (su : PyVal → string)
    (get_class : string → result ClassObj) (ops : list Operation) :
  ∀ (s : Store) (l : loc) (qts : list QuestionType),
    module_globals s !! "QUESTION_TYPES" = Some (VRef l) →
    registry_at (heap s) l qts →
    ∃ s', run_all now su get_class ops s = Some s' ∧
          heap s ⊆ heap s' ∧ module_globals s' = module_globals s.
Proof.
  induction ops as [|op ops IH]; intros s l qts Hname Hreg; cbn [run_all].
  - exists s. split; [reflexivity|]. split; reflexivity.
  - destruct (run_s_keeps now su get_class op s l qts Hname Hreg)
      as (s1 & -> & Hsub & Hg).
    destruct (IH s1 l qts) as (s2 & Hrun & Hsub2 & Hg2).
    + rewrite Hg; exact Hname.
    + exact (registry_at_mono _ _ _ _ Hsub Hreg).
    + exists s2. split; [exact Hrun|]. split; [etrans; eassumption | congruence].
Qed.

(** The import in the store and the import of [import_module] agree:
    the one returns exactly when the other does, with the same admin
    site and the same lines printed, and it always stays within what
    is modelled. *)
Lemma import_module_s_outcome (get_class : string → result ClassObj)
    (custom : list string) (s0 : Store) :
  ∃ r s1,
    import_module_s get_class custom s0 = Some (r, s1) ∧
    match r, import_module get_class custom (site s0) (tables s0) with
    | Ok _, Ok w =>
        site s1 = admin_site w ∧ printed s1 = printed s0 ++ stdout w ∧
        tables s1 = db w ∧
        ∃ l c,
          module_globals s1 = <["CHOICES" := VRef c]>
                                (<["QUESTION_TYPES" := VRef l]> (module_globals s0)) ∧
          heap s0 !! l = None ∧ heap s0 !! c = None ∧ heap s0 ⊆ heap s1 ∧
          registry_at (heap s1) l (QUESTION_TYPES (globals w)) ∧
          heap s1 !! c = Some (OList (choice_tuple <$> CHOICES (globals w)))
    | Raise e, Raise e' => e = e'
    | _, _ => False
    end.
Proof.
  unfold import_module_s, import_module.
  unfold mbind at 1, Prog_bind at 1.
  destruct (register_questions_types_s_spec get_class [DEFAULT_QUESTION_TYPES; custom] s0)
    as (r & sa & -> & Hsub & Hg & Hsite & Htab & Hout & Hr).
  destruct (register_questions_types get_class [DEFAULT_QUESTION_TYPES; custom])
    as [pure out]; cbn [fst snd] in *.
  destruct r as [v|e]; [|rewrite Hr; eexists _, _; split; reflexivity].
  destruct Hr as (l & qts & -> & Hl & -> & Hreg).
  unfold mbind at 1, Prog_bind at 1, set_global at 1.
  set (sb := {| heap := heap sa;
                module_globals := <["QUESTION_TYPES" := VRef l]> (module_globals sa);
                site := site sa; printed := printed sa; tables := tables sa |}).
  assert (module_globals sb !! "QUESTION_TYPES" = Some (VRef l)) as Hname
    by apply lookup_insert_eq.
  unfold mbind at 1, Prog_bind at 1.
  destruct (_get_creation_choices_s_spec sb l qts Hname Hreg) as (c & Hc & ->).
  unfold mbind at 1, Prog_bind at 1, set_global at 1.
  match goal with
  | |- context [register_admin_s ?s] => set (sd := s)
  end.
  assert (heap sa ⊆ heap sd) as Hsub2 by (apply insert_subseteq, Hc).
  rewrite (register_admin_s_spec sd l qts).
  - cbn [site sd sb with_heap]. rewrite Hsite.
    destruct (register_admin qts (site s0)) as [[[]|e] a]; cbn [fst snd];
      eexists _, _; (split; [reflexivity|]); [|reflexivity].
    cbn [site with_site printed tables module_globals heap sd sb with_heap globals
         admin_site stdout db QUESTION_TYPES CHOICES].
    split; [reflexivity|]. split; [exact Hout|]. split; [exact Htab|].
    exists l, c. rewrite Hg.
    split; [reflexivity|]. split; [exact Hl|].
    split; [exact (lookup_weaken_None _ _ _ Hc Hsub)|].
    split; [etrans; [exact Hsub | exact Hsub2]|].
    split; [exact (registry_at_mono _ _ _ _ Hsub2 Hreg) | apply lookup_insert_eq].
  - cbn [module_globals sd sb with_heap].
    rewrite lookup_insert_ne by discriminate. apply lookup_insert_eq.
  - exact (registry_at_mono _ _ _ _ Hsub2 Hreg).
Qed.

(** C7: when the import of the module returns, the name
    [QUESTION_TYPES] holds a list made by this import, whose items are
    dicts made by it, one for each entry that
    [register_questions_types] gives for the default types followed by
    the configured ones, in order; and after any sequence of calls
    into the module, whatever they return or raise, the name still
    holds that list and every object that was there at the end of the
    import, this list and its dicts among them, is there unchanged. *)
Theorem QUESTION_TYPES_built_once_at_import (now : Z) (su : PyVal → string)
    (get_class : string → result ClassObj) (custom : list string) (s0 s1 : Store) :
  import_module_s get_class custom s0 = Some (Ok tt, s1) →
  ∃ l qts,
    (register_questions_types get_class [DEFAULT_QUESTION_TYPES; custom]).1 = Ok qts ∧
    heap s0 !! l = None ∧
    module_globals s1 !! "QUESTION_TYPES" = Some (VRef l) ∧
    registry_at (heap s1) l qts ∧
    ∀ ops : list Operation,
      ∃ s2,
        run_all now su get_class ops s1 = Some s2 ∧
        module_globals s2 !! "QUESTION_TYPES" = Some (VRef l) ∧
        (∀ x o, heap s1 !! x = Some o → heap s2 !! x = Some o) ∧
        registry_at (heap s2) l qts.
Proof.
  intros Himport.
  destruct (import_module_s_outcome get_class custom s0) as (r & s1' & Hrun & Hr).
  rewrite Himport in Hrun. injection Hrun as <- <-.
  unfold import_module in Hr.
  destruct (register_questions_types get_class [DEFAULT_QUESTION_TYPES; custom])
    as [[qts|e] out]; [|contradiction].
  destruct (register_admin qts (site s0)) as [[[]|e] a]; [|contradiction].
  cbn [globals QUESTION_TYPES] in Hr.
  destruct Hr as (_ & _ & _ & l & c & Hg & Hl & _ & _ & Hreg & _).
  assert (module_globals s1 !! "QUESTION_TYPES" = Some (VRef l)) as Hname.
  { rewrite Hg, lookup_insert_ne by discriminate. apply lookup_insert_eq. }
  exists l, qts. split; [reflexivity|]. split; [exact Hl|].
  split; [exact Hname|]. split; [exact Hreg|].
  intros ops.
  destruct (run_all_keeps now su get_class ops s1 l qts Hname Hreg)
    as (s2 & Hrun & Hsub & Hg2).
  exists s2. split; [exact Hrun|].
  split; [rewrite Hg2; exact Hname|].
  split; [|exact (registry_at_mono _ _ _ _ Hsub Hreg)].
  intros x o Hx. exact (lookup_weaken _ _ _ _ Hx Hsub).
Qed.

(** * Instances on sample data *)

(** C1, as stated, fails twice.  An instance saved with its id already
    set keeps the [real_type] it had: its row is stored without type
    tag and [resolve()] on the parent row raises.  And no concrete
    response model descends from [InheritanceResolveModel]: responses
    have neither a [real_type] nor a [resolve]. *)
Lemma type_tag_missing_for_preset_id_and_for_responses :
  let d := (save preset_id_question empty_db).2 in
  (save preset_id_question empty_db).1 = Ok preset_id_question ∧
  real_type <$> t_dynamicformquestion d !! 7 = Some None ∧
  (∃ parent msg,
     (objects_get DynamicFormQuestion 7 d).1 = Ok parent ∧
     (resolve parent d).1 = Raise (AttributeError msg)) ∧
  Forall (fun m => issubclass m InheritanceResolveModel = false ∧
                   resolve_attr m "real_type" = None ∧
                   resolve_attr m "resolve" = None)
    concrete_response_models.
Proof.
  cbv zeta. split; [vm_compute; reflexivity|].
  split; [vm_compute; reflexivity|].
  split.
  - eexists _, _; split; vm_compute; reflexivity.
  - repeat constructor.
Qed.

Lemma type_tag_follows_the_id_guard_witness :
  issubclass (cls sample_question) DynamicFormQuestion = true ∧
  id_truthy (obj_id sample_question) = false ∧
  (∃ k d' saved,
     save sample_question empty_db = (Ok saved, d') ∧
     cls saved = DynamicYesNoQuestion ∧ obj_id saved = Some k ∧
     resolve {| cls := DynamicFormQuestion; obj_id := Some k; fields := fields saved |} d'
       = (Ok saved, d')) ∧
  issubclass (cls preset_id_question) DynamicFormQuestion = true ∧
  id_truthy (obj_id preset_id_question) = true ∧
  (∃ d', save preset_id_question empty_db = (Ok preset_id_question, d') ∧
         real_type <$> t_dynamicformquestion d' !! 7 = Some None).
Proof.
  assert (issubclass (cls sample_question) DynamicFormQuestion = true) as H1
    by (vm_compute; reflexivity).
  assert (issubclass (cls preset_id_question) DynamicFormQuestion = true) as H2
    by (vm_compute; reflexivity).
  split; [exact H1|]. split; [reflexivity|]. split.
  { destruct (proj1 (type_tag_follows_the_id_guard sample_question empty_db H1) eq_refl)
      as (k & d' & Hsave & _ & _ & Hresolve).
    eexists k, d', _. split; [exact Hsave|].
    split; [reflexivity|]. split; [reflexivity|]. exact Hresolve. }
  split; [exact H2|]. split; [reflexivity|].
  destruct (proj1 (proj2 (type_tag_follows_the_id_guard preset_id_question empty_db H2))
              eq_refl) as (k & d' & Hk & Hsave & _ & Htag & _).
  injection Hk as <-.
  exists d'. split; [exact Hsave | exact Htag].
Defined.

Lemma resolve_needs_type_tag_witness :
  real_type (fields sample_question) = None ∧
  (∃ msg, resolve sample_question empty_db = (Raise (AttributeError msg), empty_db)) ∧
  (∃ parent, (objects_get DynamicFormQuestion 1 sample_db).1 = Ok parent ∧
             ∃ q, resolve parent sample_db = (Ok q, sample_db) ∧
                  cls q = DynamicYesNoQuestion).
Proof.
  split; [reflexivity|]. split.
  - eexists.
    exact (proj1 (resolve_needs_type_tag sample_question empty_db) eq_refl).
  - eexists; split; [vm_compute; reflexivity|].
    eexists; split.
    + refine (proj2 (proj2 (resolve_needs_type_tag _ sample_db) DynamicYesNoQuestion _)
                1 _ _ _ _ _); vm_compute; reflexivity.
    + reflexivity.
Defined.

Lemma register_questions_types_skips_failures_witness :
  Forall (question_type_or_failure get_class_builtin) (concat sample_tuples) ∧
  (register_questions_types get_class_builtin sample_tuples).2 =
    ["Failed to register foo.Bar"] ∧
  slug <$> omap (registered get_class_builtin) (concat sample_tuples) =
    ["dynamictextquestion"; "dynamicyesnoquestion"; "dynamicmultiplechoicequestion";
     "dynamicratingquestion"] ∧
  register_questions_types get_class_builtin
    [["foo.Bar"; "dynamicforms.models.DynamicFormQuestion"];
     ["dynamicforms.models.DynamicTextQuestion"]] =
    (Raise (NotImplementedError "You should resolve me first before you ask me my name"),
     ["Failed to register foo.Bar"]).
Proof.
  assert (Forall (question_type_or_failure get_class_builtin) (concat sample_tuples))
    as Hall.
  { unfold sample_tuples, DEFAULT_QUESTION_TYPES; cbn [concat app].
    repeat (apply Forall_cons; split;
            [first [ left; reflexivity | right; eexists _, _; split; reflexivity ]|]).
    constructor. }
  split; [exact Hall|].
  rewrite (proj1 (proj1 (register_questions_types_skips_failures get_class_builtin
                           sample_tuples) Hall)).
  split; [reflexivity|]. split; [reflexivity|].
  apply (proj2 (register_questions_types_skips_failures get_class_builtin _)
           ["foo.Bar"] "dynamicforms.models.DynamicFormQuestion"
           ["dynamicforms.models.DynamicTextQuestion"]).
  - reflexivity.
  - apply Forall_cons; split; [left; reflexivity | constructor].
  - right. eexists; split; reflexivity.
Defined.


Lemma yes_no_stores_true_only_for_yes_witness :
  ∃ q row,
    (objects_get DynamicYesNoQuestion 1 sample_db).1 = Ok q ∧
    save_response 0 sample_unicode DynamicYesNoQuestion 7 1 (PyStr "Yes") 3 sample_db =
      (Ok tt,
       with_dynamicyesnoresponse
         (insert (next_pk (t_dynamicyesnoresponse sample_db)) row) sample_db) ∧
    ¬ response row = true.
Proof.
  eexists.
  assert ((objects_get DynamicYesNoQuestion 1 sample_db).1 = Ok _) as Hq
    by (vm_compute; reflexivity).
  destruct (yes_no_stores_true_only_for_yes 0 sample_unicode 7 1 (PyStr "Yes") 3 sample_db _ Hq)
    as (row & Hsave & _ & _ & _ & Hiff).
  exists row. split; [exact Hq|]. split; [exact Hsave|].
  intros Htrue; apply Hiff in Htrue; discriminate.
Defined.


Lemma falsy_responses_create_nothing_witness :
  truthy (PyList []) = false ∧
  DynamicMultipleChoiceQuestion_save_response 0 DynamicRatingQuestion 7 1
    (PyList []) 3 rating_db = (Ok tt, rating_db).
Proof.
  split; [reflexivity|].
  pose proof (falsy_responses_create_nothing 0 sample_unicode DynamicRatingQuestion 7 1 (PyList []) 3
                rating_db eq_refl) as (Hst & _ & _ & _).
  rewrite <- Hst at 2. vm_compute; reflexivity.
Defined.

(** The failing inputs of C2: a rating question with one answer, whose
    choice name comes back as the posted value, alone or in a list. *)
Example rating_save_response_on_its_own_choice :
  DynamicRatingQuestion_get_choices
    {| cls := DynamicRatingQuestion; obj_id := Some 1;
       fields := {| real_type := Some DynamicRatingQuestion;
                    question_text := "How was it?"; content_type := DynamicForm;
                    object_id := 1; order := default_order |} |} rating_db =
    [("dynamic-rating-answer-5", "Good")] ∧
  save_response 0 sample_unicode DynamicRatingQuestion 7 1 (PyStr "dynamic-rating-answer-5") 3 rating_db =
    (Raise IndexError, rating_db) ∧
  save_response 0 sample_unicode DynamicRatingQuestion 7 1 (PyList [PyStr "dynamic-rating-answer-5"]) 3
    rating_db = (Raise (DoesNotExist DynamicMultipleChoiceAnswer), rating_db) ∧
  t_dynamicratingresponse rating_db = ∅.
Proof. repeat split; vm_compute; reflexivity. Qed.

Lemma QUESTION_TYPES_built_once_at_import_witness :
  ∃ s1,
    import_module_s get_class_builtin ["foo.Bar"] empty_store = Some (Ok tt, s1) ∧
    ∃ l, module_globals s1 !! "QUESTION_TYPES" = Some (VRef l) ∧
         registry_at (heap s1) l
           (omap (registered get_class_builtin) DEFAULT_QUESTION_TYPES).
Proof.
  destruct (import_module_s get_class_builtin ["foo.Bar"] empty_store)
    as [[[[]|e] s1]|] eqn:Himport; try (vm_compute in Himport; discriminate).
  exists s1. split; [reflexivity|].
  destruct (QUESTION_TYPES_built_once_at_import 0 sample_unicode get_class_builtin
              ["foo.Bar"] empty_store s1 Himport)
    as (l & qts & Hqts & _ & Hname & Hreg & _).
  exists l. split; [exact Hname|].
  injection Hqts as <-. exact Hreg.
Defined.

(** * Further properties *)

(** ** The tables after a save *)

Lemma db_ext (d1 d2 : DB) :
  t_dynamicformquestion d1 = t_dynamicformquestion d2 →
  (∀ m, link_table m d1 = link_table m d2) →
  t_dynamicmultiplechoiceanswer d1 = t_dynamicmultiplechoiceanswer d2 →
  t_dynamicratinganswer d1 = t_dynamicratinganswer d2 →
  t_dynamictextresponse d1 = t_dynamictextresponse d2 →
  t_dynamicmultiplechoiceresponse d1 = t_dynamicmultiplechoiceresponse d2 →
  t_dynamicyesnoresponse d1 = t_dynamicyesnoresponse d2 →
  t_dynamicratingresponse d1 = t_dynamicratingresponse d2 →
  d1 = d2.
Proof.
  intros Hq Hl.
  pose proof (Hl DynamicTextQuestion) as H1.
  pose proof (Hl DynamicMultipleChoiceQuestion) as H2.
  pose proof (Hl DynamicYesNoQuestion) as H3.
  pose proof (Hl DynamicRatingQuestion) as H4.
  destruct d1, d2; cbn in *; intros; congruence.
Qed.

Lemma has_link_table k d m : has_link k d m = bool_decide (k ∈ link_table m d).
Proof.
  destruct m; try reflexivity; cbn;
    symmetry; apply bool_decide_eq_false, not_elem_of_empty.
Qed.

Lemma link_table_with_parent_link m m' k d x :
  x ∈ link_table m (with_parent_link m' k d) ↔
  x ∈ link_table m d ∨ (x = k ∧ m = m' ∧ is_link_class m).
Proof.
  unfold is_link_class.
  destruct m; cbn;
    try (rewrite elem_of_empty, !elem_of_cons, elem_of_nil; split; [tauto|];
         intros [[]|(_ & _ & H)]; repeat destruct H as [H|H]; congruence).
  all: destruct (decide (m' = _)) as [->|Hne];
    rewrite ?elem_of_union, ?elem_of_singleton, !elem_of_cons; split;
    [tauto| tauto | tauto | intros [H|(_ & H & _)]; [exact H | congruence]].
Qed.

Lemma link_table_after_links m k l d x :
  x ∈ link_table m (foldr (fun m => with_parent_link m k) d l) ↔
  x ∈ link_table m d ∨ (x = k ∧ m ∈ l ∧ is_link_class m).
Proof.
  induction l as [|m' l IH]; cbn [foldr].
  - rewrite elem_of_nil; tauto.
  - rewrite link_table_with_parent_link, IH, elem_of_cons. tauto.
Qed.

Lemma link_table_with_dynamicformquestion m f d :
  link_table m (with_dynamicformquestion f d) = link_table m d.
Proof. destruct m; reflexivity. Qed.

Lemma link_tables_spec c m :
  m ∈ link_tables c ↔ m ∈ mro c ∧ is_link_class m.
Proof.
  unfold link_tables, is_link_class.
  rewrite list_elem_of_filter. tauto.
Qed.

(** The state a save leaves behind, table by table. *)
Lemma Model_save_tables (self : Question) (d : DB) :
  let k := match obj_id self with
           | Some k => k
           | None => next_pk (t_dynamicformquestion d)
           end in
  let d' := (Model_save self d).2 in
  (Model_save self d).1 = Ok {| cls := cls self; obj_id := Some k; fields := fields self |} ∧
  t_dynamicformquestion d' = <[k := fields self]> (t_dynamicformquestion d) ∧
  (∀ m x, x ∈ link_table m d' ↔ x ∈ link_table m d ∨ (x = k ∧ m ∈ link_tables (cls self))) ∧
  t_dynamicmultiplechoiceanswer d' = t_dynamicmultiplechoiceanswer d ∧
  t_dynamicratinganswer d' = t_dynamicratinganswer d ∧
  t_dynamictextresponse d' = t_dynamictextresponse d ∧
  t_dynamicmultiplechoiceresponse d' = t_dynamicmultiplechoiceresponse d ∧
  t_dynamicyesnoresponse d' = t_dynamicyesnoresponse d ∧
  t_dynamicratingresponse d' = t_dynamicratingresponse d.
Proof.
  intros k d'. subst d'. unfold Model_save. fold k. cbn [fst snd].
  split; [reflexivity|].
  split; [rewrite parent_links_keep_questions; reflexivity|].
  split.
  { intros m x. rewrite link_table_after_links, link_table_with_dynamicformquestion.
    pose proof (link_tables_spec (cls self) m). tauto. }
  generalize (link_tables (cls self)); intros l.
  induction l as [|m l IH]; cbn [foldr]; [repeat split|exact IH].
Qed.

Lemma objects_get_cases (m : Model) (k : Z) (d : DB) :
  objects_get m k d = (Raise (DoesNotExist m), d) ∨
  ∃ f, objects_get m k d = (Ok {| cls := m; obj_id := Some k; fields := f |}, d) ∧
       t_dynamicformquestion d !! k = Some f ∧
       issubclass m DynamicFormQuestion = true ∧
       ∀ c, c ∈ link_tables m → k ∈ link_table c d.
Proof.
  unfold objects_get.
  destruct (issubclass m DynamicFormQuestion) eqn:Hsub; cbn [andb]; [|left; reflexivity].
  destruct (forallb (has_link k d) (link_tables m)) eqn:Hlinks; [|left; reflexivity].
  destruct (t_dynamicformquestion d !! k) as [f|] eqn:Hrow; [|left; reflexivity].
  right; exists f; repeat split.
  intros c Hc. rewrite forallb_forall in Hlinks.
  apply list_elem_of_In, Hlinks in Hc.
  rewrite has_link_table in Hc. apply bool_decide_eq_true in Hc; exact Hc.
Qed.

Lemma objects_get_intro (m : Model) (k : Z) (d : DB) (f : QuestionFields) :
  issubclass m DynamicFormQuestion = true →
  (∀ c, c ∈ link_tables m → k ∈ link_table c d) →
  t_dynamicformquestion d !! k = Some f →
  objects_get m k d = (Ok {| cls := m; obj_id := Some k; fields := f |}, d).
Proof.
  intros Hsub Hlinks Hrow. unfold objects_get.
  rewrite Hsub, Hrow; cbn [andb].
  assert (forallb (has_link k d) (link_tables m) = true) as ->; [|reflexivity].
  apply forallb_forall; intros c Hc.
  rewrite has_link_table. apply bool_decide_eq_true, Hlinks, list_elem_of_In, Hc.
Qed.

Lemma mro_trans (c c' c'' : Model) : c' ∈ mro c → c'' ∈ mro c' → c'' ∈ mro c.
Proof.
  intros H1 H2.
  assert (bool_decide (c' ∈ mro c) = true) as H1'
    by (apply bool_decide_eq_true; exact H1).
  assert (bool_decide (c'' ∈ mro c') = true) as H2'
    by (apply bool_decide_eq_true; exact H2).
  clear H1 H2. refine (proj1 (bool_decide_eq_true (c'' ∈ mro c)) _).
  revert H1' H2'.
  destruct c, c'; vm_compute; try discriminate; intros _;
    destruct c''; vm_compute; (reflexivity || discriminate).
Qed.

(** X1: a question found under a class is found, with the same key and
    fields, under each class of the question family that this class
    inherits from. *)
Theorem objects_get_upcast (c c' : Model) (k : Z) (d : DB) (q : Question) :
  (objects_get c k d).1 = Ok q →
  c' ∈ mro c →
  issubclass c' DynamicFormQuestion = true →
  objects_get c' k d =
    (Ok {| cls := c'; obj_id := Some k; fields := fields q |}, d).
Proof.
  intros Hq Hmro Hsub.
  destruct (objects_get_cases c k d) as [E|(f & E & Hrow & _ & Hlinks)];
    rewrite E in Hq; cbn in Hq; [discriminate|].
  injection Hq as <-; cbn [fields].
  apply objects_get_intro; [exact Hsub| |exact Hrow].
  intros m Hm. apply Hlinks.
  apply link_tables_spec in Hm as [Hm Hfour]. apply link_tables_spec; split; [|exact Hfour].
  eapply mro_trans; eassumption.
Qed.

Lemma responses_ext (d1 d2 : DB) (rs : Z) :
  t_dynamictextresponse d1 = t_dynamictextresponse d2 →
  t_dynamicmultiplechoiceresponse d1 = t_dynamicmultiplechoiceresponse d2 →
  t_dynamicyesnoresponse d1 = t_dynamicyesnoresponse d2 →
  t_dynamicratingresponse d1 = t_dynamicratingresponse d2 →
  responses rs d1 = responses rs d2.
Proof.
  intros H1 H2 H3 H4.
  unfold responses, dynamicmultiplechoiceresponse_set, dynamictextresponse_set,
    dynamicratingresponse_set, dynamicyesnoresponse_set.
  rewrite H1, H2, H3, H4; reflexivity.
Qed.

(** X2: saving an instance that has no id yet writes its row, tagged
    with its class, under a key that was free; every other question row
    and link, every answer and every response is as before. *)
Theorem save_new_question_frame (self : Question) (d : DB) :
  obj_id self = None →
  ∃ k,
    let d' := (save self d).2 in
    let tagged := fields (set_real_type (Some (cls self)) self) in
    (save self d).1 = Ok {| cls := cls self; obj_id := Some k; fields := tagged |} ∧
    t_dynamicformquestion d !! k = None ∧
    t_dynamicformquestion d' !! k = Some tagged ∧
    (∀ k', k' ≠ k → t_dynamicformquestion d' !! k' = t_dynamicformquestion d !! k') ∧
    (∀ m x, x ≠ k → x ∈ link_table m d' ↔ x ∈ link_table m d) ∧
    t_dynamicmultiplechoiceanswer d' = t_dynamicmultiplechoiceanswer d ∧
    t_dynamicratinganswer d' = t_dynamicratinganswer d ∧
    ∀ rs, responses rs d' = responses rs d.
Proof.
  intros Hid. exists (next_pk (t_dynamicformquestion d)).
  set (k := next_pk (t_dynamicformquestion d)). cbv zeta.
  unfold save. rewrite Hid; cbn [id_truthy negb].
  set (self' := set_real_type _ self).
  destruct (Model_save_tables self' d)
    as (Hres & Hq & Hl & Ha & Hra & Ht & Hm & Hy & Hr).
  change (obj_id self') with (obj_id self) in *. rewrite Hid in *.
  change (cls self') with (cls self) in *. fold k in Hres, Hq, Hl.
  split; [exact Hres|].
  split; [apply next_pk_fresh|].
  split; [rewrite Hq; apply lookup_insert_eq|].
  split; [intros k' Hne; rewrite Hq, lookup_insert_ne by congruence; reflexivity|].
  split; [intros m x Hne; rewrite Hl; tauto|].
  split; [exact Ha|]. split; [exact Hra|].
  intros rs; apply responses_ext; assumption.
Qed.

Lemma save_as_Model_save (self : Question) (d : DB) :
  save self d =
    Model_save (if id_truthy (obj_id self) then self
                else set_real_type (Some (cls self)) self) d.
Proof. unfold save. destruct (id_truthy (obj_id self)); reflexivity. Qed.

Lemma saved_with_falsy_id_is_tagged (self : Question) (k' : Z) :
  let self1 := if id_truthy (obj_id self) then self
               else set_real_type (Some (cls self)) self in
  let k := match obj_id self1 with Some k => k | None => k' end in
  id_truthy (Some k) = false →
  real_type (fields self1) = Some (cls self1).
Proof.
  destruct self as [c [k0|] f]; cbn; [|reflexivity].
  destruct (Z.eqb k0 0) eqn:E; cbn; [reflexivity|].
  rewrite E; discriminate.
Qed.

(** X3: saving again the instance that a save returned changes
    nothing: the same instance comes back and every table is as the
    first save left it. *)
Theorem save_again_changes_nothing (self saved : Question) (d d' : DB) :
  save self d = (Ok saved, d') →
  save saved d' = (Ok saved, d').
Proof.
  rewrite save_as_Model_save.
  set (self1 := if id_truthy (obj_id self) then self else _).
  intros Hsave.
  destruct (Model_save_tables self1 d)
    as (Hres & Hq & Hl & Ha & Hra & Ht & Hm & Hy & Hr).
  rewrite Hsave in *; cbn [fst snd] in *.
  set (k := match obj_id self1 with Some k => k | None => _ end) in *.
  injection Hres as ->.
  rewrite save_as_Model_save. cbn [obj_id cls].
  set (self2 := if id_truthy (Some k) then _ else _).
  assert (self2 = {| cls := cls self1; obj_id := Some k; fields := fields self1 |})
    as ->.
  { subst self2. destruct (id_truthy (Some k)) eqn:Hk; [reflexivity|].
    unfold set_real_type; cbn. do 2 f_equal.
    pose proof (saved_with_falsy_id_is_tagged self
                  (next_pk (t_dynamicformquestion d)) Hk) as Htag.
    fold self1 in Htag.
    destruct (fields self1); cbn in *; congruence. }
  set (saved := {| cls := cls self1; obj_id := Some k; fields := fields self1 |}).
  destruct (Model_save_tables saved d')
    as (Hres2 & Hq2 & Hl2 & Ha2 & Hra2 & Ht2 & Hm2 & Hy2 & Hr2).
  cbn [obj_id cls fields saved] in *.
  destruct (Model_save saved d') as [r d'']; cbn [fst snd] in *.
  f_equal; [exact Hres2|].
  apply db_ext; try congruence.
  - rewrite Hq2, Hq. apply insert_insert_eq.
  - intros m. apply set_eq; intros x. rewrite Hl2, Hl. tauto.
Qed.

Lemma resolve_state (self : Question) (d : DB) : (resolve self d).2 = d.
Proof.
  unfold resolve, try_except_AttributeError.
  destruct (real_type (fields self)) as [ct|]; [|reflexivity].
  unfold get_object_for_this_type.
  destruct (obj_id self) as [k|]; [|reflexivity].
  destruct (objects_get_cases ct k d) as [E|(f & E & _)]; rewrite E; reflexivity.
Qed.

(** X4: whenever [resolve()] returns, the object returned has the
    class named by the type tag of the instance, the key of the
    instance and the fields stored under that key, and the database is
    untouched; resolving the returned object again gives the same
    object if its own tag names its class. *)
Theorem resolve_returns_the_tagged_row (self q : Question) (d : DB) :
  (resolve self d).1 = Ok q →
  resolve self d = (Ok q, d) ∧
  real_type (fields self) = Some (cls q) ∧
  obj_id q = obj_id self ∧
  (∃ k, obj_id q = Some k ∧ t_dynamicformquestion d !! k = Some (fields q)) ∧
  (real_type (fields q) = Some (cls q) → resolve q d = (Ok q, d)).
Proof.
  intros Hq.
  assert (resolve self d = (Ok q, d)) as Hfull.
  { pose proof (resolve_state self d) as Hst.
    destruct (resolve self d) as [r d0]; cbn in *; congruence. }
  split; [exact Hfull|]. clear Hq.
  unfold resolve, try_except_AttributeError in Hfull.
  destruct (real_type (fields self)) as [ct|] eqn:Hct; [|discriminate].
  unfold get_object_for_this_type in Hfull.
  destruct (obj_id self) as [k|] eqn:Hk; [|discriminate].
  destruct (objects_get_cases ct k d) as [E|(f & E & Hrow & Hsub & Hlinks)];
    rewrite E in Hfull; [discriminate|].
  injection Hfull as <-. cbn [cls obj_id fields].
  split; [reflexivity|]. split; [reflexivity|].
  split; [exists k; auto|].
  intros Htag. unfold resolve, try_except_AttributeError. cbn [fields obj_id].
  rewrite Htag. unfold get_object_for_this_type. rewrite E; reflexivity.
Qed.

Lemma get_choices_state (self : Question) (d : DB) : (get_choices self d).2 = d.
Proof.
  unfold get_choices.
  destruct (resolve_attr (cls self) "get_choices") as [m|]; [|reflexivity].
  destruct m; reflexivity.
Qed.

Lemma display_state (self : Question) (usr : Z) (d : DB) : (display self usr d).2 = d.
Proof.
  unfold display.
  destruct (resolve_attr (cls self) "display") as [m|]; [|reflexivity].
  pose proof (get_choices_state self d) as Hc.
  destruct m; try reflexivity; unfold mbind, M_bind, lift;
    try (destruct (get_choices self d) as [[c|e] d0]; cbn in Hc; subst d0);
    try reflexivity;
    destruct (get_form_name self); reflexivity.
Qed.

(** ** Integrity is kept *)

Lemma link_tables_closed (c : Model) :
  (DynamicYesNoQuestion ∈ link_tables c → DynamicMultipleChoiceQuestion ∈ link_tables c) ∧
  (DynamicRatingQuestion ∈ link_tables c → DynamicMultipleChoiceQuestion ∈ link_tables c).
Proof.
  split; intros H.
  - refine (proj1 (bool_decide_eq_true (_ ∈ link_tables c)) _).
    assert (bool_decide (DynamicYesNoQuestion ∈ link_tables c) = true) as H'
      by (apply bool_decide_eq_true; exact H).
    clear H; revert H'; destruct c; vm_compute; auto.
  - refine (proj1 (bool_decide_eq_true (_ ∈ link_tables c)) _).
    assert (bool_decide (DynamicRatingQuestion ∈ link_tables c) = true) as H'
      by (apply bool_decide_eq_true; exact H).
    clear H; revert H'; destruct c; vm_compute; auto.
Qed.

Lemma wf_db_empty : wf_db empty_db.
Proof.
  split; cbn.
  1-4: intros k H; exfalso; exact (not_elem_of_empty (C:=gset Z) k H).
  all: intros k r H; rewrite lookup_empty in H; discriminate.
Qed.

Lemma Model_save_wf (self : Question) (d : DB) :
  wf_db d → wf_db (Model_save self d).2.
Proof.
  intros [W1 W2 W3 W4 W5 W6 W7 W8].
  destruct (Model_save_tables self d)
    as (_ & Hq & Hl & _ & _ & Ht & Hm & Hy & Hr).
  set (k := match obj_id self with Some k => k | None => _ end) in *.
  set (d' := (Model_save self d).2) in *.
  pose proof (Hl DynamicTextQuestion) as Ltext.
  pose proof (Hl DynamicMultipleChoiceQuestion) as Lmc.
  pose proof (Hl DynamicYesNoQuestion) as Lyn.
  pose proof (Hl DynamicRatingQuestion) as Lr.
  cbn [link_table] in Ltext, Lmc, Lyn, Lr.
  destruct (link_tables_closed (cls self)) as [Cyn Cr].
  split.
  - intros x Hx. rewrite Hq. apply lookup_insert_is_Some.
    apply Ltext in Hx as [Hx|[-> _]]; [|left; reflexivity].
    destruct (decide (k = x)); [left; assumption | right; split; [assumption | apply W1, Hx]].
  - intros x Hx. rewrite Hq. apply lookup_insert_is_Some.
    apply Lmc in Hx as [Hx|[-> _]]; [|left; reflexivity].
    destruct (decide (k = x)); [left; assumption | right; split; [assumption | apply W2, Hx]].
  - intros x Hx. apply Lmc. apply Lyn in Hx as [Hx|[-> Hx]]; [left; apply W3, Hx | right; auto].
  - intros x Hx. apply Lmc. apply Lr in Hx as [Hx|[-> Hx]]; [left; apply W4, Hx | right; auto].
  - intros x r Hx. rewrite Ht in Hx. apply Ltext; left; eapply W5, Hx.
  - intros x r Hx. rewrite Hm in Hx. apply Lmc; left; eapply W6, Hx.
  - intros x r Hx. rewrite Hy in Hx. apply Lyn; left; eapply W7, Hx.
  - intros x r Hx. rewrite Hr in Hx. apply Lr; left; eapply W8, Hx.
Qed.

Lemma save_response_dispatch now su c usr qid resp rs :
  save_response now su c usr qid resp rs =
    match c with
    | DynamicFormQuestion =>
        raise (NotImplementedError
                 ("My name is " +:+ class_name c +:+
                  " and I don't know how to save a response."))
    | DynamicTextQuestion => DynamicTextQuestion_save_response now su c usr qid resp rs
    | DynamicMultipleChoiceQuestion | DynamicRatingQuestion =>
        DynamicMultipleChoiceQuestion_save_response now c usr qid resp rs
    | DynamicYesNoQuestion => DynamicYesNoQuestion_save_response now c usr qid resp rs
    | _ => raise (AttributeError "save_response")
    end.
Proof. destruct c; reflexivity. Qed.

Lemma text_column_cases (su : PyVal → string) (resp : PyVal) :
  (resp = PyNone ∧ text_column su resp = Raise IntegrityError) ∨
  ∃ text, text_column su resp = Ok text.
Proof. destruct resp; cbn; eauto. Qed.

Lemma text_body_cases now su c usr qid resp rs d :
  DynamicTextQuestion_save_response now su c usr qid resp rs d =
    (Raise (DoesNotExist c), d) ∨
  (resp = PyNone ∧
   DynamicTextQuestion_save_response now su c usr qid resp rs d =
     (Raise IntegrityError, d)) ∨
  ∃ text,
    text_column su resp = Ok text ∧
    (∀ m, m ∈ link_tables c → qid ∈ link_table m d) ∧
    DynamicTextQuestion_save_response now su c usr qid resp rs d =
      (Ok tt,
       with_dynamictextresponse
         (insert (next_pk (t_dynamictextresponse d))
            {| tr_base := response_base now usr rs; text_response := text;
               tr_question := qid |}) d).
Proof.
  unfold DynamicTextQuestion_save_response, mbind, M_bind.
  destruct (objects_get_cases c qid d) as [E|(f & E & _ & _ & Hlinks)]; rewrite E;
    [left; reflexivity|right].
  unfold lift, fk; cbn [obj_id].
  destruct (text_column_cases su resp) as [[-> Ht]|[text Ht]]; rewrite Ht.
  - left. split; reflexivity.
  - right. exists text. split; [reflexivity|]. split; [exact Hlinks | reflexivity].
Qed.

Lemma yes_no_body_cases now c usr qid resp rs d :
  DynamicYesNoQuestion_save_response now c usr qid resp rs d = (Raise (DoesNotExist c), d) ∨
  (∀ m, m ∈ link_tables c → qid ∈ link_table m d) ∧
  DynamicYesNoQuestion_save_response now c usr qid resp rs d =
    (Ok tt,
     with_dynamicyesnoresponse
       (insert (next_pk (t_dynamicyesnoresponse d))
          {| ynr_base := response_base now usr rs; ynr_question := qid;
             response := if py_eq_str resp "yes" then true else false |}) d).
Proof.
  unfold DynamicYesNoQuestion_save_response, mbind, M_bind.
  destruct (objects_get_cases c qid d) as [E|(f & E & _ & _ & Hlinks)]; rewrite E;
    [left; reflexivity|right].
  split; [exact Hlinks | reflexivity].
Qed.

Lemma link_tables_self (m : Model) : is_link_class m → m ∈ link_tables m.
Proof.
  unfold is_link_class. rewrite !elem_of_cons, elem_of_nil.
  intros [->|[->|[->|[->|[]]]]]; apply (bool_decide_unpack _); vm_compute; exact I.
Qed.

Lemma save_response_wf now su c usr qid resp rs d :
  wf_db d → wf_db (save_response now su c usr qid resp rs d).2.
Proof.
  intros W. rewrite save_response_dispatch.
  destruct c; try exact W;
    try (rewrite multiple_choice_save_response_state; exact W).
  - destruct (text_body_cases now su DynamicTextQuestion usr qid resp rs d)
      as [->|[[_ ->]|(text & _ & Hl & ->)]]; [exact W|exact W|].
    destruct W as [W1 W2 W3 W4 W5 W6 W7 W8].
    split; cbn; try assumption.
    intros k r. rewrite lookup_insert.
    destruct (decide (_ = k)); [|apply W5].
    intros [= <-]; cbn. apply (Hl DynamicTextQuestion).
    apply link_tables_self; unfold is_link_class; rewrite !elem_of_cons; auto.
  - destruct (yes_no_body_cases now DynamicYesNoQuestion usr qid resp rs d)
      as [->|[Hl ->]]; [exact W|].
    destruct W as [W1 W2 W3 W4 W5 W6 W7 W8].
    split; cbn; try assumption.
    intros k r. rewrite lookup_insert.
    destruct (decide (_ = k)); [|apply W7].
    intros [= <-]; cbn. apply (Hl DynamicYesNoQuestion).
    apply link_tables_self; unfold is_link_class; rewrite !elem_of_cons; auto.
Qed.

(** X5: the integrity of the tables survives every call into the
    module: after any sequence of calls, every parent link still has
    its question row, every yes/no and rating link is also a
    multiple-choice link, and every response row still points to a
    question of the class its model declares. *)
Theorem integrity_is_kept (now : Z) (su : PyVal → string) (get_class : string → result ClassObj)
    (ops : list Operation) (w : World) :
  wf_db (db w) →
  wf_db (db (foldl (fun w op => run now su get_class op w) w ops)).
Proof.
  revert w. induction ops as [|op ops IH]; intros w W; [exact W|].
  cbn [foldl]. apply IH.
  destruct op; cbn [run with_db db]; try exact W.
  - rewrite save_as_Model_save. apply Model_save_wf, W.
  - rewrite resolve_state; exact W.
  - rewrite get_choices_state; exact W.
  - rewrite display_state; exact W.
  - apply save_response_wf, W.
Qed.

Lemma integrity_is_kept_witness :
  wf_db (db empty_world) ∧
  wf_db (db (foldl (fun w op => run 0 sample_unicode get_class_builtin op w) empty_world
               [call_save sample_question;
                call_save_response DynamicYesNoQuestion 7 1 (PyStr "no") 3])).
Proof.
  split; [exact wf_db_empty|].
  apply (integrity_is_kept 0 sample_unicode get_class_builtin), wf_db_empty.
Defined.

(** ** Saving composed with the listings *)

Lemma elem_of_questions (form_id k : Z) (f : QuestionFields) (d : DB) :
  (k, f) ∈ questions form_id d ↔
  t_dynamicformquestion d !! k = Some f ∧
  content_type f = DynamicForm ∧ object_id f = form_id.
Proof.
  unfold questions. rewrite order_by_perm.
  rewrite list_elem_of_In, filter_In, <- list_elem_of_In.
  rewrite elem_of_map_to_list, is_question_of_spec; tauto.
Qed.

(** X6: after a new question is saved, the question list of the form
    it is attached to holds the old entries and the new row, and the
    list of every other form holds what it held before. *)
Theorem saved_question_joins_its_form (self : Question) (d : DB) :
  obj_id self = None →
  let k := next_pk (t_dynamicformquestion d) in
  let f := fields (set_real_type (Some (cls self)) self) in
  let d' := (save self d).2 in
  ∀ form_id k' f',
    (k', f') ∈ questions form_id d' ↔
    (k', f') ∈ questions form_id d ∨
    (k' = k ∧ f' = f ∧ content_type (fields self) = DynamicForm ∧
     object_id (fields self) = form_id).
Proof.
  intros Hid k f d' form_id k' f'. subst d'.
  rewrite save_as_Model_save, Hid; cbn [id_truthy].
  set (self' := set_real_type _ self).
  destruct (Model_save_tables self' d) as (_ & Hq & _).
  change (obj_id self') with (obj_id self) in Hq; rewrite Hid in Hq.
  fold k in Hq. change (fields self') with f in Hq.
  rewrite !elem_of_questions, Hq.
  pose proof (next_pk_fresh (t_dynamicformquestion d)) as Hfresh. fold k in Hfresh.
  destruct (decide (k = k')) as [<-|Hne].
  - rewrite lookup_insert_eq, Hfresh. subst f; cbn.
    split.
    + intros ([= <-] & Hc & Ho); right; auto.
    + intros [([=] & _)|(_ & -> & Hc & Ho)]; auto.
  - rewrite lookup_insert_ne by exact Hne.
    split; [intros H; left; exact H|].
    intros [H|(Heq & _)]; [exact H | congruence].
Qed.

(** X7: [save_response] of each of the four question types, called
    with the id of something that is not a question of that type,
    raises [DoesNotExist] for that type and stores nothing. *)
Theorem save_response_unknown_question
    (now : Z) (su : PyVal → string) (c : Model) (usr qid : Z) (resp : PyVal) (rs : Z) (d : DB) :
  c ∈ question_types →
  qid ∉ link_table c d →
  save_response now su c usr qid resp rs d = (Raise (DoesNotExist c), d).
Proof.
  intros Hc Hmiss.
  assert (objects_get c qid d = (Raise (DoesNotExist c), d)) as Hget.
  { destruct (objects_get_cases c qid d) as [E|(f & _ & _ & _ & Hlinks)]; [exact E|].
    exfalso; apply Hmiss, Hlinks, link_tables_self.
    unfold question_types in Hc; unfold is_link_class.
    rewrite !elem_of_cons, elem_of_nil in *; tauto. }
  rewrite save_response_dispatch.
  unfold question_types in Hc. rewrite !elem_of_cons, elem_of_nil in Hc.
  destruct Hc as [->|[->|[->|[->|[]]]]];
    unfold DynamicTextQuestion_save_response, DynamicYesNoQuestion_save_response,
      DynamicMultipleChoiceQuestion_save_response, mbind, M_bind;
    rewrite Hget; reflexivity.
Qed.

Lemma multiple_choice_item_raises now usr rs (q : Question) (r : PyVal) (d : DB) :
  ∃ e,
    (found ← lift (PATTERN_findall r);
     meta ← lift (index0 found);
     answer ← answer_get meta.2;
     _ ← lift (models_getattr "DynamicMultipleChoiceResponse");
     k ← lift (fk q);
     update (with_dynamicmultiplechoiceresponse
               (create {| mcr_base := response_base now usr rs;
                          mcr_question := k;
                          answer := answer.1 |}))) d = (Raise e, d).
Proof.
  unfold mbind, M_bind, lift, answer_get.
  destruct (PATTERN_findall r) as [found|e]; [|eauto].
  destruct (index0 found) as [meta|e]; [|eauto].
  destruct (py_int meta.2) as [k|]; [|eauto].
  destruct (_ !! k); eauto.
Qed.

(** X8: [save_response] of the multiple-choice and rating questions
    returns normally exactly when the question exists and the
    responses are empty or otherwise false; with any other responses
    it raises. *)
Theorem multiple_choice_returns_only_for_no_responses
    (now : Z) (su : PyVal → string) (c : Model) (usr qid : Z) (resps : PyVal) (rs : Z) (d : DB) :
  c = DynamicMultipleChoiceQuestion ∨ c = DynamicRatingQuestion →
  (save_response now su c usr qid resps rs d).1 = Ok tt ↔
  truthy resps = false ∧ ∃ q, (objects_get c qid d).1 = Ok q.
Proof.
  intros Hc.
  assert (save_response now su c usr qid resps rs d =
          DynamicMultipleChoiceQuestion_save_response now c usr qid resps rs d) as ->
    by (rewrite save_response_dispatch; destruct Hc as [->| ->]; reflexivity).
  clear Hc.
  unfold DynamicMultipleChoiceQuestion_save_response.
  unfold mbind at 1, M_bind at 1.
  destruct (objects_get_cases c qid d) as [E|(f & E & _)]; rewrite E; cbn [fst].
  { split; [discriminate|]. intros [_ [q [=]]]. }
  destruct (truthy resps) eqn:Ht.
  2:{ split; [intros _; split; [reflexivity|eauto] | reflexivity]. }
  split; [|intros [[=] _]].
  intros H; exfalso; revert H.
  unfold mbind at 1, M_bind at 1, lift at 1.
  destruct (py_iter resps) as [l|e] eqn:Hiter; [|discriminate].
  assert (l ≠ []) as Hl.
  { destruct resps as [|b|z|s|l0]; cbn in Hiter, Ht; try discriminate.
    - injection Hiter as <-. destruct s; [discriminate|]. discriminate.
    - injection Hiter as <-. destruct l0; [discriminate|]. discriminate. }
  destruct l as [|r l]; [congruence|].
  cbn [for_each]. unfold mbind at 1, M_bind at 1.
  match goal with
  | |- context [for_each l ?body] =>
      destruct (multiple_choice_item_raises now usr rs
                  {| cls := c; obj_id := Some qid; fields := f |} r d) as [e He]
  end.
  rewrite He. discriminate.
Qed.

Lemma elem_of_responses (rs : Z) (d : DB) (r : Response) :
  r ∈ responses rs d ↔ stored d r ∧ response_set_of r = rs.
Proof.
  unfold responses. rewrite !elem_of_app, !list_elem_of_fmap.
  pose proof (fun x => elem_of_filter_rows
    (fun row => dynamic_response_set (mcr_base row)) rs
    (t_dynamicmultiplechoiceresponse d) x) as Hmc.
  pose proof (fun x => elem_of_filter_rows
    (fun row => dynamic_response_set (tr_base row)) rs
    (t_dynamictextresponse d) x) as Htext.
  pose proof (fun x => elem_of_filter_rows
    (fun row => dynamic_response_set (rr_base row)) rs
    (t_dynamicratingresponse d) x) as Hrating.
  pose proof (fun x => elem_of_filter_rows
    (fun row => dynamic_response_set (ynr_base row)) rs
    (t_dynamicyesnoresponse d) x) as Hyesno.
  fold (dynamicmultiplechoiceresponse_set rs d) in Hmc.
  fold (dynamictextresponse_set rs d) in Htext.
  fold (dynamicratingresponse_set rs d) in Hrating.
  fold (dynamicyesnoresponse_set rs d) in Hyesno.
  setoid_rewrite Hmc; setoid_rewrite Htext;
    setoid_rewrite Hrating; setoid_rewrite Hyesno.
  destruct r as [k row|k row|k row|k row]; cbn [stored response_set_of]; split.
  all: try (intros [(x & Hx & H)|[(x & Hx & H)|[(x & Hx & H)|(x & Hx & H)]]];
            try discriminate; injection Hx as -> ->; exact H).
  - intros H; left; exists (k, row); auto.
  - intros H; right; left; exists (k, row); auto.
  - intros H; right; right; left; exists (k, row); auto.
  - intros H; right; right; right; exists (k, row); auto.
Qed.

(** X9: a text answer other than [None], saved for an existing text
    question, shows up in the responses of its response set as one new
    text response: it carries the string given, or the text form of a
    value that is not a string; every response that was there stays,
    and the responses of the other response sets do not change.  The
    answer [None] is refused with [IntegrityError] and nothing is
    stored. *)
Theorem text_response_joins_its_set
    (now : Z) (su : PyVal → string) (usr qid : Z) (resp : PyVal) (rs : Z) (d : DB)
    (q : Question) :
  (objects_get DynamicTextQuestion qid d).1 = Ok q →
  let out := save_response now su DynamicTextQuestion usr qid resp rs d in
  (resp = PyNone → out = (Raise IntegrityError, d)) ∧
  (resp ≠ PyNone →
   ∃ k,
     let text := match resp with PyStr s => s | v => su v end in
     let new := TextResponse k
                  {| tr_base := response_base now usr rs; text_response := text;
                     tr_question := qid |} in
     out.1 = Ok tt ∧
     t_dynamictextresponse d !! k = None ∧
     (new ∉ responses rs d) ∧
     ∀ s r, r ∈ responses s out.2 ↔ r ∈ responses s d ∨ (s = rs ∧ r = new)).
Proof.
  intros Hq out. subst out. split.
  - intros ->. apply objects_get_ok in Hq as (Hget & Hk & _).
    change (save_response now su DynamicTextQuestion usr qid PyNone rs d)
      with (DynamicTextQuestion_save_response now su DynamicTextQuestion usr qid
              PyNone rs d).
    unfold DynamicTextQuestion_save_response, mbind, M_bind.
    rewrite Hget. unfold lift, fk. rewrite Hk. reflexivity.
  - intros Hne. exists (next_pk (t_dynamictextresponse d)). intros text new.
    assert (text_column su resp = Ok text) as Htext
      by (subst text; destruct resp; try reflexivity; congruence).
    rewrite (text_save_response_stores now su usr qid resp rs d q text Hq Htext);
      cbn [fst snd].
    pose proof (next_pk_fresh (t_dynamictextresponse d)) as Hfresh.
    split; [reflexivity|]. split; [exact Hfresh|]. split.
    + rewrite elem_of_responses; cbn [stored new]. rewrite Hfresh. intros [[=] _].
    + intros s r. rewrite !elem_of_responses.
      destruct r as [k row|k row|k row|k row]; cbn [stored response_set_of];
        cbn [with_dynamictextresponse t_dynamictextresponse
             t_dynamicmultiplechoiceresponse t_dynamicyesnoresponse
             t_dynamicratingresponse];
        try (split; [intros H; left; exact H | intros [H|[_ [=]]]; exact H]).
      destruct (decide (next_pk (t_dynamictextresponse d) = k)) as [<-|Hk].
      * rewrite lookup_insert_eq, Hfresh. split.
        -- intros [Hrow Hs]. injection Hrow as Hrow. subst row s.
           right; split; reflexivity.
        -- intros [[[=] _]|[Hs Hr]]. injection Hr as Hr. subst row s.
           split; reflexivity.
      * rewrite lookup_insert_ne by exact Hk. split.
        -- intros H; left; exact H.
        -- intros [H|[_ [= Hk' _]]]; [exact H | congruence].
Qed.

(** X10: every choice that the yes/no question displays can be saved,
    and the row stored for it reads back as the label that was
    displayed with it. *)
Theorem yes_no_choice_round_trip
    (now : Z) (su : PyVal → string) (usr k rs : Z) (self q : Question) (d : DB) :
  cls self = DynamicYesNoQuestion →
  obj_id self = Some k →
  (objects_get DynamicYesNoQuestion k d).1 = Ok q →
  ∃ choices name,
    display self usr d =
      (Ok (ChoiceField (question_text (fields self)) RadioSelect choices, name), d) ∧
    choices ≠ [] ∧
    Forall (fun choice =>
              ∃ row,
                save_response now su DynamicYesNoQuestion usr k (PyStr choice.1) rs d =
                  (Ok tt,
                   with_dynamicyesnoresponse
                     (insert (next_pk (t_dynamicyesnoresponse d)) row) d) ∧
                DynamicYesNoResponse_unicode row = choice.2)
      choices.
Proof.
  intros Hcls Hid Hq.
  apply objects_get_ok in Hq as (Hget & Hk & _).
  eexists _, _. split; [|split].
  - unfold display. rewrite Hcls.
    change (resolve_attr DynamicYesNoQuestion "display") with (Some DynamicYesNoQuestion).
    unfold mbind, M_bind, lift, get_form_name. rewrite Hid. reflexivity.
  - discriminate.
  - assert (∀ v, save_response now su DynamicYesNoQuestion usr k (PyStr v) rs d =
                 (Ok tt,
                  with_dynamicyesnoresponse
                    (insert (next_pk (t_dynamicyesnoresponse d))
                       {| ynr_base := response_base now usr rs; ynr_question := k;
                          response := if String.eqb v "yes" then true else false |}) d))
      as Hsave.
    { intros v. rewrite save_response_dispatch.
      destruct (yes_no_body_cases now DynamicYesNoQuestion usr k (PyStr v) rs d)
        as [E|[_ E]]; [|exact E].
      unfold DynamicYesNoQuestion_save_response, mbind, M_bind in E.
      rewrite Hget in E. unfold lift, fk in E. rewrite Hk in E. discriminate. }
    repeat constructor; eexists; (split; [apply Hsave | reflexivity]).
Qed.

(** ** What a matched name holds *)

Lemma in_digit_uint_of_char (c : ascii) (u : uint) :
  in_digit c = true → ∃ u', uint_of_char c (Some u) = Some u'.
Proof.
  destruct c as [[] [] [] [] [] [] [] []]; intros H; vm_compute in H;
    try discriminate; eexists; reflexivity.
Qed.

Lemma digits_uint_of_string (l : list ascii) :
  Forall (fun c => in_digit c = true) l →
  ∃ u, NilEmpty.uint_of_string (string_of_list_ascii l) = Some u.
Proof.
  induction 1 as [|c l Hc _ [u IH]]; cbn [string_of_list_ascii NilEmpty.uint_of_string].
  - eexists; reflexivity.
  - rewrite IH. apply in_digit_uint_of_char, Hc.
Qed.

Lemma digits_py_int (l : list ascii) :
  l ≠ [] → Forall (fun c => in_digit c = true) l →
  ∃ n, py_int (string_of_list_ascii l) = Some n ∧ 0 <= n.
Proof.
  intros Hne Hall.
  destruct (digits_uint_of_string l Hall) as [u Hu].
  destruct l as [|c l]; [congruence|].
  apply Forall_cons in Hall as [Hc _].
  assert (Ascii.eqb c "-" = false) as Hdash.
  { apply Ascii.eqb_neq; intros ->; discriminate. }
  exists (Z.of_uint u). split.
  - unfold py_int, NilZero.int_of_string, NilZero.uint_of_string.
    cbn [string_of_list_ascii] in *. rewrite Hdash, Hu. reflexivity.
  - unfold Z.of_uint. apply N2Z.is_nonneg.
Qed.

Lemma append_empty_r (x : string) : x +:+ "" = x.
Proof.
  induction x as [|a x IH]; [reflexivity|].
  change (String a (x +:+ "") = String a x). rewrite IH; reflexivity.
Qed.

Lemma string_of_list_ascii_app' (a b : list ascii) :
  string_of_list_ascii (a ++ b) = string_of_list_ascii a +:+ string_of_list_ascii b.
Proof. induction a as [|c a IH]; simpl; [reflexivity | rewrite IH; reflexivity]. Qed.

(** X11: [PATTERN.findall] on a string returns no match or one; in a
    match the first group is a non-empty run of lower-case letters and
    dashes, the second a run of digits that [int] reads as a number
    that is not negative, and the string is the first group, a dash
    and the second group, with at most a newline after them. *)
Theorem PATTERN_findall_groups (s : string) :
  PATTERN_findall (PyStr s) = Ok [] ∨
  ∃ g1 g2 n,
    PATTERN_findall (PyStr s) = Ok [(g1, g2)] ∧
    g1 ≠ "" ∧
    Forall (fun c => in_lower_dash c = true) (list_ascii_of_string g1) ∧
    py_int g2 = Some n ∧ 0 <= n ∧
    (s = g1 +:+ "-" +:+ g2 ∨
     s = g1 +:+ "-" +:+ g2 +:+ String (ascii_of_nat 10) EmptyString).
Proof.
  unfold PATTERN_findall.
  destruct (PATTERN_match (list_ascii_of_string s)) as [[g1 g2]|] eqn:E;
    [right|left; reflexivity].
  apply PATTERN_match_sound in E
    as (p & ds & tl & Hs & Hp & Hpall & Hd & Hdall & Htl & -> & ->).
  destruct (digits_py_int ds Hd Hdall) as (n & Hn & Hpos).
  exists (string_of_list_ascii p), (string_of_list_ascii ds), n.
  split; [reflexivity|].
  split; [destruct p; [congruence | discriminate]|].
  split; [rewrite list_ascii_of_string_of_list_ascii; exact Hpall|].
  split; [exact Hn|]. split; [exact Hpos|].
  rewrite <- (string_of_list_ascii_of_string s), Hs.
  change ("-"%char :: ds ++ tl) with (["-"%char] ++ ds ++ tl).
  rewrite !string_of_list_ascii_app'.
  destruct tl as [|c [|c' tl]]; cbn in Htl; try discriminate.
  - left. cbn [string_of_list_ascii]. rewrite append_empty_r. reflexivity.
  - right. apply Nat.eqb_eq in Htl.
    assert (c = ascii_of_nat 10) as ->
      by (rewrite <- (ascii_nat_embedding c), Htl; reflexivity).
    reflexivity.
Qed.

(** ** Choices and form names *)

Lemma append_inj_r (p a b : string) : p +:+ a = p +:+ b → a = b.
Proof. induction p as [|c p IH]; simpl; [auto | intros [= H]; auto]. Qed.

Lemma fmt_d_inj (a b : Z) : fmt_d a = fmt_d b → a = b.
Proof.
  intros H. pose proof (py_int_fmt_d a) as Ha.
  rewrite H, py_int_fmt_d in Ha. congruence.
Qed.

(** X12: every choice that [get_choices] of a multiple-choice question
    lists stands for a stored answer of that question: its name is the
    fixed prefix followed by the key of the answer, its label is the
    text of the answer; no two choices have the same name, and an
    instance that was never saved has no choices. *)
Theorem displayed_choices_are_the_answers (self : Question) (d : DB) :
  let choices := DynamicMultipleChoiceQuestion_get_choices self d in
  NoDup choices.*1 ∧
  (obj_id self = None → choices = []) ∧
  ∀ name text,
    (name, text) ∈ choices ↔
    ∃ k n a,
      obj_id self = Some k ∧
      t_dynamicmultiplechoiceanswer d !! n = Some a ∧
      a_question a = k ∧
      name = "dynamic-multiple-choice-answer-" +:+ fmt_d n ∧
      text = answer_text a.
Proof.
  intros choices. subst choices.
  unfold DynamicMultipleChoiceQuestion_get_choices, answer_set.
  destruct (obj_id self) as [k|]; cbn zeta.
  2:{ split; [constructor|]. split; [reflexivity|].
      intros name text; split; [inversion 1 | intros (? & ? & ? & [=] & _)]. }
  split; [|split; [discriminate|]].
  - rewrite <- list_fmap_compose.
    set (rows := List.filter _ _).
    assert (NoDup rows.*1) as Hnd by apply NoDup_fst_filter, NoDup_fst_map_to_list.
    change (NoDup ((fun n => "dynamic-multiple-choice-answer-" +:+ fmt_d n) ∘ fst <$> rows)).
    rewrite list_fmap_compose.
    apply NoDup_fmap_2; [|exact Hnd].
    intros a b H. apply append_inj_r in H. apply fmt_d_inj, H.
  - intros name text. rewrite list_elem_of_fmap. split.
    + intros ([n a] & [= -> ->] & Hin).
      apply list_elem_of_In, filter_In in Hin as [Hin Hq].
      apply list_elem_of_In, elem_of_map_to_list in Hin.
      apply Z.eqb_eq in Hq. exists k, n, a; cbn in *; auto.
    + intros (k' & n & a & [= <-] & Hrow & Hq & -> & ->).
      exists (n, a); split; [reflexivity|].
      apply list_elem_of_In, filter_In; split.
      * apply list_elem_of_In, elem_of_map_to_list, Hrow.
      * apply Z.eqb_eq, Hq.
Qed.

Lemma append_dash_inj (a b x y : string) :
  no_dash a = true → no_dash b = true →
  a +:+ "-" +:+ x = b +:+ "-" +:+ y → a = b ∧ x = y.
Proof.
  assert (∀ c u v, String c u +:+ v = String c (u +:+ v)) as Hcons
    by reflexivity.
  assert (∀ v, "" +:+ v = v) as Hnil by reflexivity.
  revert b. unfold no_dash.
  induction a as [|c a IH]; intros [|c' b];
    rewrite ?Hcons, ?Hnil; cbn [list_ascii_of_string forallb];
    intros Ha Hb H.
  - injection H as H. rewrite ?Hnil in H. subst; auto.
  - injection H as H _. subst c'. discriminate.
  - injection H as H _. subst c. discriminate.
  - injection H as Hc H. subst c'.
    apply andb_true_iff in Ha as [_ Ha]. apply andb_true_iff in Hb as [_ Hb].
    destruct (IH b Ha Hb H) as [-> ->]; auto.
Qed.

Lemma module_name_no_dash (c : Model) : no_dash (module_name c) = true.
Proof. destruct c; reflexivity. Qed.

Lemma module_name_inj (c c' : Model) : module_name c = module_name c' → c = c'.
Proof. destruct c, c'; intros H; try reflexivity; vm_compute in H; discriminate. Qed.

(** X13: form names tell questions apart: two instances with the same
    form name have the same class and the same id; and only an
    instance without id has no form name. *)
Theorem form_names_identify_questions (q1 q2 : Question) :
  (∀ name, get_form_name q1 = Ok name → get_form_name q2 = Ok name →
           cls q1 = cls q2 ∧ obj_id q1 = obj_id q2) ∧
  (get_form_name q1 = Raise TypeError ↔ obj_id q1 = None) ∧
  (∀ e, get_form_name q1 = Raise e → e = TypeError).
Proof.
  unfold get_form_name. split; [|split].
  - intros name H1 H2.
    destruct (obj_id q1) as [k1|], (obj_id q2) as [k2|]; try discriminate.
    injection H1 as <-. injection H2 as H.
    apply append_dash_inj in H as [Hc Hk]; try apply module_name_no_dash.
    apply module_name_inj in Hc. apply fmt_d_inj in Hk. split; congruence.
  - destruct (obj_id q1); split; (discriminate || reflexivity).
  - intros e. destruct (obj_id q1); [discriminate | intros [= <-]; reflexivity].
Qed.

(** ** More on the registration *)

(** X14: the first configured string whose import raises anything but
    [QuestionTypeRegisterError], or whose class cannot name itself,
    aborts the registration with that exception: nothing is returned,
    whatever comes after it is not looked at, and only the failures
    before it have been printed. *)
Theorem register_questions_types_aborts
    (get_class : string → result ClassObj) (before after : list string)
    (t : string) (e : Exn) :
  Forall (question_type_or_failure get_class) before →
  (get_class t = Raise e ∧ e ≠ QuestionTypeRegisterError) ∨
  (∃ c, get_class t = Ok c ∧ class_pretty_name c = Raise e) →
  register_questions_types get_class [before; t :: after] =
    (Raise e,
     map (fun t => "Failed to register " +:+ t)
       (List.filter (import_fails get_class) before)).
Proof.
  intros Hbefore Ht.
  unfold register_questions_types. cbn [concat]. rewrite app_nil_r.
  rewrite register_loop_app, register_loop_spec by exact Hbefore.
  cbn [app register_loop].
  destruct Ht as [[Hget Hne]|(c & Hget & Hname)].
  - rewrite Hget. destruct e; try reflexivity. congruence.
  - rewrite Hget, Hname. reflexivity.
Qed.

(** X15: registering two tuples in one call gives what registering
    each on its own gives, one after the other: the entries of the
    first tuple come first and unchanged, and the call returns exactly
    when both registrations return. *)
Theorem register_questions_types_concatenates
    (get_class : string → result ClassObj) (a b : list string)
    (l : list QuestionType) (out : list string) :
  register_questions_types get_class [a; b] = (Ok l, out) ↔
  ∃ la oa lb ob,
    register_questions_types get_class [a] = (Ok la, oa) ∧
    register_questions_types get_class [b] = (Ok lb, ob) ∧
    l = la ++ lb ∧ out = oa ++ ob.
Proof.
  unfold register_questions_types. cbn [concat]. rewrite !app_nil_r.
  rewrite register_loop_app.
  destruct (register_loop get_class a [] []) as [[la|e] oa].
  - rewrite register_loop_acc.
    destruct (register_loop get_class b [] []) as [[lb|e] ob]; cbn [fst snd].
    + split.
      * intros [= <- <-]. exists la, oa, lb, ob; auto.
      * intros (? & ? & ? & ? & [= <- <-] & [= <- <-] & -> & ->); reflexivity.
    + split; [discriminate|]. intros (? & ? & ? & ? & _ & [=] & _).
  - split; [discriminate|]. intros (? & ? & ? & ? & [=] & _).
Qed.

(** ** The admin site *)

Lemma existsb_registry (path : string) (l : list (string * AdminClass)) :
  existsb (fun p => String.eqb p.1 path) l = true ↔ path ∈ l.*1.
Proof.
  rewrite existsb_exists, list_elem_of_fmap. split.
  - intros (x & Hin & Heq). apply String.eqb_eq in Heq.
    exists x; split; [congruence | apply list_elem_of_In, Hin].
  - intros (x & -> & Hin). exists x; split; [apply list_elem_of_In, Hin|].
    apply String.eqb_refl.
Qed.

Lemma register_admin_step (t : QuestionType) (rest : list QuestionType)
    (site : AdminSite) :
  let path := class_path (class_ t) in
  let inline := last_choice_class (StackedInline_model site) [t] in
  register_admin (t :: rest) site =
    if existsb (fun p => String.eqb p.1 path) (site_registry site)
    then (Raise (AlreadyRegistered path),
          {| site_registry := site_registry site; StackedInline_model := inline |})
    else register_admin rest
           {| site_registry := site_registry site ++ [(path, admin_class_for t)];
              StackedInline_model := inline |}.
Proof.
  destruct site as [reg si]. cbn [register_admin].
  unfold last_choice_class, admin_class_for; cbn [foldl].
  destruct (class_choice_class (class_ t)) as [cc|];
    unfold site_register; cbn [site_registry StackedInline_model];
    destruct (existsb _ reg); reflexivity.
Qed.

Lemma last_choice_class_cons init t qts :
  last_choice_class init (t :: qts) =
  last_choice_class (last_choice_class init [t]) qts.
Proof. reflexivity. Qed.

Lemma register_admin_appends (qts : list QuestionType) (site : AdminSite) :
  NoDup (class_paths qts) →
  (∀ p, p ∈ class_paths qts → p ∉ (site_registry site).*1) →
  register_admin qts site =
    (Ok tt,
     {| site_registry := site_registry site ++
                         map (fun t => (class_path (class_ t), admin_class_for t)) qts;
        StackedInline_model := last_choice_class (StackedInline_model site) qts |}).
Proof.
  revert site. induction qts as [|t qts IH]; intros site Hnd Hnew.
  - destruct site; cbn. rewrite app_nil_r; reflexivity.
  - cbn [class_paths map] in Hnd, Hnew. apply NoDup_cons in Hnd as [Ht Hnd].
    rewrite register_admin_step; cbv zeta.
    destruct (existsb _ (site_registry site)) eqn:E.
    { apply existsb_registry in E. exfalso. apply (Hnew (class_path (class_ t))); [|exact E].
      apply elem_of_cons; left; reflexivity. }
    rewrite IH; [| exact Hnd |].
    + cbn [site_registry StackedInline_model map].
      rewrite <- app_assoc, last_choice_class_cons; reflexivity.
    + intros p Hp. cbn [site_registry]. rewrite fmap_app, elem_of_app.
      intros [Hin|Hin].
      * apply (Hnew p); [apply elem_of_cons; right; exact Hp | exact Hin].
      * cbn in Hin. apply list_elem_of_singleton in Hin. subst p. exact (Ht Hp).
Qed.

(** X16: [register_admin] over entries whose classes are pairwise
    different and not yet registered returns, and leaves on the site
    one admin class per entry, after those already there and in the
    order of the entries; an entry has the stacked inline exactly when
    its class has a [choice_class]; and the one inline class that they
    all share ends up with the [choice_class] of the last such entry
    as its model. *)
Theorem register_admin_result (qts : list QuestionType) (site : AdminSite) :
  NoDup (class_paths qts) →
  (∀ p, p ∈ class_paths qts → p ∉ (site_registry site).*1) →
  register_admin qts site =
    (Ok tt,
     {| site_registry := site_registry site ++
                         map (fun t => (class_path (class_ t), admin_class_for t)) qts;
        StackedInline_model := last_choice_class (StackedInline_model site) qts |}).
Proof. apply register_admin_appends. Qed.

Lemma register_admin_ok_inv (qts : list QuestionType) (site : AdminSite) :
  (register_admin qts site).1 = Ok tt →
  NoDup (class_paths qts) ∧
  ∀ p, p ∈ class_paths qts → p ∉ (site_registry site).*1.
Proof.
  revert site. induction qts as [|t qts IH]; intros site.
  - intros _. split; [constructor | intros p Hp; inversion Hp].
  - rewrite register_admin_step; cbv zeta.
    destruct (existsb _ (site_registry site)) eqn:E; [discriminate|].
    intros H. apply IH in H as [Hnd Hnew]. cbn [site_registry] in Hnew.
    assert (class_path (class_ t) ∉ (site_registry site).*1) as Hfresh.
    { intros Hin. apply existsb_registry in Hin. congruence. }
    cbn [class_paths map]. split.
    + apply NoDup_cons; split; [|exact Hnd].
      intros Hin. apply (Hnew _ Hin). rewrite fmap_app, elem_of_app. right.
      cbn. apply list_elem_of_singleton; reflexivity.
    + intros p Hp. apply elem_of_cons in Hp as [->|Hp]; [exact Hfresh|].
      intros Hin. apply (Hnew _ Hp). rewrite fmap_app, elem_of_app. left; exact Hin.
Qed.

(** X17: [register_admin] returns exactly when the classes of the
    entries are pairwise different and none is registered already;
    otherwise it raises [AlreadyRegistered] for one of them.  So a
    second run over the same entries, if there are any, always
    raises. *)
Theorem register_admin_returns_iff (qts : list QuestionType) (site : AdminSite) :
  ((register_admin qts site).1 = Ok tt ↔
   NoDup (class_paths qts) ∧
   ∀ p, p ∈ class_paths qts → p ∉ (site_registry site).*1) ∧
  ((register_admin qts site).1 = Ok tt ∨
   ∃ p, p ∈ class_paths qts ∧
        (register_admin qts site).1 = Raise (AlreadyRegistered p)) ∧
  ((register_admin qts site).1 = Ok tt → qts ≠ [] →
   ∃ p, (register_admin qts (register_admin qts site).2).1 =
          Raise (AlreadyRegistered p)).
Proof.
  pose proof register_admin_ok_inv as Hnec.
  assert (∀ qts site,
            (register_admin qts site).1 = Ok tt ∨
            ∃ p, p ∈ class_paths qts ∧
                 (register_admin qts site).1 = Raise (AlreadyRegistered p)) as Hcases.
  { clear. induction qts as [|t qts IH]; intros site; [left; reflexivity|].
    rewrite register_admin_step; cbv zeta.
    destruct (existsb _ (site_registry site)).
    - right. eexists; split; [|reflexivity]. apply elem_of_cons; left; reflexivity.
    - destruct (IH {| site_registry := site_registry site ++
                                       [(class_path (class_ t), admin_class_for t)];
                      StackedInline_model :=
                        last_choice_class (StackedInline_model site) [t] |})
        as [H|(p & Hp & H)]; [left; exact H|].
      right; exists p; split; [apply elem_of_cons; right; exact Hp | exact H]. }
  split; [|split].
  - split; [apply Hnec|]. intros [Hnd Hnew].
    rewrite (register_admin_appends qts site Hnd Hnew). reflexivity.
  - apply Hcases.
  - intros Hok Hne.
    destruct (Hnec _ _ Hok) as [Hnd Hnew].
    rewrite (register_admin_appends qts site Hnd Hnew). cbn [snd].
    destruct qts as [|t qts]; [congruence|].
    rewrite register_admin_step; cbv zeta. cbn [site_registry].
    assert (existsb (fun p => String.eqb p.1 (class_path (class_ t)))
              (site_registry site ++
               map (fun t => (class_path (class_ t), admin_class_for t)) (t :: qts))
            = true) as ->.
    { apply existsb_registry. rewrite fmap_app, elem_of_app. right.
      cbn. apply elem_of_cons; left; reflexivity. }
    eexists; reflexivity.
Qed.

(** X18: when the import of the module succeeds, its globals agree
    with each other: [CHOICES] is the blank entry followed by one
    entry per registered type, labelled with its pretty name, in the
    order of [QUESTION_TYPES]; the admin site has gained exactly one
    admin class per registered type, in that order; the registered
    classes are pairwise different; and no row has been written. *)
Theorem import_leaves_globals_in_step
    (get_class : string → result ClassObj) (custom : list string)
    (site : AdminSite) (d : DB) (w : World) :
  import_module get_class custom site d = Ok w →
  let qts := QUESTION_TYPES (globals w) in
  CHOICES (globals w) = _get_creation_choices qts ∧
  (CHOICES (globals w)).*2 = "------" :: map qt_pretty_name qts ∧
  length (CHOICES (globals w)) = S (length qts) ∧
  site_registry (admin_site w) =
    site_registry site ++ map (fun t => (class_path (class_ t), admin_class_for t)) qts ∧
  NoDup (class_paths qts) ∧
  db w = d.
Proof.
  unfold import_module.
  destruct (register_questions_types _ _) as [[qts|e] out]; [|discriminate].
  destruct (register_admin qts site) as [[[]|e] site'] eqn:E; [|discriminate].
  intros [= <-]; cbn [globals QUESTION_TYPES CHOICES admin_site db].
  assert ((register_admin qts site).1 = Ok tt) as Hok by (rewrite E; reflexivity).
  destruct (register_admin_ok_inv qts site Hok) as [Hnd Hnew].
  rewrite (register_admin_appends qts site Hnd Hnew) in E. injection E as <-.
  split; [reflexivity|].
  split.
  { unfold _get_creation_choices. cbn [fmap list_fmap]. f_equal.
    rewrite <- list_fmap_compose. reflexivity. }
  split.
  { unfold _get_creation_choices. cbn [length]. rewrite length_map. reflexivity. }
  split; [reflexivity|]. split; [exact Hnd | reflexivity].
Qed.

(** ** What the module never writes *)

Lemma save_response_writes now su c usr qid resp rs d :
  let d' := (save_response now su c usr qid resp rs d).2 in
  t_dynamicformquestion d' = t_dynamicformquestion d ∧
  (∀ m, link_table m d' = link_table m d) ∧
  t_dynamicmultiplechoiceanswer d' = t_dynamicmultiplechoiceanswer d ∧
  t_dynamicratinganswer d' = t_dynamicratinganswer d ∧
  t_dynamictextresponse d ⊆ t_dynamictextresponse d' ∧
  t_dynamicmultiplechoiceresponse d' = t_dynamicmultiplechoiceresponse d ∧
  t_dynamicyesnoresponse d ⊆ t_dynamicyesnoresponse d' ∧
  t_dynamicratingresponse d' = t_dynamicratingresponse d.
Proof.
  cbv zeta. rewrite save_response_dispatch.
  destruct c; try (cbn; repeat split; reflexivity);
    try (rewrite multiple_choice_save_response_state; repeat split; reflexivity).
  - destruct (text_body_cases now su DynamicTextQuestion usr qid resp rs d)
      as [->|[[_ ->]|(text & _ & _ & ->)]];
      [cbn; repeat split; reflexivity|cbn; repeat split; reflexivity|].
    cbn. repeat split; try reflexivity; try (intros m; destruct m; reflexivity).
    apply insert_subseteq, next_pk_fresh.
  - destruct (yes_no_body_cases now DynamicYesNoQuestion usr qid resp rs d)
      as [->|[_ ->]]; [cbn; repeat split; reflexivity|].
    cbn. repeat split; try reflexivity; try (intros m; destruct m; reflexivity).
    apply insert_subseteq, next_pk_fresh.
Qed.

(** X19: no sequence of calls into the module ever writes an answer,
    a multiple-choice response or a rating response: these four tables
    stay as they were; and the text and yes/no responses only grow:
    every row that was stored is still there, unchanged. *)
Theorem responses_are_only_added (now : Z) (su : PyVal → string) (get_class : string → result ClassObj)
    (ops : list Operation) (w : World) :
  let d := db w in
  let d' := db (foldl (fun w op => run now su get_class op w) w ops) in
  t_dynamicmultiplechoiceanswer d' = t_dynamicmultiplechoiceanswer d ∧
  t_dynamicratinganswer d' = t_dynamicratinganswer d ∧
  t_dynamicmultiplechoiceresponse d' = t_dynamicmultiplechoiceresponse d ∧
  t_dynamicratingresponse d' = t_dynamicratingresponse d ∧
  t_dynamictextresponse d ⊆ t_dynamictextresponse d' ∧
  t_dynamicyesnoresponse d ⊆ t_dynamicyesnoresponse d'.
Proof.
  cbv zeta. revert w.
  induction ops as [|op ops IH]; intros w; [repeat split; reflexivity|].
  cbn [foldl].
  destruct (IH (run now su get_class op w)) as (H1 & H2 & H3 & H4 & H5 & H6).
  assert (t_dynamicmultiplechoiceanswer (db (run now su get_class op w)) =
            t_dynamicmultiplechoiceanswer (db w) ∧
          t_dynamicratinganswer (db (run now su get_class op w)) =
            t_dynamicratinganswer (db w) ∧
          t_dynamicmultiplechoiceresponse (db (run now su get_class op w)) =
            t_dynamicmultiplechoiceresponse (db w) ∧
          t_dynamicratingresponse (db (run now su get_class op w)) =
            t_dynamicratingresponse (db w) ∧
          t_dynamictextresponse (db w) ⊆
            t_dynamictextresponse (db (run now su get_class op w)) ∧
          t_dynamicyesnoresponse (db w) ⊆
            t_dynamicyesnoresponse (db (run now su get_class op w)))
    as (S1 & S2 & S3 & S4 & S5 & S6).
  { destruct op; cbn [run with_db db]; try (repeat split; reflexivity).
    - rewrite save_as_Model_save.
      match goal with
      | |- context [Model_save ?x ?d] =>
          destruct (Model_save_tables x d)
            as (_ & _ & _ & Ha & Hra & Ht & Hm & Hy & Hr)
      end.
      rewrite Ha, Hra, Ht, Hm, Hy, Hr. repeat split; reflexivity.
    - rewrite resolve_state; repeat split; reflexivity.
    - rewrite get_choices_state; repeat split; reflexivity.
    - rewrite display_state; repeat split; reflexivity.
    - match goal with
      | |- context [save_response ?n ?f ?c ?u ?q ?r ?s ?d] =>
          destruct (save_response_writes n f c u q r s d)
            as (_ & _ & Ha & Hra & Ht & Hm & Hy & Hr)
      end.
      repeat split; assumption. }
  rewrite H1, H2, H3, H4, S1, S2, S3, S4.
  repeat split; try reflexivity; etrans; eassumption.
Qed.

(** X20: [resolve], [get_choices] and [display] only read: whatever
    the instance and the tables, and whether the call returns or
    raises, the database after the call is the database before it. *)
Theorem queries_leave_the_database (self : Question) (usr : Z) (d : DB) :
  (resolve self d).2 = d ∧
  (get_choices self d).2 = d ∧
  (display self usr d).2 = d.
Proof.
  split; [apply resolve_state|].
  split; [apply get_choices_state | apply display_state].
Qed.

(** ** Form fields and names of instances *)

(** X21: [display] of an instance of one of the four question types
    never writes; it returns exactly when the instance has an id, and
    then the name it returns is the form name of the instance; without
    an id it raises [TypeError].  On the base class it raises
    [NotImplementedError]. *)
Theorem display_needs_an_id (self : Question) (usr : Z) (d : DB) :
  cls self ∈ question_types →
  (display self usr d).2 = d ∧
  (obj_id self = None → (display self usr d).1 = Raise TypeError) ∧
  (∀ k, obj_id self = Some k →
        ∃ field,
          (display self usr d).1 =
            Ok (field, module_name (cls self) +:+ "-" +:+ fmt_d k)) ∧
  (display {| cls := DynamicFormQuestion; obj_id := obj_id self;
              fields := fields self |} usr d).1 =
    Raise (NotImplementedError "I don't know how to display myself.").
Proof.
  intros Hc. split; [apply display_state|].
  unfold question_types in Hc. rewrite !elem_of_cons, elem_of_nil in Hc.
  unfold display, get_choices, get_form_name, mbind, M_bind, lift, query.
  destruct self as [c oid f]; cbn [cls obj_id fields] in *.
  split; [|split].
  - intros ->. destruct Hc as [->|[->|[->|[->|[]]]]]; reflexivity.
  - intros k ->. destruct Hc as [->|[->|[->|[->|[]]]]]; eexists; reflexivity.
  - reflexivity.
Qed.

Lemma length_substring_0 (n : nat) (s : string) :
  String.length (substring 0 n s) = Nat.min n (String.length s).
Proof.
  revert s. induction n as [|n IH]; intros [|c s]; cbn; try reflexivity.
  rewrite IH; reflexivity.
Qed.

Lemma length_append (a b : string) :
  String.length (a +:+ b) = (String.length a + String.length b)%nat.
Proof. induction a as [|c a IH]; simpl; [reflexivity | rewrite IH; reflexivity]. Qed.

(** X22: the text form of a question is never longer than 23
    characters: the first 20 characters of its text, all of it when
    it is shorter, followed by three dots. *)
Theorem unicode_Question_length (self : Question) :
  let text := question_text (fields self) in
  String.length (unicode_Question self) = (Nat.min 20 (String.length text) + 3)%nat ∧
  (String.length (unicode_Question self) <= 23)%nat ∧
  ((String.length text <= 20)%nat → unicode_Question self = text +:+ "...").
Proof.
  cbv zeta. unfold unicode_Question.
  rewrite length_append, length_substring_0. cbn [String.length].
  split; [reflexivity|]. split; [lia|].
  generalize (question_text (fields self)); intros s Hs.
  f_equal. revert Hs. generalize 20%nat; intros n. revert s.
  induction n as [|n IH]; intros [|c s]; cbn; intros Hs; try reflexivity; try lia.
  rewrite IH by lia; reflexivity.
Qed.

(** * Further instances on sample data *)

Lemma objects_get_upcast_witness :
  ∃ q,
    (objects_get DynamicYesNoQuestion 1 sample_db).1 = Ok q ∧
    DynamicMultipleChoiceQuestion ∈ mro DynamicYesNoQuestion ∧
    objects_get DynamicMultipleChoiceQuestion 1 sample_db =
      (Ok {| cls := DynamicMultipleChoiceQuestion; obj_id := Some 1;
             fields := fields q |}, sample_db).
Proof.
  eexists.
  assert ((objects_get DynamicYesNoQuestion 1 sample_db).1 = Ok _) as Hq
    by (vm_compute; reflexivity).
  assert (DynamicMultipleChoiceQuestion ∈ mro DynamicYesNoQuestion) as Hmro
    by (apply (bool_decide_unpack _); vm_compute; exact I).
  split; [exact Hq|]. split; [exact Hmro|].
  apply (objects_get_upcast DynamicYesNoQuestion DynamicMultipleChoiceQuestion 1
           sample_db _ Hq Hmro).
  vm_compute; reflexivity.
Defined.

Lemma save_new_question_frame_witness :
  obj_id sample_text_question = None ∧
  ∃ k,
    (save sample_text_question sample_db).1 =
      Ok {| cls := DynamicTextQuestion; obj_id := Some k;
            fields := fields (set_real_type (Some DynamicTextQuestion)
                                sample_text_question) |} ∧
    t_dynamicformquestion sample_db !! k = None ∧
    real_type <$> t_dynamicformquestion (save sample_text_question sample_db).2 !! k =
      Some (Some DynamicTextQuestion).
Proof.
  split; [reflexivity|].
  destruct (save_new_question_frame sample_text_question sample_db eq_refl)
    as (k & Hres & Hfree & Hrow & _).
  exists k. split; [exact Hres|]. split; [exact Hfree|].
  rewrite Hrow; reflexivity.
Defined.

Lemma save_again_changes_nothing_witness :
  ∃ saved d',
    save sample_question empty_db = (Ok saved, d') ∧
    save saved d' = (Ok saved, d').
Proof.
  eexists _, _.
  assert (save sample_question empty_db = (Ok _, _)) as Hsave by reflexivity.
  split; [exact Hsave|].
  exact (save_again_changes_nothing _ _ _ _ Hsave).
Defined.

Lemma resolve_returns_the_tagged_row_witness :
  ∃ parent q,
    (objects_get DynamicFormQuestion 1 sample_db).1 = Ok parent ∧
    (resolve parent sample_db).1 = Ok q ∧
    cls q = DynamicYesNoQuestion ∧
    resolve q sample_db = (Ok q, sample_db).
Proof.
  eexists _, _.
  split; [vm_compute; reflexivity|].
  assert ((resolve {| cls := DynamicFormQuestion; obj_id := Some 1;
                      fields := fields (set_real_type (Some DynamicYesNoQuestion)
                                          sample_question) |} sample_db).1 = Ok _)
    as Hq by (vm_compute; reflexivity).
  split; [exact Hq|].
  destruct (resolve_returns_the_tagged_row _ _ _ Hq) as (_ & _ & _ & _ & Hagain).
  split; [reflexivity|]. apply Hagain. reflexivity.
Defined.

Lemma saved_question_joins_its_form_witness :
  obj_id sample_question = None ∧
  (1, fields (set_real_type (Some DynamicYesNoQuestion) sample_question))
    ∈ questions 1 (save sample_question empty_db).2.
Proof.
  split; [reflexivity|].
  apply (saved_question_joins_its_form sample_question empty_db eq_refl).
  right. repeat split; reflexivity.
Defined.

Lemma save_response_unknown_question_witness :
  DynamicTextQuestion ∈ question_types ∧
  (1 ∉ link_table DynamicTextQuestion sample_db) ∧
  save_response 0 sample_unicode DynamicTextQuestion 7 1 (PyStr "hello") 3 sample_db =
    (Raise (DoesNotExist DynamicTextQuestion), sample_db).
Proof.
  assert (DynamicTextQuestion ∈ question_types) as Hc
    by (apply (bool_decide_unpack _); vm_compute; exact I).
  assert (1 ∉ link_table DynamicTextQuestion sample_db) as Hmiss
    by (apply (bool_decide_unpack _); vm_compute; exact I).
  split; [exact Hc|]. split; [exact Hmiss|].
  exact (save_response_unknown_question 0 sample_unicode DynamicTextQuestion 7 1 (PyStr "hello") 3
           sample_db Hc Hmiss).
Defined.

Lemma multiple_choice_returns_only_for_no_responses_witness :
  (save_response 0 sample_unicode DynamicRatingQuestion 7 1 (PyStr "dynamic-rating-answer-5") 3
     rating_db).1 ≠ Ok tt ∧
  (save_response 0 sample_unicode DynamicRatingQuestion 7 1 (PyList []) 3 rating_db).1 = Ok tt.
Proof.
  split.
  - intros H.
    apply (multiple_choice_returns_only_for_no_responses 0 sample_unicode DynamicRatingQuestion 7 1
             (PyStr "dynamic-rating-answer-5") 3 rating_db (or_intror eq_refl)) in H
      as [H _].
    discriminate.
  - apply (multiple_choice_returns_only_for_no_responses 0 sample_unicode DynamicRatingQuestion 7 1
             (PyList []) 3 rating_db (or_intror eq_refl)).
    split; [reflexivity|]. eexists; vm_compute; reflexivity.
Defined.

Lemma text_response_joins_its_set_witness :
  ∃ q,
    (objects_get DynamicTextQuestion 1 text_db).1 = Ok q ∧
    PyStr "hello" ≠ PyNone ∧
    (∃ k, TextResponse k {| tr_base := response_base 0 7 3; text_response := "hello";
                            tr_question := 1 |}
            ∈ responses 3
                (save_response 0 sample_unicode DynamicTextQuestion 7 1 (PyStr "hello") 3
                   text_db).2) ∧
    save_response 0 sample_unicode DynamicTextQuestion 7 1 PyNone 3 text_db =
      (Raise IntegrityError, text_db).
Proof.
  eexists.
  assert ((objects_get DynamicTextQuestion 1 text_db).1 = Ok _) as Hq
    by (vm_compute; reflexivity).
  split; [exact Hq|]. split; [discriminate|].
  split.
  - destruct (text_response_joins_its_set 0 sample_unicode 7 1 (PyStr "hello") 3
                text_db _ Hq) as (_ & Hstored).
    destruct (Hstored ltac:(discriminate)) as (k & _ & _ & _ & Hin).
    exists k. apply Hin. right. split; reflexivity.
  - exact (proj1 (text_response_joins_its_set 0 sample_unicode 7 1 PyNone 3
                    text_db _ Hq) eq_refl).
Defined.

Lemma yes_no_choice_round_trip_witness :
  ∃ q choices name,
    (objects_get DynamicYesNoQuestion 1 sample_db).1 = Ok q ∧
    (display q 7 sample_db).1 =
      Ok (ChoiceField "Do you agree with this statement?" RadioSelect choices, name) ∧
    choices.*2 = ["Yes"; "No"].
Proof.
  eexists.
  assert ((objects_get DynamicYesNoQuestion 1 sample_db).1 = Ok _) as Hq
    by (vm_compute; reflexivity).
  match type of Hq with
  | _ = Ok ?q =>
      destruct (yes_no_choice_round_trip 0 sample_unicode 7 1 3 q q sample_db eq_refl eq_refl Hq)
        as (choices & name & Hdisplay & _ & _)
  end.
  eexists _, _. split; [exact Hq|].
  split; vm_compute; reflexivity.
Defined.

Lemma register_questions_types_aborts_witness :
  Forall (question_type_or_failure get_class_builtin) DEFAULT_QUESTION_TYPES ∧
  register_questions_types get_class_builtin
    [DEFAULT_QUESTION_TYPES; ["dynamicforms.models.DynamicFormQuestion"; "foo.Bar"]] =
    (Raise (NotImplementedError "You should resolve me first before you ask me my name"),
     []).
Proof.
  assert (Forall (question_type_or_failure get_class_builtin) DEFAULT_QUESTION_TYPES)
    as Hall.
  { unfold DEFAULT_QUESTION_TYPES.
    repeat (apply Forall_cons; split;
            [right; eexists _, _; split; reflexivity|]).
    constructor. }
  split; [exact Hall|].
  rewrite (register_questions_types_aborts get_class_builtin DEFAULT_QUESTION_TYPES
             ["foo.Bar"] "dynamicforms.models.DynamicFormQuestion"
             (NotImplementedError "You should resolve me first before you ask me my name")
             Hall).
  - reflexivity.
  - right. eexists; split; reflexivity.
Defined.

Lemma register_admin_result_witness :
  let qts := omap (registered get_class_builtin) DEFAULT_QUESTION_TYPES in
  NoDup (class_paths qts) ∧
  StackedInline_model (register_admin qts empty_site).2 =
    Some "DynamicMultipleChoiceAnswer" ∧
  length (site_registry (register_admin qts empty_site).2) = 4%nat.
Proof.
  cbv zeta.
  assert (NoDup (class_paths (omap (registered get_class_builtin)
                                DEFAULT_QUESTION_TYPES))) as Hnd
    by (apply (bool_decide_unpack _); vm_compute; exact I).
  split; [exact Hnd|].
  rewrite (register_admin_result _ empty_site Hnd).
  - split; reflexivity.
  - intros p _ Hin. inversion Hin.
Defined.

Lemma import_leaves_globals_in_step_witness :
  ∃ w, import_module get_class_builtin ["foo.Bar"] empty_site empty_db = Ok w ∧
       length (CHOICES (globals w)) = 5%nat ∧
       length (site_registry (admin_site w)) = 4%nat.
Proof.
  eexists.
  assert (import_module get_class_builtin ["foo.Bar"] empty_site empty_db = Ok _)
    as Himport by (vm_compute; reflexivity).
  split; [exact Himport|].
  destruct (import_leaves_globals_in_step _ _ _ _ _ Himport)
    as (_ & _ & Hlen & Hreg & _).
  split; [rewrite Hlen; reflexivity | rewrite Hreg; reflexivity].
Defined.

Lemma display_needs_an_id_witness :
  sample_question.(cls) ∈ question_types ∧
  (display sample_question 7 empty_db).1 = Raise TypeError.
Proof.
  assert (cls sample_question ∈ question_types) as Hc
    by (apply (bool_decide_unpack _); vm_compute; exact I).
  split; [exact Hc|].
  apply (display_needs_an_id sample_question 7 empty_db Hc). reflexivity.
Defined.
